(** * Institutional 13F tracker (datafetcher/institutional_tracker.py,
      datafetcher/simplified_institutional.py)

    Shallow embedding of the 13F crawler, the three-strategy holdings parser,
    the numeric coercion of the structured-table strategy, the full-text
    fallback and the yearly historical summary.

    Conventions.
    - Python [str] values are Rocq [string]s (ASCII); [\d] and [\w] of the
      regular expressions are read over ASCII.
    - Python floats are modelled by exact rationals [Q]: every decimal literal
      the code parses is mapped to its exact value.
    - A Python exception is the [Raise] case of [result]; a [try]/[except]
      is written out where the source has it. *)

From Stdlib Require Import Ascii String List ZArith QArith Lia Sorting.Permutation Sorting.Sorted.
Import ListNotations.
From Stdlib Require Structures.OrderedTypeEx.
Open Scope Z_scope.

(** ** Exceptions *)

Inductive exn : Type :=
| ValueError
| IndexError
| KeyError
| RequestError
| ReError.

Inductive result (A : Type) : Type :=
| Ok (a : A)
| Raise (e : exn).
Arguments Ok {A} a.
Arguments Raise {A} e.

Definition rbind {A B} (m : result A) (k : A -> result B) : result B :=
  match m with
  | Ok a => k a
  | Raise e => Raise e
  end.

Notation "x <- m ;; k" := (rbind m (fun x => k))
  (at level 61, m at next level, right associativity).

(** [try: m except: return h] *)
Definition try_except {A} (m : result A) (h : A) : result A :=
  match m with
  | Ok a => Ok a
  | Raise _ => Ok h
  end.

(** ** Characters and strings *)

Definition is_digit (c : ascii) : bool :=
  let n := nat_of_ascii c in (48 <=? n)%nat && (n <=? 57)%nat.

(** [\w] over ASCII: letters, digits and the underscore. *)
Definition is_word (c : ascii) : bool :=
  let n := nat_of_ascii c in
  is_digit c || ((65 <=? n)%nat && (n <=? 90)%nat)
  || ((97 <=? n)%nat && (n <=? 122)%nat) || Ascii.eqb c "_"%char.

(** [str.lower] on ASCII. *)
Definition lower_char (c : ascii) : ascii :=
  let n := nat_of_ascii c in
  if (65 <=? n)%nat && (n <=? 90)%nat then ascii_of_nat (n + 32) else c.

Definition lower (s : string) : string :=
  string_of_list_ascii (map lower_char (list_ascii_of_string s)).

(** [str.isspace] on ASCII: space, \t \n \v \f \r and \x1c .. \x1f. *)
Definition is_space (c : ascii) : bool :=
  let n := nat_of_ascii c in
  (n =? 32)%nat || ((9 <=? n)%nat && (n <=? 13)%nat)
  || ((28 <=? n)%nat && (n <=? 31)%nat).

Fixpoint drop_spaces (l : list ascii) : list ascii :=
  match l with
  | c :: r => if is_space c then drop_spaces r else l
  | [] => []
  end.

(** [str.strip()] *)
Definition strip_l (l : list ascii) : list ascii :=
  rev (drop_spaces (rev (drop_spaces l))).

Definition strip (s : string) : string :=
  string_of_list_ascii (strip_l (list_ascii_of_string s)).

Fixpoint is_prefix (p l : list ascii) : bool :=
  match p, l with
  | [], _ => true
  | a :: p', b :: l' => Ascii.eqb a b && is_prefix p' l'
  | _ :: _, [] => false
  end.

(** [needle in hay] *)
Fixpoint contains_l (needle hay : list ascii) : bool :=
  is_prefix needle hay ||
  match hay with
  | [] => false
  | _ :: hay' => contains_l needle hay'
  end.

Definition contains (needle hay : string) : bool :=
  contains_l (list_ascii_of_string needle) (list_ascii_of_string hay).

(** [s.split(sep)] for a one-character separator. *)
Fixpoint split_l (sep : ascii) (l : list ascii) : list (list ascii) :=
  match l with
  | [] => [[]]
  | c :: r =>
      if Ascii.eqb c sep then [] :: split_l sep r
      else match split_l sep r with
           | w :: ws => (c :: w) :: ws
           | [] => [[c]]
           end
  end.

Definition str_split (sep : ascii) (s : string) : list string :=
  map string_of_list_ascii (split_l sep (list_ascii_of_string s)).

Fixpoint take_digits (l : list ascii) : list ascii * list ascii :=
  match l with
  | c :: r =>
      if is_digit c then let (d, rest) := take_digits r in (c :: d, rest)
      else ([], l)
  | [] => ([], [])
  end.

Definition digit_val (c : ascii) : Z := Z.of_nat (nat_of_ascii c) - 48.

Definition digits_Z (d : list ascii) : Z :=
  fold_left (fun acc c => acc * 10 + digit_val c) d 0.

(** ** Python's [float(str)] and [int(str)]

    [py_float] follows Python's float grammar for the strings the call sites
    give it: an optional sign, then [digits ['.' [digits]]] or
    ['.' digits].  Every other string raises [ValueError] (the call sites
    only pass strings made of digits, '.' and '-', where this is the
    whole grammar: no exponent, underscore, ["inf"] or ["nan"] survives the
    cleaning). *)
Definition py_float (s : string) : result Q :=
  let l := list_ascii_of_string s in
  let '(neg, l1) :=
    match l with
    | "-"%char :: r => (true, r)
    | "+"%char :: r => (false, r)
    | _ => (false, l)
    end in
  let sg := fun z : Z => if neg then - z else z in
  let '(ip, r1) := take_digits l1 in
  match r1 with
  | [] =>
      match ip with
      | [] => Raise ValueError
      | _ => Ok (inject_Z (sg (digits_Z ip)))
      end
  | "."%char :: r2 =>
      let '(fp, r3) := take_digits r2 in
      match r3, ip, fp with
      | _ :: _, _, _ => Raise ValueError
      | [], [], [] => Raise ValueError
      | [], _, _ =>
          Ok (Qmake (sg (digits_Z (ip ++ fp)))
                    (Z.to_pos (10 ^ Z.of_nat (length fp))))
      end
  | _ :: _ => Raise ValueError
  end.

(** Digits with single underscores between them, as [int()] accepts. *)
Fixpoint int_digits (l : list ascii) : option (list ascii) :=
  match l with
  | [c] => if is_digit c then Some [c] else None
  | c :: "_"%char :: r =>
      if is_digit c then
        match r with
        | d :: _ => if is_digit d then option_map (cons c) (int_digits r) else None
        | [] => None
        end
      else None
  | c :: r => if is_digit c then option_map (cons c) (int_digits r) else None
  | [] => None
  end.

(** [int(str)]: surrounding whitespace, an optional sign, decimal digits. *)
Definition py_int (s : string) : result Z :=
  let l := strip_l (list_ascii_of_string s) in
  let '(neg, l1) :=
    match l with
    | "-"%char :: r => (true, r)
    | "+"%char :: r => (false, r)
    | _ => (false, l)
    end in
  match int_digits l1 with
  | Some d => Ok (if neg then - digits_Z d else digits_Z d)
  | None => Raise ValueError
  end.

(** [str(n)] for an integer. *)
Fixpoint digits_of_nat (fuel n : nat) (acc : list ascii) : list ascii :=
  match fuel with
  | O => acc
  | S f =>
      let acc' := ascii_of_nat (48 + n mod 10) :: acc in
      if (n <? 10)%nat then acc' else digits_of_nat f (n / 10) acc'
  end.

Definition z_to_string (z : Z) : string :=
  let n := Z.to_nat (Z.abs z) in
  string_of_list_ascii
    ((if z <? 0 then ["-"%char] else []) ++ digits_of_nat (S n) n []).

(** ** Holdings and the structured-table strategy *)

(** A holding dict as appended by the parsers; [raw_line] is only set by
    the full-text fallback. *)
Record holding : Type := mkHolding {
  security_name : string;
  cusip : string;
  ticker : string;
  shares : Q;
  market_value : Q;
  raw_line : option string
}.

(** [self.ticker_to_cusip] *)
Definition ticker_to_cusip : list (string * string) :=
  [("NVDA", "67066G104"); ("AMZN", "023135106"); ("GOOGL", "02079K305");
   ("MSFT", "594918104"); ("AAPL", "037833100"); ("TSLA", "88160R101")]%string.

(** [self.target_tickers] *)
Definition default_target_tickers : list string :=
  ["NVDA"; "AMZN"; "GOOGL"; "MSFT"; "AAPL"; "TSLA"]%string.

Fixpoint assoc_get (k : string) (m : list (string * string)) (d : string) : string :=
  match m with
  | [] => d
  | (k', v) :: m' => if String.eqb k k' then v else assoc_get k m' d
  end.

(** [_cusip_to_ticker]: lookup in the inverted map, [''] when absent. *)
Definition _cusip_to_ticker (c : string) : string :=
  assoc_get c (map (fun '(k, v) => (v, k)) ticker_to_cusip) "".

(** [re.sub(r'[^\d.-]', '', s)] *)
Definition clean_numeric (s : string) : string :=
  string_of_list_ascii
    (filter (fun c => is_digit c || Ascii.eqb c "."%char || Ascii.eqb c "-"%char)
            (list_ascii_of_string s)).

(** Lines 250-255 of [_parse_xml_info_table]:
<<
    try:
        shares_num = float(re.sub(r'[^\d.-]', '', shares))
        value_num = float(re.sub(r'[^\d.-]', '', value)) * 1000
    except:
        shares_num = 0
        value_num = 0
>> *)
Definition coerce_block (sh va : string) : result (Q * Q) :=
  try_except
    (shares_num <- py_float (clean_numeric sh) ;;
     value_num <- py_float (clean_numeric va) ;;
     Ok (shares_num, (value_num * 1000)%Q))
    (0%Q, 0%Q).

(** One holding tag as BeautifulSoup returns it: for each of the four
    [holding_tag.find(...)] calls, [None] or the element's
    [get_text(strip=True)]. *)
Record info_entry : Type := mkEntry {
  name_elem : option string;
  cusip_elem : option string;
  shares_elem : option string;
  value_elem : option string
}.

(** [not target_tickers or ticker in target_tickers or
     any(t.lower() in security_name.lower() for t in target_tickers)]
    ([target_tickers=None] behaves as the empty list here). *)
Definition target_filter (target_tickers : list string) (tk nm : string) : bool :=
  match target_tickers with
  | [] => true
  | _ =>
      existsb (String.eqb tk) target_tickers
      || existsb (fun t => contains (lower t) (lower nm)) target_tickers
  end.

(** Body of the [for holding_tag in holdings_tags] loop; [None] when
    nothing is appended. *)
Definition process_entry (target_tickers : list string) (e : info_entry)
  : option holding :=
  match name_elem e, cusip_elem e with
  | Some security_name, Some cu =>
      let sh := match shares_elem e with Some t => t | None => "0"%string end in
      let va := match value_elem e with Some t => t | None => "0"%string end in
      let nums := match coerce_block sh va with Ok p => p | Raise _ => (0%Q, 0%Q) end in
      let tk := _cusip_to_ticker cu in
      if target_filter target_tickers tk security_name then
        Some (mkHolding security_name cu tk (fst nums) (snd nums) None)
      else None
  | _, _ => None
  end.

Definition known_entities : list (list ascii) :=
  map list_ascii_of_string ["amp;"; "lt;"; "gt;"; "quot;"; "apos;"]%string.

(** [re.sub(r'&(?!(?:amp|lt|gt|quot|apos);)', '&amp;', xml_content)] *)
Fixpoint escape_amp_l (l : list ascii) : list ascii :=
  match l with
  | [] => []
  | c :: r =>
      if Ascii.eqb c "&"%char then
        if existsb (fun p => is_prefix p r) known_entities then c :: escape_amp_l r
        else list_ascii_of_string "&amp;" ++ escape_amp_l r
      else c :: escape_amp_l r
  end.

Definition escape_amp (s : string) : string :=
  string_of_list_ascii (escape_amp_l (list_ascii_of_string s)).

Section Soup.

(** BeautifulSoup's parse of the repaired markup followed by the
    [find_all] calls: the holding tags found, or [None] when the markup
    makes it raise (caught by the function's outer [except]). *)
Variable soup_entries : string -> option (list info_entry).

Definition _parse_xml_info_table (xml_content : string) (target_tickers : list string)
  : list holding :=
  match soup_entries (escape_amp xml_content) with
  | None => []
  | Some tags => flat_map (fun e => match process_entry target_tickers e with
                                     | Some h => [h]
                                     | None => []
                                     end) tags
  end.

End Soup.

(** ** The full-text fallback [_extract_holdings_from_text] *)

Definition upper_char (c : ascii) : ascii :=
  let n := nat_of_ascii c in
  if (97 <=? n)%nat && (n <=? 122)%nat then ascii_of_nat (n - 32) else c.

Definition upper (s : string) : string :=
  string_of_list_ascii (map upper_char (list_ascii_of_string s)).

(** [(?:,\d{3})*], greedy. *)
Fixpoint take_groups (l : list ascii) : list ascii * list ascii :=
  match l with
  | ","%char :: a :: b :: c :: r =>
      if is_digit a && is_digit b && is_digit c then
        let (g, rest) := take_groups r in (","%char :: a :: b :: c :: g, rest)
      else ([], l)
  | _ => ([], l)
  end.

(** The match of [\d+(?:,\d{3})*(?:\.\d+)?] at a position holding a digit:
    the greedy choices succeed since nothing follows in the pattern. *)
Definition scan_number (l : list ascii) : list ascii * list ascii :=
  let (d, r1) := take_digits l in
  let (g, r2) := take_groups r1 in
  match r2 with
  | "."%char :: r3 =>
      let (f, r4) := take_digits r3 in
      match f with
      | [] => (d ++ g, r2)
      | _ => (d ++ g ++ "."%char :: f, r4)
      end
  | _ => (d ++ g, r2)
  end.

Fixpoint findall_numbers_l (fuel : nat) (l : list ascii) : list (list ascii) :=
  match fuel with
  | O => []
  | S fuel' =>
      match l with
      | [] => []
      | c :: r =>
          if is_digit c then
            let (m, rest) := scan_number l in m :: findall_numbers_l fuel' rest
          else findall_numbers_l fuel' r
      end
  end.

(** [re.findall(r'\d+(?:,\d{3})*(?:\.\d+)?', line)] *)
Definition findall_numbers (line : string) : list string :=
  let l := list_ascii_of_string line in
  map string_of_list_ascii (findall_numbers_l (length l) l).

Definition is_word_opt (c : option ascii) : bool :=
  match c with Some c => is_word c | None => false end.

(** *** [re.search(pattern, line, re.IGNORECASE)] *)

(** The patterns searched for are built from the ticker as the code builds
    them, by interpolation without [re.escape], so the ticker's characters
    are regular-expression syntax.  A pattern made of ordinary characters,
    [.] and the escape [\b] is a sequence of these atoms. *)
Inductive ratom : Type :=
| RChar (c : ascii)
| RAny
| RBound.

(** The characters outside [\] and [.] with a meaning of their own in [re]. *)
Definition re_meta : list ascii :=
  ["^"; "$"; "*"; "+"; "?"; "{"; "}"; "["; "]"; "|"; "("; ")"]%char.

(** The reading of a pattern in that fragment; [None] for any other pattern
    (groups, classes, repetitions, anchors, alternation, other escapes, or a
    malformed pattern such as an unbalanced parenthesis). *)
Fixpoint re_parse (l : list ascii) : option (list ratom) :=
  match l with
  | [] => Some []
  | c :: r =>
      if Ascii.eqb c "\"%char then
        match r with
        | "b"%char :: r' => option_map (cons RBound) (re_parse r')
        | _ => None
        end
      else if Ascii.eqb c "."%char then option_map (cons RAny) (re_parse r)
      else if existsb (Ascii.eqb c) re_meta then None
      else option_map (cons (RChar c)) (re_parse r)
  end.

(** A match of the atoms at the current position, [prev] being the
    character before it: an ordinary character matches itself up to case
    ([re.IGNORECASE]), [.] any character but a newline, and [\b] the empty
    string between a word and a non-word character (or the text's ends).
    With no repetition and no alternation the match is deterministic. *)
Fixpoint re_match (p : list ratom) (prev : option ascii) (l : list ascii) : bool :=
  match p with
  | [] => true
  | RBound :: p' => xorb (is_word_opt prev) (is_word_opt (hd_error l)) && re_match p' prev l
  | RAny :: p' =>
      match l with
      | d :: r => negb (Ascii.eqb d "010"%char) && re_match p' (Some d) r
      | [] => false
      end
  | RChar c :: p' =>
      match l with
      | d :: r => Ascii.eqb (lower_char c) (lower_char d) && re_match p' (Some d) r
      | [] => false
      end
  end.

(** [re.search] tries every starting position in turn. *)
Fixpoint re_search_l (p : list ratom) (prev : option ascii) (l : list ascii) : bool :=
  re_match p prev l
  || match l with
     | [] => false
     | c :: r => re_search_l p (Some c) r
     end.

Section TextFallback.

(** [re.search(pattern, line, re.IGNORECASE)] on patterns outside the
    fragment: whether it finds a match, or the exception ([re.error]) it
    raises.  The regular-expression library's behaviour there is left
    open: every property below holds whatever it is. *)
Variable re_search_other : string -> string -> result bool.

(** [bool(re.search(pattern, line, re.IGNORECASE))] *)
Definition re_search (pattern line : string) : result bool :=
  match re_parse (list_ascii_of_string pattern) with
  | Some p => Ok (re_search_l p None (list_ascii_of_string line))
  | None => re_search_other pattern line
  end.

(** The three [ticker_patterns]: [rf'\b{ticker}\b'], [rf'{ticker.lower()}'],
    [rf'{ticker.upper()}']. *)
Definition ticker_patterns (tk : string) : list string :=
  [("\b" ++ tk ++ "\b")%string; lower tk; upper tk].

Definition remove_commas (s : string) : string :=
  string_of_list_ascii (filter (fun c => negb (Ascii.eqb c ","%char)) (list_ascii_of_string s)).

(** The dict appended for a matching line with [numbers] non-empty. *)
Definition holding_of_line (tk line : string) (numbers : list string) : result holding :=
  sh <- py_float (remove_commas (hd ""%string numbers)) ;;
  mv <- (if (1 <? length numbers)%nat then
           v <- py_float (remove_commas (last numbers ""%string)) ;; Ok (v * 1000)%Q
         else Ok 0%Q) ;;
  Ok (mkHolding line (assoc_get tk ticker_to_cusip "") tk sh mv (Some line)).

(** [for pattern in ticker_patterns: if re.search(...): ...; break] *)
Fixpoint pattern_loop (pats : list string) (tk line : string) : result (option holding) :=
  match pats with
  | [] => Ok None
  | p :: ps =>
      b <- re_search p line ;;
      if b then
        let numbers := findall_numbers line in
        match numbers with
        | [] => Ok None
        | _ => h <- holding_of_line tk line numbers ;; Ok (Some h)
        end
      else pattern_loop ps tk line
  end.

(** The accumulated [holdings] list: [inl] while running, [inr] once an
    exception reached the outer [except] (which returns it). *)
Definition acc_state : Type := (list holding + list holding)%type.

Fixpoint ticker_loop (tickers : list string) (line : string) (acc : list holding)
  : acc_state :=
  match tickers with
  | [] => inl acc
  | tk :: ts =>
      match pattern_loop (ticker_patterns tk) tk line with
      | Ok None => ticker_loop ts line acc
      | Ok (Some h) => ticker_loop ts line (acc ++ [h])
      | Raise _ => inr acc
      end
  end.

Fixpoint line_loop (tickers : list string) (lines : list string) (acc : list holding)
  : acc_state :=
  match lines with
  | [] => inl acc
  | l :: ls =>
      let line := strip l in
      if String.eqb line "" then line_loop tickers ls acc
      else match ticker_loop tickers line acc with
           | inl acc' => line_loop tickers ls acc'
           | inr acc' => inr acc'
           end
  end.

Definition _extract_holdings_from_text (filing_text : string) (target_tickers : list string)
  : list holding :=
  let tickers := match target_tickers with [] => default_target_tickers | _ => target_tickers end in
  match line_loop tickers (str_split "010"%char filing_text) [] with
  | inl h => h
  | inr h => h
  end.

End TextFallback.

(** ** The parser cascade [parse_13f_holdings] *)

Definition base_url : string := "https://data.sec.gov".

(** [str.zfill(width)] *)
Definition zfill (width : nat) (s : string) : string :=
  let l := list_ascii_of_string s in
  let pad := repeat "0"%char (width - length l) in
  string_of_list_ascii
    match l with
    | c :: r => if Ascii.eqb c "-"%char || Ascii.eqb c "+"%char
                then c :: pad ++ r else pad ++ l
    | [] => pad
    end.

(** [accession_number.replace('-', '')] *)
Definition remove_dashes (s : string) : string :=
  string_of_list_ascii (filter (fun c => negb (Ascii.eqb c "-"%char)) (list_ascii_of_string s)).

Definition archive_prefix (cik accession_number : string) : string :=
  base_url ++ "/Archives/edgar/data/" ++ zfill 10 cik ++ "/" ++ remove_dashes accession_number ++ "/".

Definition info_table_url (cik acc : string) : string := archive_prefix cik acc ++ "infotable.xml".
Definition primary_doc_url (cik acc : string) : string := archive_prefix cik acc ++ "primary_doc.xml".
Definition filing_url (cik acc : string) : string := archive_prefix cik acc ++ acc ++ ".txt".

(** What [requests.get] does: raise (connection error, timeout, ...) or
    return a response with a status code and a text. *)
Inductive response : Type :=
| NetError
| Resp (status_code : Z) (text : string).

(** State of one call: the URLs requested so far (the instrumentation of a
    mock fetcher) and the local variable [holdings]. *)
Record cstate : Type := mkCState {
  calls : list string;
  holdings_var : list holding
}.

Definition CM (A : Type) : Type := cstate -> result A * cstate.

Definition cret {A} (a : A) : CM A := fun s => (Ok a, s).

Definition cbind {A B} (m : CM A) (k : A -> CM B) : CM B :=
  fun s => match m s with
           | (Ok a, s') => k a s'
           | (Raise e, s') => (Raise e, s')
           end.

Notation "x <-- m ;;; k" := (cbind m (fun x => k))
  (at level 61, m at next level, right associativity).

Definition set_holdings (h : list holding) : CM unit :=
  fun s => (Ok tt, mkCState (calls s) h).

(** An early [return holdings] inside the [try], or falling through. *)
Inductive flow : Type :=
| Return (h : list holding)
| FallThrough.

Section Cascade.

Variable soup_entries : string -> option (list info_entry).

(** [re.search] on the patterns outside the fragment of [re_parse]. *)
Variable re_search_other : string -> string -> result bool.

(** [requests.get] against the archive host. *)
Variable fetch : string -> response.

Definition http_get (url : string) : CM (Z * string) :=
  fun s =>
    let s' := mkCState (calls s ++ [url]) (holdings_var s) in
    match fetch url with
    | NetError => (Raise RequestError, s')
    | Resp c t => (Ok (c, t), s')
    end.

(** [response = requests.get(url, ...)
     if response.status_code == 200:
         holdings = parse(response.text, target_tickers)
         if holdings: return holdings] *)
Definition strategy (url : string) (parse : string -> list holding) : CM flow :=
  r <-- http_get url ;;;
  if fst r =? 200 then
    _ <-- set_holdings (parse (snd r)) ;;;
    match parse (snd r) with
    | [] => cret FallThrough
    | h => cret (Return h)
    end
  else cret FallThrough.

Definition then_flow (m : CM flow) (k : CM flow) : CM flow :=
  f <-- m ;;;
  match f with
  | Return h => cret (Return h)
  | FallThrough => k
  end.

Definition cascade_body (cik accession_number : string) (target_tickers : list string)
  : CM flow :=
  then_flow (strategy (info_table_url cik accession_number)
                      (fun t => _parse_xml_info_table soup_entries t target_tickers))
  (then_flow (strategy (primary_doc_url cik accession_number)
                       (fun t => _parse_xml_info_table soup_entries t target_tickers))
             (strategy (filing_url cik accession_number)
                       (fun t => _extract_holdings_from_text re_search_other t target_tickers))).

(** [parse_13f_holdings]: the outer [try] around the cascade, whose
    [except] prints and falls to the final [return holdings].  Returns the
    outcome seen by the caller (never [Raise]: the handler catches every
    exception) together with the URLs requested. *)
Definition parse_13f_holdings (cik accession_number : string) (target_tickers : list string)
  : result (list holding) * list string :=
  let '(r, s) := cascade_body cik accession_number target_tickers (mkCState [] []) in
  match r with
  | Ok (Return h) => (Ok h, calls s)
  | Ok FallThrough => (Ok (holdings_var s), calls s)
  | Raise _ => (Ok (holdings_var s), calls s)
  end.

End Cascade.

(** ** The filing index crawler *)

(** The JSON documents of the submissions endpoint; an absent key reads
    as the [.get(..., default)] default.  [files] lists each archived
    shard's [file_info], [None] when it has no ['name'] key.  The
    [if recent_filings:] test is not written out: an empty ['recent'] dict
    gives the same (empty) contribution either way. *)
Module Json.
Record filing_data : Type := mkFilingData {
  form : list string;
  accessionNumber : list string;
  filingDate : list string
}.
Record submissions : Type := mkSubmissions {
  recent : filing_data;
  files : list (option string)
}.
End Json.

(** [requests.get(url).json()]: the request raises, or it returns a status
    code and a body whose [.json()] is [None] when it raises. *)
Inductive http_result (A : Type) : Type :=
| HNetError
| HResp (status_code : Z) (json : option A).
Arguments HNetError {A}.
Arguments HResp {A} status_code json.

(** [list[i]] *)
Definition nth_r {A} (i : nat) (l : list A) : result A :=
  match nth_error l i with
  | Some a => Ok a
  | None => Raise IndexError
  end.

(** [list.sort(key=lambda x: x['filing_date'], reverse=True)]: a stable
    sort, newest date first, equal keys keeping their order. *)
Section SortDesc.
Variable E : Type.
Variable key : E -> string.

Fixpoint insert_desc (x : E) (l : list E) : list E :=
  match l with
  | [] => [x]
  | y :: r => if String.ltb (key x) (key y) then y :: insert_desc x r else x :: l
  end.

Definition sort_desc (l : list E) : list E := fold_right insert_desc [] l.
End SortDesc.

Arguments insert_desc {E} key x l.
Arguments sort_desc {E} key l.

Module Tracker.
(** A dict appended by [InstitutionalTracker._process_filing_data]. *)
Record filing : Type := mkFiling {
  accession_number : string;
  filing_date : string;
  form : string;
  filing_year : Z
}.

Fixpoint process_loop (fd : Json.filing_data) (start_year end_year : Z)
    (i : nat) (forms : list string) : result (list filing) :=
  match forms with
  | [] => Ok []
  | f :: fs =>
      here <- (if String.eqb f "13F-HR" then
                 filing_date <- nth_r i (Json.filingDate fd) ;;
                 filing_year <- py_int (hd ""%string (str_split "-"%char filing_date)) ;;
                 if (start_year <=? filing_year) && (filing_year <=? end_year) then
                   an <- nth_r i (Json.accessionNumber fd) ;;
                   Ok [mkFiling an filing_date f filing_year]
                 else Ok []
               else Ok []) ;;
      rest <- process_loop fd start_year end_year (S i) fs ;;
      Ok (here ++ rest)
  end.

Definition _process_filing_data (fd : Json.filing_data) (start_year end_year : Z)
  : result (list filing) :=
  process_loop fd start_year end_year 0 (Json.form fd).
End Tracker.

Module Simplified.
(** A dict appended by [SimplifiedInstitutionalTracker._extract_13f_filings]. *)
Record filing : Type := mkFiling {
  accession_number : string;
  filing_date : string;
  form : string;
  filing_year : Z;
  filing_quarter : string
}.

(** [f"Q{((int(filing_date.split('-')[1]) - 1) // 3) + 1}"] *)
Definition quarter_label (filing_date : string) : result string :=
  seg <- nth_r 1 (str_split "-"%char filing_date) ;;
  m <- py_int seg ;;
  Ok ("Q" ++ z_to_string ((m - 1) / 3 + 1))%string.

Fixpoint extract_loop (fd : Json.filing_data) (cutoff_year : Z)
    (i : nat) (forms : list string) : result (list filing) :=
  match forms with
  | [] => Ok []
  | f :: fs =>
      here <- (if String.eqb f "13F-HR" then
                 filing_date <- nth_r i (Json.filingDate fd) ;;
                 filing_year <- py_int (hd ""%string (str_split "-"%char filing_date)) ;;
                 if cutoff_year <=? filing_year then
                   an <- nth_r i (Json.accessionNumber fd) ;;
                   q <- quarter_label filing_date ;;
                   Ok [mkFiling an filing_date f filing_year q]
                 else Ok []
               else Ok []) ;;
      rest <- extract_loop fd cutoff_year (S i) fs ;;
      Ok (here ++ rest)
  end.

(** [cutoff_year = datetime.now().year - years_back]; the current year is
    an argument. *)
Definition _extract_13f_filings (fd : Json.filing_data) (years_back now_year : Z)
  : result (list filing) :=
  extract_loop fd (now_year - years_back) 0 (Json.form fd).
End Simplified.

(** Requests and sleeps of a crawl, in order. *)
Inductive event : Type :=
| EvGet (url : string)
| EvSleep (ms : Z).

Definition RM (A : Type) : Type := list event -> result A * list event.

Definition rret {A} (a : A) : RM A := fun tr => (Ok a, tr).

Definition rbindM {A B} (m : RM A) (k : A -> RM B) : RM B :=
  fun tr => match m tr with
            | (Ok a, tr') => k a tr'
            | (Raise e, tr') => (Raise e, tr')
            end.

Notation "x <~ m ;;; k" := (rbindM m (fun x => k))
  (at level 61, m at next level, right associativity).

Definition rlift {A} (r : result A) : RM A := fun tr => (r, tr).

(** [try: m except Exception: h] *)
Definition rcatch {A} (m : RM A) (h : RM A) : RM A :=
  fun tr => match m tr with
            | (Ok a, tr') => (Ok a, tr')
            | (Raise _, tr') => h tr'
            end.

(** [time.sleep(0.2)] *)
Definition sleep (ms : Z) : RM unit := fun tr => (Ok tt, tr ++ [EvSleep ms]).

(** [url = f"{self.base_url}/submissions/CIK{formatted_cik}.json"] *)
Definition submissions_url (cik : string) : string :=
  base_url ++ "/submissions/CIK" ++ zfill 10 cik ++ ".json".

(** [archive_url = f"{self.base_url}/submissions/{file_info['name']}"] *)
Definition archive_url (nm : string) : string := base_url ++ "/submissions/" ++ nm.

Section Crawl.

(** One crawler: its entry type and its [_process_filing_data] /
    [_extract_13f_filings]. *)
Variable E : Type.
Variable date_of : E -> string.
Variable proc : Json.filing_data -> result (list E).

(** The archive host: the submissions document and the shard documents. *)
Variable sub_get : string -> http_result Json.submissions.
Variable shard_get : string -> http_result Json.filing_data.

Definition get_json {A} (g : string -> http_result A) (url : string) : RM (Z * option A) :=
  fun tr =>
    let tr' := tr ++ [EvGet url] in
    match g url with
    | HNetError => (Raise RequestError, tr')
    | HResp c j => (Ok (c, j), tr')
    end.

Definition json_of {A} (j : option A) : result A :=
  match j with Some a => Ok a | None => Raise ValueError end.

(** [file_info['name']] *)
Definition file_name (fi : option string) : result string :=
  match fi with Some nm => Ok nm | None => Raise KeyError end.

(** One iteration of [for file_info in archived_files:]. *)
Definition shard_step (fi : option string) (all_filings : list E) : RM (list E) :=
  rcatch
    (nm <~ rlift (file_name fi) ;;;
     r <~ get_json shard_get (archive_url nm) ;;;
     acc <~ (if fst r =? 200 then
               archive_data <~ rlift (json_of (snd r)) ;;;
               es <~ rlift (proc archive_data) ;;;
               rret (all_filings ++ es)
             else rret all_filings) ;;;
     _ <~ sleep 200 ;;;
     rret acc)
    (* the handler prints [file_info['name']] and continues *)
    (_ <~ rlift (file_name fi) ;;; rret all_filings).

Fixpoint shard_loop (fis : list (option string)) (all_filings : list E) : RM (list E) :=
  match fis with
  | [] => rret all_filings
  | fi :: fs => acc <~ shard_step fi all_filings ;;; shard_loop fs acc
  end.

Definition crawl_body (cik : string) : RM (list E) :=
  r <~ get_json sub_get (submissions_url cik) ;;;
  if fst r =? 200 then
    data <~ rlift (json_of (snd r)) ;;;
    all_filings <~ rlift (proc (Json.recent data)) ;;;
    all_filings' <~ shard_loop (Json.files data) all_filings ;;;
    rret (sort_desc date_of all_filings')
  else rret [].

(** The outer [try]: any exception that reaches it gives [[]]. *)
Definition crawl (cik : string) : list E * list event :=
  match crawl_body cik [] with
  | (Ok l, tr) => (l, tr)
  | (Raise _, tr) => ([], tr)
  end.

End Crawl.

Arguments crawl {E} date_of proc sub_get shard_get cik.

(** [InstitutionalTracker.get_historical_13f_filings(cik, start_year, end_year)] *)
Definition get_historical_13f_filings sub_get shard_get (cik : string) (start_year end_year : Z)
  : list Tracker.filing * list event :=
  crawl Tracker.filing_date (fun fd => Tracker._process_filing_data fd start_year end_year)
        sub_get shard_get cik.

(** [SimplifiedInstitutionalTracker.get_comprehensive_13f_history(cik, years_back)] *)
Definition get_comprehensive_13f_history sub_get shard_get (cik : string) (years_back now_year : Z)
  : list Simplified.filing * list event :=
  crawl Simplified.filing_date (fun fd => Simplified._extract_13f_filings fd years_back now_year)
        sub_get shard_get cik.

(** ** The historical summary [_create_historical_summary] *)

Module Summary.

Definition Qlt_bool (x y : Q) : bool := negb (Qle_bool y x).

(** The columns of [holdings_df] the summary reads. *)
Record hrow : Type := mkRow {
  institution_name : string;
  filing_date : string;
  shares : Q;
  market_value : Q
}.

Record year_summary : Type := mkSummary {
  year : Z;
  ticker : string;
  total_institutional_shares : Q;
  total_market_value : Q;
  num_major_institutions : Z;
  avg_holding_size : Q;
  largest_holder : string;
  largest_holding_shares : Q;
  concentration_top3 : Q
}.

Definition is_leap (y : Z) : bool :=
  (Z.eqb (y mod 4) 0 && negb (Z.eqb (y mod 100) 0)) || Z.eqb (y mod 400) 0.

Definition days_in_month (y m : Z) : Z :=
  if Z.eqb m 2 then (if is_leap y then 29 else 28)
  else if existsb (Z.eqb m) [4; 6; 9; 11] then 30 else 31.

Definition all_digits (s : string) : bool :=
  forallb is_digit (list_ascii_of_string s).

(** [pd.to_datetime(filing_date).dt.year] for the archive's [YYYY-MM-DD]
    dates; any other string raises. *)
Definition date_year (s : string) : result Z :=
  match str_split "-"%char s with
  | [ys; ms; ds] =>
      if (String.length ys =? 4)%nat && (String.length ms =? 2)%nat
         && (String.length ds =? 2)%nat
         && all_digits ys && all_digits ms && all_digits ds then
        let y := digits_Z (list_ascii_of_string ys) in
        let m := digits_Z (list_ascii_of_string ms) in
        let d := digits_Z (list_ascii_of_string ds) in
        if (1 <=? m) && (m <=? 12) && (1 <=? d) && (d <=? days_in_month y m)
        then Ok y else Raise ValueError
      else Raise ValueError
  | _ => Raise ValueError
  end.

Fixpoint years_of (hs : list hrow) : result (list Z) :=
  match hs with
  | [] => Ok []
  | h :: r => y <- date_year (filing_date h) ;; ys <- years_of r ;; Ok (y :: ys)
  end.

(** [sorted(holdings_df['year'].unique(), reverse=True)] *)
Fixpoint insert_uniq_desc (y : Z) (l : list Z) : list Z :=
  match l with
  | [] => [y]
  | z :: r => if y <? z then z :: insert_uniq_desc y r
              else if y =? z then l else y :: l
  end.

Definition unique_years_desc (ys : list Z) : list Z := fold_right insert_uniq_desc [] ys.

(** The group keys of [groupby('institution_name')], sorted ascending. *)
Fixpoint insert_uniq_asc (k : string) (l : list string) : list string :=
  match l with
  | [] => [k]
  | k' :: r => match String.compare k k' with
               | Gt => k' :: insert_uniq_asc k r
               | Eq => l
               | Lt => k :: l
               end
  end.

Definition group_keys (yd : list hrow) : list string :=
  fold_right insert_uniq_asc [] (map institution_name yd).

(** [year_data.groupby('institution_name').first().reset_index()]: one row
    per institution, its first row in [year_data] (no column of these rows
    is null, so the per-column first non-null values are those of the
    first row). *)
Definition latest_per_institution (yd : list hrow) : list hrow :=
  flat_map (fun k => match find (fun h => String.eqb (institution_name h) k) yd with
                     | Some h => [h]
                     | None => []
                     end) (group_keys yd).

Definition sumQ (l : list Q) : Q := fold_right Qplus 0%Q l.

(** Division of two floats: [None] when it has no finite value. *)
Definition fdiv (a b : Q) : option Q :=
  if Qeq_bool b 0 then None else Some (a / b)%Q.

Fixpoint insert_Q_desc (x : Q) (l : list Q) : list Q :=
  match l with
  | [] => [x]
  | y :: r => if Qlt_bool x y then y :: insert_Q_desc x r else x :: l
  end.

(** [nlargest(3, 'shares')['shares'].sum()] *)
Definition top3_sum (lpi : list hrow) : Q :=
  sumQ (firstn 3 (fold_right insert_Q_desc [] (map shares lpi))).

(** [latest_per_institution['shares'].max()] and the institution at
    [idxmax()] (the first row holding the maximum). *)
Fixpoint largest (best : hrow) (l : list hrow) : hrow :=
  match l with
  | [] => best
  | h :: r => if Qlt_bool (shares best) (shares h) then largest h r else largest best r
  end.

(** The dict appended for one year; [None] when a division has no finite
    value, which would end in the function's [except]. *)
Definition summarize_year (y : Z) (tk : string) (lpi : list hrow) : option (list year_summary) :=
  match lpi with
  | [] => Some []
  | h0 :: r0 =>
      let total_shares := sumQ (map shares lpi) in
      let total_value := sumQ (map market_value lpi) in
      let num_institutions := Z.of_nat (length lpi) in
      let big := largest h0 r0 in
      match (if 0 <? num_institutions then fdiv total_shares (inject_Z num_institutions)
             else Some 0%Q),
            (if Qlt_bool 0 total_shares then
               option_map (fun x => x * 100)%Q (fdiv (top3_sum lpi) total_shares)
             else Some 0%Q) with
      | Some avg, Some conc =>
          Some [mkSummary y tk total_shares total_value num_institutions avg
                          (institution_name big) (shares big) conc]
      | _, _ => None
      end
  end.

(** [holdings_df[holdings_df['year'] == year]] *)
Definition year_rows (y : Z) (hs : list hrow) : list hrow :=
  match years_of hs with
  | Ok ys => map snd (filter (fun p => fst p =? y) (combine ys hs))
  | Raise _ => []
  end.

Fixpoint summarize_years (hs : list hrow) (tk : string) (years : list Z)
  : option (list year_summary) :=
  match years with
  | [] => Some []
  | y :: ys =>
      match summarize_year y tk (latest_per_institution (year_rows y hs)),
            summarize_years hs tk ys with
      | Some a, Some b => Some (a ++ b)
      | _, _ => None
      end
  end.

Definition _create_historical_summary (hs : list hrow) (tk : string) : list year_summary :=
  match hs with
  | [] => []
  | _ =>
      match years_of hs with
      | Raise _ => []
      | Ok ys =>
          match summarize_years hs tk (unique_years_desc ys) with
          | Some l => l
          | None => []
          end
      end
  end.

(** [holdings_df.sort_values('filing_date', ascending=False)]: pandas'
    default sort is not stable, so the summary is stated for any row
    order that is descending by date. *)
Definition sorted_by_date_desc (hs : list hrow) : Prop :=
  StronglySorted (fun a b => String.leb (filing_date b) (filing_date a) = true) hs.

End Summary.

(** ** Recent filings [get_13f_filings] *)

Module Recent.
(** A dict appended by [InstitutionalTracker.get_13f_filings]. *)
Record filing : Type := mkFiling {
  accession_number : string;
  filing_date : string;
  form : string
}.

(** [for i, form in enumerate(forms):
         if form == '13F-HR' and len(f13_filings) < limit: f13_filings.append(...)] *)
Fixpoint recent_loop (fd : Json.filing_data) (limit : Z) (i : nat) (forms : list string)
    (f13_filings : list filing) : result (list filing) :=
  match forms with
  | [] => Ok f13_filings
  | f :: fs =>
      if String.eqb f "13F-HR" && (Z.of_nat (length f13_filings) <? limit) then
        an <- nth_r i (Json.accessionNumber fd) ;;
        d <- nth_r i (Json.filingDate fd) ;;
        recent_loop fd limit (S i) fs (f13_filings ++ [mkFiling an d f])
      else recent_loop fd limit (S i) fs f13_filings
  end.
End Recent.

(** [InstitutionalTracker.get_13f_filings(cik, limit)]: a non-200 status
    and every exception (request, [.json()], index) give [[]]. *)
Definition get_13f_filings (sub_get : string -> http_result Json.submissions)
    (cik : string) (limit : Z) : list Recent.filing :=
  match sub_get (submissions_url cik) with
  | HNetError => []
  | HResp c j =>
      if c =? 200 then
        match j with
        | None => []
        | Some data =>
            match Recent.recent_loop (Json.recent data) limit 0 (Json.form (Json.recent data)) [] with
            | Ok l => l
            | Raise _ => []
            end
        end
      else []
  end.

(** ** The holdings history of a ticker [get_historical_holdings_for_ticker] *)

(** [d = {k1: v1, k2: v2, ...}]: a repeated key keeps its first position
    and takes its last value. *)
Fixpoint dict_insert (k v : string) (d : list (string * string)) : list (string * string) :=
  match d with
  | [] => [(k, v)]
  | (k', v') :: r => if String.eqb k k' then (k, v) :: r else (k', v') :: dict_insert k v r
  end.

Definition dict_of_pairs (ps : list (string * string)) : list (string * string) :=
  fold_left (fun d p => dict_insert (fst p) (snd p) d) ps [].

(** The literal of [get_major_institutions], Vanguard written twice. *)
Definition major_institutions_literal : list (string * string) :=
  [("0001067983", "Berkshire Hathaway Inc");
   ("0001364742", "Vanguard Group Inc");
   ("0000950123", "BlackRock Inc");
   ("0001418814", "State Street Corp");
   ("0000315066", "Fidelity Management & Research");
   ("0001364742", "Vanguard Group Inc");
   ("0001159556", "T. Rowe Price Associates Inc");
   ("0000820932", "Capital Research Global Investors");
   ("0001011006", "Northern Trust Corp");
   ("0000929351", "Goldman Sachs Group Inc");
   ("0000886982", "Invesco Ltd");
   ("0001019687", "Wellington Management Co");
   ("0000902165", "Dimensional Fund Advisors");
   ("0001166559", "Ark Investment Management LLC")]%string.

(** [get_major_institutions().items()] *)
Definition get_major_institutions : list (string * string) :=
  dict_of_pairs major_institutions_literal.

(** [l[::4]]: the elements at the indices 0, 4, 8, ... *)
Definition every_fourth {A} (l : list A) : list A :=
  map snd (filter (fun p => Nat.eqb (fst p mod 4) 0) (combine (seq 0 (length l)) l)).

(** [recent_filings = [f for f in historical_filings if f['filing_year'] >= 2020][:20]
     older_filings = [f for f in historical_filings if f['filing_year'] < 2020][::4]
     filings_to_process[:50]] *)
Definition filings_to_process (historical_filings : list Tracker.filing) : list Tracker.filing :=
  let recent_filings :=
    firstn 20 (filter (fun f => 2020 <=? Tracker.filing_year f) historical_filings) in
  let older_filings :=
    every_fourth (filter (fun f => Tracker.filing_year f <? 2020) historical_filings) in
  firstn 50 (recent_filings ++ older_filings).

(** A holding dict after [holding.update({...})]. *)
Record hist_holding : Type := mkHist {
  hh_holding : holding;
  hh_institution_name : string;
  hh_institution_cik : string;
  hh_filing_date : string;
  hh_filing_year : Z;
  hh_accession_number : string
}.

Section HistoricalHoldings.
Variable soup_entries : string -> option (list info_entry).
Variable re_search_other : string -> string -> result bool.
Variable fetch : string -> response.
Variable sub_get : string -> http_result Json.submissions.
Variable shard_get : string -> http_result Json.filing_data.

(** The body of [for i, filing in enumerate(filings_to_process[:50]):]; the
    [except ... continue] gives nothing. *)
Definition holdings_of_filing (cik name ticker : string) (f : Tracker.filing)
  : list hist_holding :=
  match fst (parse_13f_holdings soup_entries re_search_other fetch cik (Tracker.accession_number f) [ticker]) with
  | Ok holdings =>
      map (fun h => mkHist h name cik (Tracker.filing_date f) (Tracker.filing_year f)
                           (Tracker.accession_number f)) holdings
  | Raise _ => []
  end.

(** [get_historical_holdings_for_ticker(ticker, start_year)], the current
    year [end_year] being an argument. *)
Definition get_historical_holdings_for_ticker (ticker : string) (start_year end_year : Z)
  : list hist_holding :=
  flat_map (fun inst =>
              let historical_filings :=
                fst (get_historical_13f_filings sub_get shard_get (fst inst) start_year end_year) in
              flat_map (holdings_of_filing (fst inst) (snd inst) ticker)
                       (filings_to_process historical_filings))
           (firstn 3 get_major_institutions).

End HistoricalHoldings.

(** ** The simplified tracker's timeline and summaries *)

Module Timeline.
(** [SimplifiedInstitutionalTracker.major_institutions], in insertion order. *)
Definition major_institutions : list (string * string) :=
  [("0001067983", "Berkshire Hathaway Inc");
   ("0001364742", "Vanguard Group Inc");
   ("0000950123", "BlackRock Inc");
   ("0001418814", "State Street Corp");
   ("0000315066", "Fidelity Management & Research")]%string.

(** A dict appended to [timeline_data]. *)
Record entry : Type := mkEntry {
  filing_date : string;
  filing_year : Z;
  filing_quarter : string;
  institution_name : string;
  institution_cik : string;
  accession_number : string;
  ticker : string;
  form_type : string
}.

Definition of_filing (name cik ticker : string) (f : Simplified.filing) : entry :=
  mkEntry (Simplified.filing_date f) (Simplified.filing_year f) (Simplified.filing_quarter f)
          name cik (Simplified.accession_number f) ticker (Simplified.form f).
End Timeline.

(** [create_institutional_timeline(ticker)], [datetime.now().year] being
    [now_year]; [get_comprehensive_13f_history] catches its own errors, so
    the loop's [except] is never reached.  The prints and the
    [time.sleep(1)] leave no trace in the result. *)
Definition create_institutional_timeline sub_get shard_get (now_year : Z) (ticker : string)
  : list Timeline.entry :=
  flat_map (fun inst =>
              map (Timeline.of_filing (snd inst) (fst inst) ticker)
                  (fst (get_comprehensive_13f_history sub_get shard_get (fst inst) 20 now_year)))
           Timeline.major_institutions.

(** [sorted(values, reverse=True)] on integers. *)
Fixpoint insert_Z_desc (x : Z) (l : list Z) : list Z :=
  match l with
  | [] => [x]
  | y :: r => if x <? y then y :: insert_Z_desc x r else x :: l
  end.

Definition sort_Z_desc (l : list Z) : list Z := fold_right insert_Z_desc [] l.

(** [Series.unique()], in order of first appearance. *)
Fixpoint unique {A} (eq_dec : forall x y : A, {x = y} + {x <> y}) (l : list A) : list A :=
  match l with
  | [] => []
  | x :: r => x :: filter (fun y => if eq_dec x y then false else true) (unique eq_dec r)
  end.

Module Yearly.
(** A dict appended to [yearly_summary]. *)
Record row : Type := mkRow {
  year : Z;
  ticker : string;
  total_filings : Z;
  active_institutions : Z;
  avg_filings_per_institution : Q;
  most_active_institution : string;
  quarters_with_activity : Z
}.
End Yearly.

Section YearlySummary.
(** [value_counts().index[0]]: the name with the most filings; pandas'
    order among equal counts is not modelled, so the choice is left open. *)
Variable value_counts_first : list string -> string.

(** One iteration of [for year in sorted(timeline_df['filing_year'].unique(), reverse=True)]. *)
Definition year_row (timeline_df : list Timeline.entry) (ticker : string) (year : Z)
  : Yearly.row :=
  let year_data := filter (fun e => Z.eqb (Timeline.filing_year e) year) timeline_df in
  let institution_counts := unique string_dec (map Timeline.institution_name year_data) in
  Yearly.mkRow year ticker (Z.of_nat (length year_data)) (Z.of_nat (length institution_counts))
    (if (0 <? length institution_counts)%nat
     then (inject_Z (Z.of_nat (length year_data)) / inject_Z (Z.of_nat (length institution_counts)))%Q
     else 0%Q)
    (match institution_counts with
     | [] => ""%string
     | _ => value_counts_first (map Timeline.institution_name year_data)
     end)
    (Z.of_nat (length (unique string_dec (map Timeline.filing_quarter year_data)))).

(** [_create_yearly_summary(timeline_df, ticker)]; nothing in its body
    raises on a frame with these columns. *)
Definition _create_yearly_summary (timeline_df : list Timeline.entry) (ticker : string)
  : list Yearly.row :=
  map (year_row timeline_df ticker)
      (sort_Z_desc (unique Z.eq_dec (map Timeline.filing_year timeline_df))).
End YearlySummary.

Module Analysis.
(** A dict appended to [institution_analysis]. *)
Record row : Type := mkRow {
  institution_name : string;
  institution_cik : string;
  total_filings_20yr : Z;
  years_active : Z;
  avg_filings_per_year : Q;
  first_filing_date : string;
  last_filing_date : string;
  filing_consistency : string
}.

(** [min(...)] and [max(...)] of a non-empty list of strings: the first
    extreme element. *)
Definition str_min (x : string) (l : list string) : string :=
  fold_left (fun m y => if String.ltb y m then y else m) l x.

Definition str_max (x : string) (l : list string) : string :=
  fold_left (fun m y => if String.ltb m y then y else m) l x.
End Analysis.

(** The body of [if filings_history:] for one institution. *)
Definition analysis_row (name cik : string) (filings_history : list Simplified.filing)
  : option Analysis.row :=
  match map Simplified.filing_date filings_history with
  | [] => None
  | d :: ds =>
      let years_active := length (unique Z.eq_dec (map Simplified.filing_year filings_history)) in
      let avg_filings_per_year :=
        if (0 <? years_active)%nat
        then (inject_Z (Z.of_nat (length filings_history)) / inject_Z (Z.of_nat years_active))%Q
        else 0%Q in
      Some (Analysis.mkRow name cik (Z.of_nat (length filings_history)) (Z.of_nat years_active)
              avg_filings_per_year (Analysis.str_min d ds) (Analysis.str_max d ds)
              (if Qle_bool 4 avg_filings_per_year then "High"%string
               else if Qle_bool 2 avg_filings_per_year then "Medium"%string
               else "Low"%string))
  end.

(** [_create_institution_analysis(output_dir)]: the rows written to
    [institution_analysis_20yr.csv] (none is written when the list is
    empty). *)
Definition _create_institution_analysis sub_get shard_get (now_year : Z) : list Analysis.row :=
  flat_map (fun inst =>
              match analysis_row (snd inst) (fst inst)
                      (fst (get_comprehensive_13f_history sub_get shard_get (fst inst) 20 now_year)) with
              | Some r => [r]
              | None => []
              end)
           Timeline.major_institutions.

(** ** Yahoo Finance ownership [track_smart_money_flows] *)

Module Yahoo.
(** [stock.institutional_holders]: its number of rows and the columns read
    ([None] when the column is absent). *)
Record frame : Type := mkFrame {
  nrows : nat;
  holder_col : option (list string);
  shares_col : option (list Q);
  pct_col : option (list Q)
}.

(** The [smart_money_data] dict, without its timestamp. *)
Record smart_money : Type := mkSmartMoney {
  ticker : string;
  total_institutions : Z;
  total_shares_held : Q;
  top_10_concentration : Q;
  largest_holder : option string;
  largest_holder_shares : Q;
  largest_holder_pct : Q
}.

(** [df[col]]: [KeyError] when absent. *)
Definition column {A} (c : option (list A)) : result (list A) :=
  match c with Some l => Ok l | None => Raise KeyError end.

(** [series.iloc[0]] *)
Definition iloc0 {A} (l : list A) : result A :=
  match l with a :: _ => Ok a | [] => Raise IndexError end.

(** [df.empty]: the frame has the [timestamp] and [ticker] columns added by
    [get_institutional_ownership_yahoo], so it is empty when it has no row. *)
Definition is_empty (f : frame) : bool := Nat.eqb (nrows f) 0.

Definition has_column {A} (c : option (list A)) : bool :=
  match c with Some _ => true | None => false end.

(** [get_institutional_ownership_yahoo(ticker)]: the yfinance call raises
    or returns [None] or a frame; an exception gives [None].  The two
    columns it adds are not read below. *)
Definition get_institutional_ownership_yahoo (yahoo : string -> result (option frame))
    (tk : string) : option frame :=
  match yahoo tk with
  | Ok (Some f) => Some f
  | _ => None
  end.

(** The [try] body of [track_smart_money_flows] once [current_ownership] is
    a frame, the dict's values computed in order. *)
Definition smart_money_of (tk : string) (cur : frame) : result smart_money :=
  let total_institutions := Z.of_nat (nrows cur) in
  let total_shares_held :=
    match shares_col cur with Some s => Summary.sumQ s | None => 0%Q end in
  conc <- (if Summary.Qlt_bool 0 total_shares_held then
             s <- column (shares_col cur) ;;
             let top := if (10 <=? nrows cur)%nat then firstn 10 s else s in
             Ok (Summary.sumQ top / total_shares_held * 100)%Q
           else Ok 0%Q) ;;
  lh <- (if negb (is_empty cur) then
           hs <- column (holder_col cur) ;; x <- iloc0 hs ;; Ok (Some x)
         else Ok None) ;;
  lhs <- (if negb (is_empty cur) then s <- column (shares_col cur) ;; iloc0 s
          else Ok 0%Q) ;;
  lhp <- (if has_column (pct_col cur) && negb (is_empty cur) then
            p <- column (pct_col cur) ;; iloc0 p
          else Ok 0%Q) ;;
  Ok (mkSmartMoney tk total_institutions total_shares_held conc lh lhs lhp).

(** [track_smart_money_flows(ticker)]: [(None, None)] is [None]. *)
Definition track_smart_money_flows (yahoo : string -> result (option frame)) (tk : string)
  : option (smart_money * frame) :=
  match get_institutional_ownership_yahoo yahoo tk with
  | None => None
  | Some cur =>
      match smart_money_of tk cur with
      | Ok d => Some (d, cur)
      | Raise _ => None
      end
  end.

(** The columns read have one value per row. *)
Definition well_formed (f : frame) : Prop :=
  (forall l, holder_col f = Some l -> length l = nrows f)
  /\ (forall l, shares_col f = Some l -> length l = nrows f)
  /\ (forall l, pct_col f = Some l -> length l = nrows f).
End Yahoo.

(** * Examples and auxiliary definitions *)

(** Concrete inputs shared by the examples below. *)
Definition ex_cik : string := "1067983".
Definition ex_acc : string := "0000950123-24-000001".

(** A soup whose every document holds one NVIDIA entry. *)
Definition ex_soup : string -> option (list info_entry) :=
  fun _ => Some [mkEntry (Some "NVIDIA CORP"%string) (Some "67066G104"%string)
                         (Some "1,000"%string) (Some "500"%string)].

(** A fetcher for which the information table answers with a document. *)
Definition ex_fetch_ok : string -> response := fun _ => Resp 200 "<informationTable/>".

(** A fetcher whose information-table request raises. *)
Definition ex_fetch_neterr : string -> response :=
  fun u => if String.eqb u (info_table_url ex_cik ex_acc) then NetError
           else Resp 200 "<informationTable/>".

(** A holding of the full-text fallback: its market value is the last
    numeric token of its line times 1000 when the line has at least two
    numeric tokens, and 0 otherwise. *)
Definition text_value_scaled (h : holding) : Prop :=
  exists line, raw_line h = Some line /\
    let ns := findall_numbers line in
    ((1 < length ns)%nat ->
       exists v, py_float (remove_commas (last ns ""%string)) = Ok v
                 /\ market_value h = (v * 1000)%Q)
    /\ ((length ns <= 1)%nat -> market_value h = 0%Q).

(** The line used in the examples: one NVDA position, 100 shares, value 500. *)
Definition ex_line : string := "NVDA 100 500".

(** A regular-expression library raising [re.error] on every pattern outside
    the fragment of [re_parse]. *)
Definition ex_re : string -> string -> result bool := fun _ _ => Raise ReError.

Section CrawlDefs.
Variable E : Type.
Variable proc : Json.filing_data -> result (list E).
Variable shard_get : string -> http_result Json.filing_data.

(** What a shard with a name contributes: the entries of its document when
    it is fetched with status 200, its body decodes and its entries are
    processed without error; nothing otherwise. *)
Definition shard_entries (fi : option string) : list E :=
  match fi with
  | Some nm =>
      match shard_get (archive_url nm) with
      | HResp c (Some fd) =>
          if c =? 200 then match proc fd with Ok es => es | Raise _ => [] end else []
      | _ => []
      end
  | None => []
  end.

(** Every entry of a crawl comes out of one successful processing call. *)
Definition from_proc (acc : list E) : Prop :=
  forall e, In e acc -> exists fd l, proc fd = Ok l /\ In e l.

End CrawlDefs.

(** A submissions document with two 13F-HR filings and one 10-K in its recent
    list, and two archived shards. *)
Definition ex_submissions : Json.submissions :=
  Json.mkSubmissions
    (Json.mkFilingData ["13F-HR"; "10-K"; "13F-HR"]%string
                       ["a1"; "a2"; "a3"]%string
                       ["2021-11-15"; "2021-01-01"; "2019-02-01"]%string)
    [Some "s1.json"%string; Some "s2.json"%string].

Definition ex_sub_get : string -> http_result Json.submissions :=
  fun _ => HResp 200 (Some ex_submissions).

(** The first shard's request raises; the second holds one 13F-HR filing. *)
Definition ex_shard_get : string -> http_result Json.filing_data :=
  fun u => if String.eqb u (archive_url "s1.json") then HNetError
           else HResp 200 (Some (Json.mkFilingData ["13F-HR"]%string ["b1"]%string
                                                   ["2020-05-15"]%string)).

(** A [YYYY-MM-DD] string of digit fields. *)
Definition iso_date (y4 m2 d2 : list ascii) : string :=
  string_of_list_ascii (y4 ++ "-"%char :: m2 ++ "-"%char :: d2).

(** Strict ascending order of [String.compare]. *)
Definition key_lt (a b : string) : Prop := String.compare a b = Lt.

(** An example holdings set: two same-year filings of one institution, the
    later one first, as [sort_values('filing_date', ascending=False)]
    leaves them. *)
Definition ex_holdings : list Summary.hrow :=
  [Summary.mkRow "Berkshire Hathaway Inc" "2020-11-14" 300 0;
   Summary.mkRow "Berkshire Hathaway Inc" "2020-05-15" 200 0].

(** An example holdings set whose only institution reports 0 shares. *)
Definition ex_zero_holdings : list Summary.hrow :=
  [Summary.mkRow "Vanguard Group Inc" "2019-02-14" 0 0].

(** The 13F-HR entries of a filing list, accession numbers and dates taken
    at the same index as the form. *)
Definition hr_entries (forms accession_numbers filing_dates : list string)
  : list Recent.filing :=
  map (fun p => Recent.mkFiling (fst (snd p)) (snd (snd p)) (fst p))
      (filter (fun p => String.eqb (fst p) "13F-HR")
              (combine forms (combine accession_numbers filing_dates))).

(** Auxiliary notions for the full-text fallback: the comma-free shape of a
    numeric token, and the holdings a text yields line by line. *)
Module TextAux.

Definition not_comma (c : ascii) : bool := negb (Ascii.eqb c ","%char).

Definition all_digits (l : list ascii) : Prop := Forall (fun c => is_digit c = true) l.

(** The comma-free form of a token of [findall_numbers]. *)
Definition token_ok (m : list ascii) : Prop :=
  exists d f, d <> [] /\ all_digits d /\ all_digits f /\
    (filter not_comma m = d
     \/ (f <> [] /\ filter not_comma m = d ++ "."%char :: f)).

(** A character with no meaning of its own in [re] besides, for the dot,
    matching any character. *)
Definition ordinary (c : ascii) : bool :=
  negb (existsb (Ascii.eqb c) re_meta) && negb (Ascii.eqb c "\"%char).

(** A ticker of ordinary characters: the three patterns built from it fall in
    the fragment of [re_parse] (a ticker such as BRK.B included). *)
Definition plain_ticker (tk : string) : bool := forallb ordinary (list_ascii_of_string tk).

Definition atom_of (c : ascii) : ratom := if Ascii.eqb c "."%char then RAny else RChar c.

(** The ticker read as a pattern: a dot matches any character. *)
Definition ticker_atoms (tk : string) : list ratom := map atom_of (list_ascii_of_string tk).

(** The ticker, read as a pattern, occurs in the line up to case. *)
Definition ticker_hit (tk line : string) : bool :=
  re_search_l (ticker_atoms tk) None (list_ascii_of_string line).

(** What one non-blank stripped line contributes, ticker by ticker. *)
Definition line_holdings (tickers : list string) (line : string) : list holding :=
  flat_map (fun tk =>
    if ticker_hit tk line then
      match findall_numbers line with
      | [] => []
      | _ => match holding_of_line tk line (findall_numbers line) with
             | Ok h => [h]
             | Raise _ => []
             end
      end
    else []) tickers.

Definition text_holdings (tickers lines : list string) : list holding :=
  flat_map (fun l => if String.eqb (strip l) "" then [] else line_holdings tickers (strip l)) lines.

End TextAux.

(** A Yahoo Finance holders frame with two rows. *)
Definition ex_frame : Yahoo.frame :=
  Yahoo.mkFrame 2 (Some ["Vanguard Group Inc"; "Blackrock Inc."]%string)
                (Some [300; 200]%Q) (Some [9 # 100; 6 # 100]%Q).

Definition ex_yahoo : string -> result (option Yahoo.frame) :=
  fun t => if String.eqb t "NVDA" then Ok (Some ex_frame) else Ok None.

(** * Properties *)

(** ** The parser cascade *)

Section CascadeFacts.
Variable soup_entries : string -> option (list info_entry).
Variable re_search_other : string -> string -> result bool.

Local Ltac run_cascade :=
  cbv beta iota delta [parse_13f_holdings cascade_body then_flow strategy cbind
                       http_get cret set_holdings calls holdings_var].

(** Every run of the cascade, by the first responses it sees. *)
Lemma parse_13f_holdings_cases (fetch : string -> response) (cik acc : string)
    (tt : list string) :
  let u1 := info_table_url cik acc in
  let u2 := primary_doc_url cik acc in
  let u3 := filing_url cik acc in
  let x  := fun t => _parse_xml_info_table soup_entries t tt in
  let ft := fun t => _extract_holdings_from_text re_search_other t tt in
  let ok := fun u => match fetch u with Resp c t => (c =? 200) | NetError => false end in
  let txt := fun u => match fetch u with Resp _ t => t | NetError => ""%string end in
  parse_13f_holdings soup_entries re_search_other fetch cik acc tt =
  match fetch u1 with
  | NetError => (Ok [], [u1])
  | Resp _ _ =>
      if ok u1 && negb (match x (txt u1) with [] => true | _ => false end)
      then (Ok (x (txt u1)), [u1])
      else match fetch u2 with
           | NetError => (Ok [], [u1; u2])
           | Resp _ _ =>
               if ok u2 && negb (match x (txt u2) with [] => true | _ => false end)
               then (Ok (x (txt u2)), [u1; u2])
               else match fetch u3 with
                    | NetError => (Ok [], [u1; u2; u3])
                    | Resp _ _ =>
                        if ok u3 then (Ok (ft (txt u3)), [u1; u2; u3])
                        else (Ok [], [u1; u2; u3])
                    end
           end
  end.
Proof.
  intros u1 u2 u3 x ft ok txt. subst ok txt.
  run_cascade. simpl.
  fold u1 u2 u3. fold (x (match fetch u1 with Resp _ t => t | NetError => ""%string end)).
  destruct (fetch u1) as [|c1 t1]; simpl; [reflexivity|].
  destruct (c1 =? 200); simpl.
  - fold (x t1). destruct (x t1) as [|h1 hs1] eqn:E1; simpl.
    + destruct (fetch u2) as [|c2 t2]; simpl; [reflexivity|].
      destruct (c2 =? 200); simpl.
      * fold (x t2). destruct (x t2) as [|h2 hs2]; simpl.
        -- destruct (fetch u3) as [|c3 t3]; simpl; [reflexivity|].
           destruct (c3 =? 200); simpl; [|reflexivity].
           fold (ft t3). destruct (ft t3); reflexivity.
        -- reflexivity.
      * destruct (fetch u3) as [|c3 t3]; simpl; [reflexivity|].
        destruct (c3 =? 200); simpl; [|reflexivity].
        fold (ft t3). destruct (ft t3); reflexivity.
    + reflexivity.
  - destruct (fetch u2) as [|c2 t2]; simpl; [reflexivity|].
    destruct (c2 =? 200); simpl.
    + fold (x t2). destruct (x t2) as [|h2 hs2]; simpl.
      * destruct (fetch u3) as [|c3 t3]; simpl; [reflexivity|].
        destruct (c3 =? 200); simpl; [|reflexivity].
        fold (ft t3). destruct (ft t3); reflexivity.
      * reflexivity.
    + destruct (fetch u3) as [|c3 t3]; simpl; [reflexivity|].
      destruct (c3 =? 200); simpl; [|reflexivity].
      fold (ft t3). destruct (ft t3); reflexivity.
Qed.

End CascadeFacts.

(** C1: when the information table is fetched with status 200 and parses to at
    least one holding, [parse_13f_holdings] returns exactly those holdings
    and requested only the information table; on every run the documents
    requested are a prefix (of length 1 to 3) of information table, primary
    document, full text. *)
Theorem parse_13f_holdings_short_circuit
    (soup_entries : string -> option (list info_entry))
    (re_search_other : string -> string -> result bool) (fetch : string -> response)
    (cik acc : string) (tt : list string) (t : string)
    (Hfetch : fetch (info_table_url cik acc) = Resp 200 t)
    (Hnon : _parse_xml_info_table soup_entries t tt <> []) :
  parse_13f_holdings soup_entries re_search_other fetch cik acc tt
    = (Ok (_parse_xml_info_table soup_entries t tt), [info_table_url cik acc])
  /\ forall fetch' : string -> response,
       exists n, (1 <= n <= 3)%nat /\
         snd (parse_13f_holdings soup_entries re_search_other fetch' cik acc tt)
         = firstn n [info_table_url cik acc; primary_doc_url cik acc; filing_url cik acc].
Proof.
  split.
  - rewrite parse_13f_holdings_cases. rewrite Hfetch. simpl.
    destruct (_parse_xml_info_table soup_entries t tt); [congruence|reflexivity].
  - intro fetch'. rewrite parse_13f_holdings_cases.
    destruct (fetch' (info_table_url cik acc)) as [|c1 t1].
    + exists 1%nat; split; [lia|reflexivity].
    + destruct (_ && _).
      * exists 1%nat; split; [lia|reflexivity].
      * destruct (fetch' (primary_doc_url cik acc)) as [|c2 t2].
        -- exists 2%nat; split; [lia|reflexivity].
        -- destruct (_ && _).
           ++ exists 2%nat; split; [lia|reflexivity].
           ++ destruct (fetch' (filing_url cik acc)); [|destruct (_ =? _)];
              exists 3%nat; (split; [lia|reflexivity]).
Qed.

Lemma parse_13f_holdings_short_circuit_witness :
  _parse_xml_info_table ex_soup "<informationTable/>" ["NVDA"%string] <> [] /\
  parse_13f_holdings ex_soup ex_re ex_fetch_ok ex_cik ex_acc ["NVDA"%string]
    = (Ok (_parse_xml_info_table ex_soup "<informationTable/>" ["NVDA"%string]),
       [info_table_url ex_cik ex_acc]).
Proof.
  split; [vm_compute; discriminate|].
  exact (proj1 (parse_13f_holdings_short_circuit ex_soup ex_re ex_fetch_ok ex_cik ex_acc
                  ["NVDA"%string] "<informationTable/>" eq_refl
                  ltac:(vm_compute; discriminate))).
Defined.

(** C5 (as the code behaves): [parse_13f_holdings] never raises; a request
    that raises, whichever of the three it is, ends the whole cascade with
    an empty list and the documents after it are not requested; a non-200
    response or a document yielding no holdings falls through to the next
    strategy, and when none yields holdings the result is empty; a
    non-empty result is the parse of a document fetched with status 200. *)
Theorem parse_13f_holdings_outcomes
    (soup_entries : string -> option (list info_entry))
    (re_search_other : string -> string -> result bool) (fetch : string -> response)
    (cik acc : string) (tt : list string) :
  let u1 := info_table_url cik acc in
  let u2 := primary_doc_url cik acc in
  let u3 := filing_url cik acc in
  let x := fun t => _parse_xml_info_table soup_entries t tt in
  let ft := fun t => _extract_holdings_from_text re_search_other t tt in
  let r := parse_13f_holdings soup_entries re_search_other fetch cik acc tt in
  (exists h, fst r = Ok h)
  /\ (fetch u1 = NetError -> r = (Ok [], [u1]))
  /\ (forall c1 t1, fetch u1 = Resp c1 t1 -> (c1 <> 200 \/ x t1 = []) ->
        fetch u2 = NetError -> r = (Ok [], [u1; u2]))
  /\ (forall c1 t1 c2 t2, fetch u1 = Resp c1 t1 -> (c1 <> 200 \/ x t1 = []) ->
        fetch u2 = Resp c2 t2 -> (c2 <> 200 \/ x t2 = []) ->
        fetch u3 = NetError -> r = (Ok [], [u1; u2; u3]))
  /\ (forall c1 t1 c2 t2 c3 t3, fetch u1 = Resp c1 t1 -> (c1 <> 200 \/ x t1 = []) ->
        fetch u2 = Resp c2 t2 -> (c2 <> 200 \/ x t2 = []) ->
        fetch u3 = Resp c3 t3 -> (c3 <> 200 \/ ft t3 = []) ->
        r = (Ok [], [u1; u2; u3]))
  /\ (forall c1 t1, fetch u1 = Resp c1 t1 -> (c1 <> 200 \/ x t1 = []) ->
        nth_error (snd r) 1 = Some u2)
  /\ (forall c1 t1 c2 t2, fetch u1 = Resp c1 t1 -> (c1 <> 200 \/ x t1 = []) ->
        fetch u2 = Resp c2 t2 -> (c2 <> 200 \/ x t2 = []) ->
        nth_error (snd r) 2 = Some u3)
  /\ (forall h, fst r = Ok h -> h = [] \/
        exists t, (fetch u1 = Resp 200 t /\ h = x t)
               \/ (fetch u2 = Resp 200 t /\ h = x t)
               \/ (fetch u3 = Resp 200 t /\ h = ft t)).
Proof.
  intros u1 u2 u3 x ft r. subst r.
  rewrite parse_13f_holdings_cases. fold u1 u2 u3. subst x ft. cbv beta.
  assert (Hb : forall c t, (c <> 200 \/ _parse_xml_info_table soup_entries t tt = []) ->
             (c =? 200) && negb (match _parse_xml_info_table soup_entries t tt with
                                 | [] => true | _ => false end) = false).
  { intros c t [Hc|Hx].
    - apply Z.eqb_neq in Hc. rewrite Hc. reflexivity.
    - rewrite Hx. apply andb_false_r. }
  refine (conj _ (conj _ (conj _ (conj _ (conj _ (conj _ (conj _ _))))))).
  - destruct (fetch u1); [eexists; reflexivity|].
    destruct (_ && _); [eexists; reflexivity|].
    destruct (fetch u2); [eexists; reflexivity|].
    destruct (_ && _); [eexists; reflexivity|].
    destruct (fetch u3); [eexists; reflexivity|].
    destruct (_ =? _); eexists; reflexivity.
  - intro H. rewrite H. reflexivity.
  - intros c1 t1 H1 Hc1 H2. rewrite H1. cbv beta iota. rewrite (Hb _ _ Hc1), H2.
    reflexivity.
  - intros c1 t1 c2 t2 H1 Hc1 H2 Hc2 H3. rewrite H1. cbv beta iota.
    rewrite (Hb _ _ Hc1), H2. cbv beta iota. rewrite (Hb _ _ Hc2), H3. reflexivity.
  - intros c1 t1 c2 t2 c3 t3 H1 Hc1 H2 Hc2 H3 Hc3. rewrite H1. cbv beta iota.
    rewrite (Hb _ _ Hc1), H2. cbv beta iota. rewrite (Hb _ _ Hc2), H3. cbv beta iota.
    destruct Hc3 as [Hc3|Hc3].
    + apply Z.eqb_neq in Hc3. rewrite Hc3. reflexivity.
    + destruct (c3 =? 200); [rewrite Hc3|]; reflexivity.
  - intros c1 t1 H1 Hc1. rewrite H1. cbv beta iota. rewrite (Hb _ _ Hc1).
    destruct (fetch u2); [reflexivity|].
    destruct (_ && _); [reflexivity|].
    destruct (fetch u3); [reflexivity|]. destruct (_ =? _); reflexivity.
  - intros c1 t1 c2 t2 H1 Hc1 H2 Hc2. rewrite H1. cbv beta iota. rewrite (Hb _ _ Hc1), H2.
    cbv beta iota. rewrite (Hb _ _ Hc2).
    destruct (fetch u3); [reflexivity|]. destruct (_ =? _); reflexivity.
  - intros h Hh.
    destruct (fetch u1) as [|c1 t1] eqn:F1; [left; simpl in Hh; congruence|].
    destruct ((c1 =? 200) && _) eqn:B1.
    { right. exists t1. left. apply andb_true_iff in B1 as [B1 _].
      apply Z.eqb_eq in B1. subst c1. split; [reflexivity|]. simpl in Hh; congruence. }
    destruct (fetch u2) as [|c2 t2] eqn:F2; [left; simpl in Hh; congruence|].
    destruct ((c2 =? 200) && _) eqn:B2.
    { right. exists t2. right. left. apply andb_true_iff in B2 as [B2 _].
      apply Z.eqb_eq in B2. subst c2. split; [reflexivity|]. simpl in Hh; congruence. }
    destruct (fetch u3) as [|c3 t3] eqn:F3; [left; simpl in Hh; congruence|].
    destruct (c3 =? 200) eqn:B3; [|left; simpl in Hh; congruence].
    right. exists t3. right. right. apply Z.eqb_eq in B3. subst c3.
    split; [reflexivity|]. simpl in Hh; congruence.
Qed.

Lemma parse_13f_holdings_outcomes_witness :
  ex_fetch_neterr (info_table_url ex_cik ex_acc) = NetError /\
  parse_13f_holdings ex_soup ex_re ex_fetch_neterr ex_cik ex_acc ["NVDA"%string]
    = (Ok [], [info_table_url ex_cik ex_acc]).
Proof.
  assert (H : ex_fetch_neterr (info_table_url ex_cik ex_acc) = NetError)
    by (vm_compute; reflexivity).
  split; [exact H|].
  exact (proj1 (proj2 (parse_13f_holdings_outcomes ex_soup ex_re ex_fetch_neterr ex_cik ex_acc
                         ["NVDA"%string])) H).
Defined.

(** C5, counterexample: the information-table request raises while the
    primary document would yield a holding; the primary document is never
    requested and the result is empty. *)
Lemma parse_13f_holdings_no_fallthrough_on_raise :
  parse_13f_holdings ex_soup ex_re ex_fetch_neterr ex_cik ex_acc ["NVDA"%string]
    = (Ok [], [info_table_url ex_cik ex_acc])
  /\ ex_fetch_neterr (primary_doc_url ex_cik ex_acc) = Resp 200 "<informationTable/>"
  /\ _parse_xml_info_table ex_soup "<informationTable/>" ["NVDA"%string] <> []
  /\ ~ In (primary_doc_url ex_cik ex_acc)
         (snd (parse_13f_holdings ex_soup ex_re ex_fetch_neterr ex_cik ex_acc ["NVDA"%string])).
Proof.
  vm_compute. split; [reflexivity|]. split; [reflexivity|].
  split; [discriminate|]. intros [H|H]; [discriminate H|exact H].
Qed.

(** ** Numeric coercion and market-value scaling *)

Lemma holding_of_line_scaled (tk line : string) (h : holding) :
  holding_of_line tk line (findall_numbers line) = Ok h -> text_value_scaled h.
Proof.
  unfold holding_of_line.
  destruct (py_float (remove_commas (hd ""%string (findall_numbers line)))) as [s|e];
    simpl; [|discriminate].
  destruct (1 <? length (findall_numbers line))%nat eqn:L.
  - destruct (py_float (remove_commas (last (findall_numbers line) ""%string))) as [v|e] eqn:V;
      simpl; [|discriminate].
    intro H. inversion H; subst. exists line. simpl. split; [reflexivity|]. split.
    + intros _. exists v. split; [exact V|reflexivity].
    + intro Hle. apply Nat.ltb_lt in L. lia.
  - simpl. intro H. inversion H; subst. exists line. simpl. split; [reflexivity|]. split.
    + intro Hlt. apply Nat.ltb_ge in L. lia.
    + intros _. reflexivity.
Qed.

Lemma pattern_loop_scaled (re : string -> string -> result bool) (pats : list string)
    (tk line : string) (h : holding) :
  pattern_loop re pats tk line = Ok (Some h) -> text_value_scaled h.
Proof.
  induction pats as [|p ps IH]; simpl; [discriminate|].
  destruct (re_search re p line) as [[|]|e]; simpl; [|exact IH|discriminate].
  destruct (findall_numbers line) as [|n ns] eqn:N; [discriminate|].
  rewrite <- N.
  destruct (holding_of_line tk line (findall_numbers line)) as [h'|e] eqn:Hl;
    simpl; [|discriminate].
  intro E. inversion E; subst. eapply holding_of_line_scaled; exact Hl.
Qed.

Lemma ticker_loop_scaled (re : string -> string -> result bool) (ts : list string)
    (line : string) (acc : list holding) :
  Forall text_value_scaled acc ->
  match ticker_loop re ts line acc with inl a | inr a => Forall text_value_scaled a end.
Proof.
  revert acc. induction ts as [|tk ts IH]; intros acc Hacc; cbn [ticker_loop]; [exact Hacc|].
  destruct (pattern_loop re (ticker_patterns tk) tk line) as [[h|]|e] eqn:P.
  - apply IH. apply Forall_app. split; [exact Hacc|].
    constructor; [eapply pattern_loop_scaled; exact P|constructor].
  - apply IH. exact Hacc.
  - exact Hacc.
Qed.

Lemma line_loop_scaled (re : string -> string -> result bool) (ts lines : list string)
    (acc : list holding) :
  Forall text_value_scaled acc ->
  match line_loop re ts lines acc with inl a | inr a => Forall text_value_scaled a end.
Proof.
  revert acc. induction lines as [|l ls IH]; intros acc Hacc; cbn [line_loop]; [exact Hacc|].
  destruct (String.eqb (strip l) ""); [apply IH; exact Hacc|].
  pose proof (ticker_loop_scaled re ts (strip l) acc Hacc) as T.
  destruct (ticker_loop re ts (strip l) acc) as [a|a]; [apply IH|]; exact T.
Qed.

(** C2 (as the code behaves): a structured-table holding's market value is the
    coerced reported value times 1000 whenever both its strings coerce; a
    full-text-fallback holding is scaled too: its market value is the last
    numeric token of its line times 1000 when the line has at least two
    numeric tokens, else 0.  A reported value "500" gives 500000 in both
    strategies. *)
Theorem market_value_scaling :
  (forall tt e h sh va s v,
     process_entry tt e = Some h ->
     sh = match shares_elem e with Some t => t | None => "0"%string end ->
     va = match value_elem e with Some t => t | None => "0"%string end ->
     py_float (clean_numeric sh) = Ok s -> py_float (clean_numeric va) = Ok v ->
     market_value h = (v * 1000)%Q)
  /\ (forall re txt tt h, In h (_extract_holdings_from_text re txt tt) -> text_value_scaled h)
  /\ option_map market_value
       (process_entry ["NVDA"%string]
          (mkEntry (Some "NVIDIA CORP"%string) (Some "67066G104"%string)
                   (Some "100"%string) (Some "500"%string))) = Some 500000%Q
  /\ (forall re, map market_value (_extract_holdings_from_text re ex_line ["NVDA"%string])
                 = [500000%Q]).
Proof.
  split; [|split; [|split]].
  - intros tt e h sh va s v Hp Hsh Hva Hs Hv. revert Hp. unfold process_entry.
    destruct (name_elem e) as [nm|]; [|discriminate].
    destruct (cusip_elem e) as [cu|]; [|discriminate].
    rewrite <- Hsh, <- Hva. unfold coerce_block. rewrite Hs, Hv. simpl.
    destruct (target_filter _ _ _); [|discriminate].
    intro E. inversion E. reflexivity.
  - intros re txt tt h Hin. unfold _extract_holdings_from_text in Hin.
    pose proof (line_loop_scaled re
                  (match tt with [] => default_target_tickers | _ => tt end)
                  (str_split "010"%char txt) [] (Forall_nil _)) as F.
    destruct (line_loop _ _ _ []) as [a|a];
      (rewrite Forall_forall in F; apply F; exact Hin).
  - vm_compute. reflexivity.
  - intro re. vm_compute. reflexivity.
Qed.

(** C2, counterexample: the full-text fallback scales the value token 500 to
    500000, not 500. *)
Lemma text_fallback_value_scaled :
  map market_value (_extract_holdings_from_text ex_re ex_line ["NVDA"%string]) = [500000%Q]
  /\ ~ (map market_value (_extract_holdings_from_text ex_re ex_line ["NVDA"%string]) = [500%Q]).
Proof. vm_compute. split; [reflexivity|discriminate]. Qed.

(** C3 (as the code behaves): the coercion of a share and a value string
    never raises, and on the share string (value string absent, i.e. "0"):
    "1,234.5" gives 1234.5, "(1)" gives 1 (the parentheses are stripped like
    any other non-numeric character and the digit kept), "" gives 0 and
    "$1,000" gives 1000; on the value string the same numbers come out
    multiplied by 1000. *)
Theorem coerce_block_total :
  (forall sh va, exists p, coerce_block sh va = Ok p)
  /\ coerce_block "1,234.5" "0" = Ok (1234.5, 0)%Q
  /\ coerce_block "(1)" "0" = Ok (1, 0)%Q
  /\ coerce_block "" "0" = Ok (0, 0)%Q
  /\ coerce_block "$1,000" "0" = Ok (1000, 0)%Q
  /\ (forall p, coerce_block "0" "(1)" = Ok p -> snd p == 1000)%Q
  /\ (forall p, coerce_block "0" "$1,000" = Ok p -> snd p == 1000000)%Q.
Proof.
  split; [|split; [vm_compute; reflexivity|split; [vm_compute; reflexivity|
          split; [vm_compute; reflexivity|split; [vm_compute; reflexivity|split]]]]].
  - intros sh va. unfold coerce_block, try_except.
    destruct (rbind _ _) as [p|e]; eexists; reflexivity.
  - intros p H. vm_compute in H. inversion H; subst. vm_compute. reflexivity.
  - intros p H. vm_compute in H. inversion H; subst. vm_compute. reflexivity.
Qed.

(** C3, counterexample: "(1)" coerces to 1, not 0. *)
Lemma coerce_footnote_marker_kept :
  coerce_block "(1)" "0" <> Ok (0, 0)%Q
  /\ (forall p, coerce_block "(1)" "0" = Ok p -> ~ (fst p == 0)%Q).
Proof.
  split; [vm_compute; discriminate|].
  intros p H. vm_compute in H. inversion H; subst. vm_compute. discriminate.
Qed.

(** C10: the two strings are coerced under one handler: when either fails to
    coerce, the holding gets share count 0 and market value 0. *)
Theorem process_entry_shared_handler (tt : list string) (nm cu : string)
    (sho vao : option string) (h : holding)
    (Hp : process_entry tt (mkEntry (Some nm) (Some cu) sho vao) = Some h)
    (Hfail : (exists e, py_float (clean_numeric
                (match sho with Some t => t | None => "0"%string end)) = Raise e)
          \/ (exists e, py_float (clean_numeric
                (match vao with Some t => t | None => "0"%string end)) = Raise e)) :
  shares h = 0%Q /\ market_value h = 0%Q.
Proof.
  revert Hp. unfold process_entry. simpl. unfold coerce_block.
  destruct Hfail as [[e He]|[e He]].
  - rewrite He. simpl. destruct (target_filter _ _ _); [|discriminate].
    intro E. inversion E. split; reflexivity.
  - destruct (py_float (clean_numeric (match sho with Some t => t | None => "0"%string end)))
      as [s|e']; simpl.
    + rewrite He. simpl. destruct (target_filter _ _ _); [|discriminate].
      intro E. inversion E. split; reflexivity.
    + destruct (target_filter _ _ _); [|discriminate].
      intro E. inversion E. split; reflexivity.
Qed.

(** An unparseable share string next to a parseable value "500": both are 0. *)
Lemma process_entry_shared_handler_witness :
  exists h, process_entry ["NVDA"%string]
              (mkEntry (Some "NVIDIA CORP"%string) (Some "67066G104"%string)
                       (Some "N/A"%string) (Some "500"%string)) = Some h
            /\ py_float (clean_numeric "500") = Ok 500%Q
            /\ shares h = 0%Q /\ market_value h = 0%Q.
Proof.
  eexists. split; [vm_compute; reflexivity|]. split; [vm_compute; reflexivity|].
  apply (process_entry_shared_handler ["NVDA"%string] "NVIDIA CORP" "67066G104"
           (Some "N/A"%string) (Some "500"%string)).
  - vm_compute. reflexivity.
  - left. exists ValueError. vm_compute. reflexivity.
Defined.

(** ** The crawler *)

Section CrawlFacts.
Variable E : Type.
Variable date_of : E -> string.
Variable proc : Json.filing_data -> result (list E).
Variable sub_get : string -> http_result Json.submissions.
Variable shard_get : string -> http_result Json.filing_data.

Lemma shard_step_named (nm : string) (acc : list E) (tr : list event) :
  exists tr', shard_step E proc shard_get (Some nm) acc tr
              = (Ok (acc ++ (shard_entries E proc shard_get) (Some nm)), tr').
Proof.
  unfold shard_step, shard_entries, rcatch, rbindM, rlift, file_name, get_json, sleep, rret,
         json_of.
  destruct (shard_get (archive_url nm)) as [|c [fd|]]; simpl.
  - eexists. rewrite app_nil_r. reflexivity.
  - destruct (c =? 200); simpl.
    + destruct (proc fd); simpl; eexists; [reflexivity|rewrite app_nil_r; reflexivity].
    + eexists. rewrite app_nil_r. reflexivity.
  - destruct (c =? 200); simpl; eexists; rewrite app_nil_r; reflexivity.
Qed.

Lemma shard_loop_named (fis : list (option string)) (acc : list E) (tr : list event) :
  Forall (fun fi => fi <> None) fis ->
  exists tr', shard_loop E proc shard_get fis acc tr
              = (Ok (acc ++ flat_map (shard_entries E proc shard_get) fis), tr').
Proof.
  revert acc tr. induction fis as [|fi fs IH]; intros acc tr Hn.
  - exists tr. simpl. rewrite app_nil_r. reflexivity.
  - inversion Hn as [|? ? Hfi Hfs]; subst.
    destruct fi as [nm|]; [|congruence].
    simpl. unfold rbindM.
    destruct (shard_step_named nm acc tr) as [tr1 H1]. rewrite H1.
    destruct (IH (acc ++ (shard_entries E proc shard_get) (Some nm)) tr1 Hfs) as [tr2 H2].
    exists tr2. rewrite H2. rewrite app_assoc. reflexivity.
Qed.

Lemma insert_desc_perm (x : E) (l : list E) :
  Permutation (insert_desc date_of x l) (x :: l).
Proof.
  induction l as [|y r IH]; simpl; [reflexivity|].
  destruct (String.ltb _ _); [|reflexivity].
  rewrite IH. apply perm_swap.
Qed.

Lemma sort_desc_perm (l : list E) : Permutation (sort_desc date_of l) l.
Proof.
  induction l as [|x r IH]; simpl; [reflexivity|].
  unfold sort_desc in *. simpl. rewrite insert_desc_perm. rewrite IH. reflexivity.
Qed.

(** The result of a crawl whose submissions document is read and whose
    shards are all named: the sorted entries of the recent list and of the
    shards, each failed shard contributing nothing. *)
Lemma crawl_named_shards (cik : string) (d : Json.submissions) (R : list E) :
  sub_get (submissions_url cik) = HResp 200 (Some d) ->
  proc (Json.recent d) = Ok R ->
  Forall (fun fi => fi <> None) (Json.files d) ->
  fst (crawl date_of proc sub_get shard_get cik)
  = sort_desc date_of (R ++ flat_map (shard_entries E proc shard_get) (Json.files d)).
Proof.
  intros Hs Hr Hn. unfold crawl, crawl_body, rbindM, get_json, rlift, json_of, rret.
  rewrite Hs. simpl. rewrite Hr.
  destruct (shard_loop_named (Json.files d) R [EvGet (submissions_url cik)] Hn) as [tr H].
  rewrite H. reflexivity.
Qed.

Lemma from_proc_app (a b : list E) : (from_proc E proc) a -> (from_proc E proc) b -> (from_proc E proc) (a ++ b).
Proof.
  intros Ha Hb e Hin. apply in_app_or in Hin as [H|H]; [apply Ha|apply Hb]; exact H.
Qed.

Lemma shard_step_from_proc (fi : option string) (acc : list E) (tr : list event) :
  (from_proc E proc) acc ->
  match fst (shard_step E proc shard_get fi acc tr) with
  | Ok a => (from_proc E proc) a
  | Raise _ => True
  end.
Proof.
  intro Ha. destruct fi as [nm|].
  - destruct (shard_step_named nm acc tr) as [tr' H]. rewrite H. simpl.
    apply from_proc_app; [exact Ha|]. unfold shard_entries.
    destruct (shard_get (archive_url nm)) as [|c [fd|]]; try (intros ? []).
    destruct (c =? 200); [|intros ? []].
    destruct (proc fd) as [es|] eqn:P; [|intros ? []].
    intros e Hin. exists fd, es. split; [exact P|exact Hin].
  - simpl. exact I.
Qed.

Lemma shard_loop_from_proc (fis : list (option string)) (acc : list E) (tr : list event) :
  (from_proc E proc) acc ->
  match fst (shard_loop E proc shard_get fis acc tr) with
  | Ok a => (from_proc E proc) a
  | Raise _ => True
  end.
Proof.
  revert acc tr. induction fis as [|fi fs IH]; intros acc tr Ha; simpl; [exact Ha|].
  unfold rbindM. pose proof (shard_step_from_proc fi acc tr Ha) as S.
  destruct (shard_step E proc shard_get fi acc tr) as [[a|e] tr1]; simpl in S.
  - apply IH. exact S.
  - exact I.
Qed.

Lemma crawl_from_proc (cik : string) :
  (from_proc E proc) (fst (crawl date_of proc sub_get shard_get cik)).
Proof.
  unfold crawl, crawl_body, rbindM, get_json, rlift, json_of, rret.
  destruct (sub_get (submissions_url cik)) as [|c [d|]]; simpl; try (intros ? []).
  - destruct (c =? 200); simpl; [|intros ? []].
    destruct (proc (Json.recent d)) as [R|] eqn:P; simpl; [|intros ? []].
    assert (HR : (from_proc E proc) R) by (intros e Hin; exists (Json.recent d), R; split; assumption).
    pose proof (shard_loop_from_proc (Json.files d) R [EvGet (submissions_url cik)] HR) as S.
    destruct (shard_loop E proc shard_get (Json.files d) R _) as [[a|e] tr1]; simpl in *;
      [|intros ? []].
    intros x Hin. apply S. apply (Permutation_in _ (sort_desc_perm a)). exact Hin.
  - destruct (c =? 200); simpl; intros ? [].
Qed.

End CrawlFacts.

(** C6: when the submissions document is read and every shard entry has a
    name, both crawlers return every retained entry of the recent list and
    of every shard fetched with status 200 whose entries process, whatever
    the other shards do (a raising request, a non-200 status, an undecodable
    body or a malformed shard). *)
Theorem crawl_skips_failed_shards
    (sub_get : string -> http_result Json.submissions)
    (shard_get : string -> http_result Json.filing_data)
    (cik : string) (d : Json.submissions) (start_year end_year years_back now_year : Z)
    (R1 : list Tracker.filing) (R2 : list Simplified.filing)
    (Hs : sub_get (submissions_url cik) = HResp 200 (Some d))
    (Hn : Forall (fun fi => fi <> None) (Json.files d))
    (H1 : Tracker._process_filing_data (Json.recent d) start_year end_year = Ok R1)
    (H2 : Simplified._extract_13f_filings (Json.recent d) years_back now_year = Ok R2) :
  let r1 := fst (get_historical_13f_filings sub_get shard_get cik start_year end_year) in
  let r2 := fst (get_comprehensive_13f_history sub_get shard_get cik years_back now_year) in
  (forall e, In e R1 -> In e r1)
  /\ (forall nm fd es e, In (Some nm) (Json.files d) ->
        shard_get (archive_url nm) = HResp 200 (Some fd) ->
        Tracker._process_filing_data fd start_year end_year = Ok es -> In e es -> In e r1)
  /\ (forall e, In e R2 -> In e r2)
  /\ (forall nm fd es e, In (Some nm) (Json.files d) ->
        shard_get (archive_url nm) = HResp 200 (Some fd) ->
        Simplified._extract_13f_filings fd years_back now_year = Ok es -> In e es -> In e r2).
Proof.
  intros r1 r2. subst r1 r2.
  unfold get_historical_13f_filings, get_comprehensive_13f_history.
  rewrite (crawl_named_shards _ _ _ sub_get shard_get cik d R1 Hs H1 Hn).
  rewrite (crawl_named_shards _ _ _ sub_get shard_get cik d R2 Hs H2 Hn).
  split; [|split; [|split]].
  - intros e Hin. apply (Permutation_in _ (Permutation_sym (sort_desc_perm _ _ _))).
    apply in_or_app. left. exact Hin.
  - intros nm fd es e Hf Hg Hp Hin.
    apply (Permutation_in _ (Permutation_sym (sort_desc_perm _ _ _))).
    apply in_or_app. right. apply in_flat_map. exists (Some nm). split; [exact Hf|].
    unfold shard_entries. rewrite Hg. simpl. rewrite Hp. exact Hin.
  - intros e Hin. apply (Permutation_in _ (Permutation_sym (sort_desc_perm _ _ _))).
    apply in_or_app. left. exact Hin.
  - intros nm fd es e Hf Hg Hp Hin.
    apply (Permutation_in _ (Permutation_sym (sort_desc_perm _ _ _))).
    apply in_or_app. right. apply in_flat_map. exists (Some nm). split; [exact Hf|].
    unfold shard_entries. rewrite Hg. simpl. rewrite Hp. exact Hin.
Qed.

Lemma crawl_skips_failed_shards_witness :
  In (Tracker.mkFiling "b1" "2020-05-15" "13F-HR" 2020)
     (fst (get_historical_13f_filings ex_sub_get ex_shard_get ex_cik 2005 2026))
  /\ In (Tracker.mkFiling "a1" "2021-11-15" "13F-HR" 2021)
     (fst (get_historical_13f_filings ex_sub_get ex_shard_get ex_cik 2005 2026)).
Proof.
  assert (Hn : Forall (fun fi => fi <> None) (Json.files ex_submissions))
    by (repeat constructor; discriminate).
  destruct (crawl_skips_failed_shards ex_sub_get ex_shard_get ex_cik ex_submissions
              2005 2026 20 2026 _ _ eq_refl Hn
              ltac:(vm_compute; reflexivity) ltac:(vm_compute; reflexivity))
    as [Hr [Hsh _]].
  split.
  - apply (Hsh "s2.json"%string (Json.mkFilingData ["13F-HR"]%string ["b1"]%string
                                                   ["2020-05-15"]%string)
               [Tracker.mkFiling "b1" "2020-05-15" "13F-HR" 2020]).
    + simpl. right. left. reflexivity.
    + vm_compute. reflexivity.
    + vm_compute. reflexivity.
    + left. reflexivity.
  - apply Hr. left. reflexivity.
Defined.

(** C9, failing input: the first shard's request raises, so the
    [time.sleep(0.2)] of its iteration is skipped and the second shard is
    requested right after it; the only sleep follows the second request.
    Both crawlers behave alike. *)
Lemma shard_throttle_skipped_after_failure :
  snd (get_historical_13f_filings ex_sub_get ex_shard_get ex_cik 2005 2026)
  = [EvGet (submissions_url ex_cik); EvGet (archive_url "s1.json");
     EvGet (archive_url "s2.json"); EvSleep 200]
  /\ snd (get_comprehensive_13f_history ex_sub_get ex_shard_get ex_cik 20 2026)
  = [EvGet (submissions_url ex_cik); EvGet (archive_url "s1.json");
     EvGet (archive_url "s2.json"); EvSleep 200].
Proof. split; vm_compute; reflexivity. Qed.

(** ** Filing year and quarter *)

Local Ltac ascii_cases c := destruct c as [[] [] [] [] [] [] [] []].

Lemma digit_not_space (c : ascii) : is_digit c = true -> is_space c = false.
Proof. ascii_cases c; vm_compute; congruence. Qed.

Lemma digit_not_dash (c : ascii) : is_digit c = true -> Ascii.eqb c "-"%char = false.
Proof. ascii_cases c; vm_compute; congruence. Qed.

Lemma drop_spaces_digits (l : list ascii) : forallb is_digit l = true -> drop_spaces l = l.
Proof.
  destruct l as [|c r]; [reflexivity|]. simpl. intro H.
  apply andb_true_iff in H as [H _]. rewrite (digit_not_space c H). reflexivity.
Qed.

Lemma forallb_rev_digits (l : list ascii) : forallb is_digit l = true -> forallb is_digit (rev l) = true.
Proof.
  intro H. rewrite forallb_forall in *. intros x Hx. apply H. apply in_rev. exact Hx.
Qed.

Lemma strip_digits (l : list ascii) : forallb is_digit l = true -> strip_l l = l.
Proof.
  intro H. unfold strip_l. rewrite (drop_spaces_digits l H).
  rewrite (drop_spaces_digits (rev l) (forallb_rev_digits l H)). apply rev_involutive.
Qed.

Lemma int_digits_cons2 (c d : ascii) (r : list ascii) :
  is_digit d = true ->
  int_digits (c :: d :: r) = if is_digit c then option_map (cons c) (int_digits (d :: r)) else None.
Proof. intro H. ascii_cases d; simpl in H; try discriminate; reflexivity. Qed.

Lemma int_digits_all (l : list ascii) :
  l <> [] -> forallb is_digit l = true -> int_digits l = Some l.
Proof.
  induction l as [|c r IH]; intros Hne H; [congruence|].
  simpl in H. apply andb_true_iff in H as [Hc Hr].
  destruct r as [|d r'].
  - simpl. rewrite Hc. reflexivity.
  - simpl in Hr. pose proof Hr as Hr'. apply andb_true_iff in Hr' as [Hd _].
    rewrite (int_digits_cons2 c d r' Hd), Hc.
    rewrite IH; [reflexivity|discriminate|exact Hr].
Qed.

Lemma py_int_digits (l : list ascii) :
  l <> [] -> forallb is_digit l = true -> py_int (string_of_list_ascii l) = Ok (digits_Z l).
Proof.
  intros Hne H. unfold py_int. rewrite list_ascii_of_string_of_list_ascii.
  rewrite (strip_digits l H). pose proof (int_digits_all l Hne H) as Hi.
  destruct l as [|c r]; [congruence|].
  pose proof H as H'. simpl in H'. apply andb_true_iff in H' as [Hc _].
  ascii_cases c; simpl in Hc; try discriminate; cbv beta iota; rewrite Hi; reflexivity.
Qed.

Lemma split_l_no_sep (sep : ascii) (w : list ascii) :
  forallb (fun c => negb (Ascii.eqb c sep)) w = true -> split_l sep w = [w].
Proof.
  induction w as [|c r IH]; simpl; [reflexivity|]. intro H.
  apply andb_true_iff in H as [Hc Hr]. apply negb_true_iff in Hc.
  rewrite Hc, (IH Hr). reflexivity.
Qed.

Lemma split_l_app_sep (sep : ascii) (w r : list ascii) :
  forallb (fun c => negb (Ascii.eqb c sep)) w = true ->
  split_l sep (w ++ sep :: r) = w :: split_l sep r.
Proof.
  induction w as [|c w' IH]; simpl; intro H.
  - rewrite Ascii.eqb_refl. reflexivity.
  - apply andb_true_iff in H as [Hc Hr]. apply negb_true_iff in Hc.
    rewrite Hc, (IH Hr). reflexivity.
Qed.

Lemma digits_no_dash (w : list ascii) :
  forallb is_digit w = true -> forallb (fun c => negb (Ascii.eqb c "-"%char)) w = true.
Proof.
  intro H. rewrite forallb_forall in *. intros x Hx.
  rewrite (digit_not_dash x (H x Hx)). reflexivity.
Qed.

Lemma iso_date_split (y4 m2 d2 : list ascii) :
  forallb is_digit (y4 ++ m2 ++ d2) = true ->
  str_split "-"%char (iso_date y4 m2 d2)
  = [string_of_list_ascii y4; string_of_list_ascii m2; string_of_list_ascii d2].
Proof.
  intro H. rewrite !forallb_app in H.
  apply andb_true_iff in H as [Hy H]. apply andb_true_iff in H as [Hm Hd].
  unfold str_split, iso_date. rewrite list_ascii_of_string_of_list_ascii.
  rewrite (split_l_app_sep _ _ _ (digits_no_dash _ Hy)).
  rewrite (split_l_app_sep _ _ _ (digits_no_dash _ Hm)).
  rewrite (split_l_no_sep _ _ (digits_no_dash _ Hd)). reflexivity.
Qed.

Lemma extract_loop_fields (fd : Json.filing_data) (cutoff : Z) (i : nat)
    (forms : list string) (l : list Simplified.filing) (e : Simplified.filing) :
  Simplified.extract_loop fd cutoff i forms = Ok l -> In e l ->
  py_int (hd ""%string (str_split "-"%char (Simplified.filing_date e)))
    = Ok (Simplified.filing_year e)
  /\ Simplified.quarter_label (Simplified.filing_date e) = Ok (Simplified.filing_quarter e).
Proof.
  revert i l. induction forms as [|f fs IH]; intros i l H Hin.
  - simpl in H. inversion H; subst. destruct Hin.
  - cbn [Simplified.extract_loop] in H. unfold rbind at 1 in H.
    destruct (String.eqb f "13F-HR").
    + unfold rbind at 1 in H.
      destruct (nth_r i (Json.filingDate fd)) as [date|] eqn:Hd; [|discriminate].
      unfold rbind at 1 in H.
      destruct (py_int (hd ""%string (str_split "-"%char date))) as [y|] eqn:Hy; [|discriminate].
      destruct (cutoff <=? y).
      * unfold rbind at 1 in H.
        destruct (nth_r i (Json.accessionNumber fd)) as [an|]; [|discriminate].
        unfold rbind at 1 in H.
        destruct (Simplified.quarter_label date) as [q|] eqn:Hq; [|discriminate].
        unfold rbind in H.
        destruct (Simplified.extract_loop fd cutoff (S i) fs) as [rest|] eqn:Hr; [|discriminate].
        inversion H; subst. destruct Hin as [<-|Hin]; [simpl; split; assumption|].
        eapply IH; [exact Hr|exact Hin].
      * unfold rbind in H.
        destruct (Simplified.extract_loop fd cutoff (S i) fs) as [rest|] eqn:Hr; [|discriminate].
        inversion H; subst. eapply IH; [exact Hr|exact Hin].
    + unfold rbind in H.
      destruct (Simplified.extract_loop fd cutoff (S i) fs) as [rest|] eqn:Hr; [|discriminate].
      inversion H; subst. eapply IH; [exact Hr|exact Hin].
Qed.

Lemma process_loop_fields (fd : Json.filing_data) (start_year end_year : Z) (i : nat)
    (forms : list string) (l : list Tracker.filing) (e : Tracker.filing) :
  Tracker.process_loop fd start_year end_year i forms = Ok l -> In e l ->
  py_int (hd ""%string (str_split "-"%char (Tracker.filing_date e)))
    = Ok (Tracker.filing_year e).
Proof.
  revert i l. induction forms as [|f fs IH]; intros i l H Hin.
  - simpl in H. inversion H; subst. destruct Hin.
  - cbn [Tracker.process_loop] in H. unfold rbind at 1 in H.
    destruct (String.eqb f "13F-HR").
    + unfold rbind at 1 in H.
      destruct (nth_r i (Json.filingDate fd)) as [date|] eqn:Hd; [|discriminate].
      unfold rbind at 1 in H.
      destruct (py_int (hd ""%string (str_split "-"%char date))) as [y|] eqn:Hy; [|discriminate].
      destruct ((start_year <=? y) && (y <=? end_year)).
      * unfold rbind at 1 in H.
        destruct (nth_r i (Json.accessionNumber fd)) as [an|]; [|discriminate].
        unfold rbind in H.
        destruct (Tracker.process_loop fd start_year end_year (S i) fs) as [rest|] eqn:Hr;
          [|discriminate].
        inversion H; subst. destruct Hin as [<-|Hin]; [simpl; assumption|].
        eapply IH; [exact Hr|exact Hin].
      * unfold rbind in H.
        destruct (Tracker.process_loop fd start_year end_year (S i) fs) as [rest|] eqn:Hr;
          [|discriminate].
        inversion H; subst. eapply IH; [exact Hr|exact Hin].
    + unfold rbind in H.
      destruct (Tracker.process_loop fd start_year end_year (S i) fs) as [rest|] eqn:Hr;
        [|discriminate].
      inversion H; subst. eapply IH; [exact Hr|exact Hin].
Qed.

(** C8: in the entries kept by either crawler, the filing year is the
    integer value of the year field of the filing date; in the simplified
    crawler the quarter label is ["Q"] followed by [((month - 1) // 3) + 1],
    a number in 1..4, for a [YYYY-MM-DD] date of digit fields with a month
    in 1..12. *)
Theorem filing_year_quarter_derived sub_get shard_get (cik : string)
    (y4 m2 d2 : list ascii)
    (Hy : y4 <> []) (Hm : m2 <> [])
    (Hdig : forallb is_digit (y4 ++ m2 ++ d2) = true)
    (Hmon : 1 <= digits_Z m2 <= 12) :
  (forall years_back now_year e,
      In e (fst (get_comprehensive_13f_history sub_get shard_get cik years_back now_year)) ->
      Simplified.filing_date e = iso_date y4 m2 d2 ->
      Simplified.filing_year e = digits_Z y4
      /\ Simplified.filing_quarter e = ("Q" ++ z_to_string ((digits_Z m2 - 1) / 3 + 1))%string
      /\ 1 <= (digits_Z m2 - 1) / 3 + 1 <= 4)
  /\ (forall start_year end_year e,
      In e (fst (get_historical_13f_filings sub_get shard_get cik start_year end_year)) ->
      Tracker.filing_date e = iso_date y4 m2 d2 ->
      Tracker.filing_year e = digits_Z y4).
Proof.
  pose proof Hdig as Hd'. rewrite !forallb_app in Hd'.
  apply andb_true_iff in Hd' as [Hdy Hd']. apply andb_true_iff in Hd' as [Hdm _].
  split.
  - intros years_back now_year e Hin Hdate.
    destruct (crawl_from_proc _ _ _ _ _ cik e Hin) as (fd & l & Hp & Hl).
    destruct (extract_loop_fields _ _ _ _ _ _ Hp Hl) as [H1 H2].
    rewrite Hdate in H1, H2. unfold Simplified.quarter_label in H2.
    rewrite (iso_date_split _ _ _ Hdig) in H1, H2.
    simpl in H1. rewrite (py_int_digits _ Hy Hdy) in H1. inversion H1.
    simpl in H2.
    rewrite (py_int_digits _ Hm Hdm) in H2. simpl in H2. inversion H2.
    split; [reflexivity|]. split; [reflexivity|].
    split.
    + assert (0 <= (digits_Z m2 - 1) / 3) by (apply Z.div_pos; lia). lia.
    + assert ((digits_Z m2 - 1) / 3 < 4) by (apply Z.div_lt_upper_bound; lia). lia.
  - intros start_year end_year e Hin Hdate.
    destruct (crawl_from_proc _ _ _ _ _ cik e Hin) as (fd & l & Hp & Hl).
    pose proof (process_loop_fields _ _ _ _ _ _ _ Hp Hl) as H1.
    rewrite Hdate, (iso_date_split _ _ _ Hdig) in H1.
    simpl in H1. rewrite (py_int_digits _ Hy Hdy) in H1. inversion H1. reflexivity.
Qed.

(** C8, witness: the date 2021-11-15 gives year 2021 and quarter Q4; the
    recent entry [a1] of the example submissions carries that date. *)
Lemma filing_year_quarter_derived_witness :
  (forall e,
      In e (fst (get_comprehensive_13f_history ex_sub_get ex_shard_get ex_cik 20 2026)) ->
      Simplified.filing_date e = "2021-11-15"%string ->
      Simplified.filing_year e = 2021 /\ Simplified.filing_quarter e = "Q4"%string)
  /\ In (Simplified.mkFiling "a1" "2021-11-15" "13F-HR" 2021 "Q4")
        (fst (get_comprehensive_13f_history ex_sub_get ex_shard_get ex_cik 20 2026)).
Proof.
  split.
  - intros e Hin Hdate.
    destruct (filing_year_quarter_derived ex_sub_get ex_shard_get ex_cik
                (list_ascii_of_string "2021") (list_ascii_of_string "11")
                (list_ascii_of_string "15")
                ltac:(discriminate) ltac:(discriminate)
                ltac:(vm_compute; reflexivity) ltac:(vm_compute; split; discriminate))
      as [Hs _].
    destruct (Hs 20 2026 e Hin ltac:(rewrite Hdate; reflexivity)) as [Hy [Hq _]].
    rewrite Hy, Hq. split; reflexivity.
  - vm_compute. left. reflexivity.
Defined.

(** ** The historical summary *)

Module SummaryFacts.
Import Summary.

Lemma str_compare_refl (s : string) : String.compare s s = Eq.
Proof. apply OrderedTypeEx.String_as_OT.cmp_eq. reflexivity. Qed.

Lemma str_compare_lt_trans (a b c : string) :
  String.compare a b = Lt -> String.compare b c = Lt -> String.compare a c = Lt.
Proof.
  rewrite !(OrderedTypeEx.String_as_OT.cmp_lt).
  apply OrderedTypeEx.String_as_OT.lt_trans.
Qed.

Lemma str_leb_refl (s : string) : String.leb s s = true.
Proof. unfold String.leb. rewrite str_compare_refl. reflexivity. Qed.

Lemma insert_uniq_asc_in (k x : string) (l : list string) :
  In x (insert_uniq_asc k l) <-> x = k \/ In x l.
Proof.
  induction l as [|k' r IH]; simpl.
  - split; intros H; decompose [or] H; subst; auto.
  - destruct (String.compare k k') eqn:C; simpl; [apply String.compare_eq_iff in C| |rewrite IH];
      split; intros H; decompose [or] H; subst; auto.
Qed.

Lemma insert_uniq_asc_sorted (k : string) (l : list string) :
  StronglySorted key_lt l -> StronglySorted key_lt (insert_uniq_asc k l).
Proof.
  induction l as [|k' r IH]; intro H; simpl.
  - repeat constructor.
  - inversion H as [|? ? Hr Hf]; subst.
    destruct (String.compare k k') eqn:C.
    + exact H.
    + constructor; [exact H|]. constructor; [exact C|].
      rewrite Forall_forall in *. intros x Hx.
      apply (str_compare_lt_trans k k' x C (Hf x Hx)).
    + constructor; [apply IH; exact Hr|]. rewrite Forall_forall in *.
      intros x Hx. apply insert_uniq_asc_in in Hx as [->|Hx]; [|apply Hf; exact Hx].
      unfold key_lt. rewrite String.compare_antisym, C. reflexivity.
Qed.

Lemma group_keys_in (yd : list hrow) (k : string) :
  In k (group_keys yd) <-> In k (map institution_name yd).
Proof.
  unfold group_keys. induction (map institution_name yd) as [|a r IH]; simpl; [tauto|].
  rewrite insert_uniq_asc_in, IH. split; intros [H|H]; auto.
Qed.

Lemma group_keys_nodup (yd : list hrow) : NoDup (group_keys yd).
Proof.
  assert (Hs : StronglySorted key_lt (group_keys yd)).
  { unfold group_keys. induction (map institution_name yd) as [|a r IH]; simpl.
    - constructor.
    - apply insert_uniq_asc_sorted. exact IH. }
  induction Hs as [|a l Hs IH Hf]; constructor; [|exact IH].
  intro Ha. rewrite Forall_forall in Hf. specialize (Hf a Ha).
  unfold key_lt in Hf. rewrite str_compare_refl in Hf. discriminate.
Qed.

Lemma flat_map_single_key (g : string -> list hrow) (n : string) (ks : list string) :
  NoDup ks -> In n ks -> (forall k, k <> n -> g k = []) -> flat_map g ks = g n.
Proof.
  induction ks as [|k ks IH]; intros Hnd Hin Hg; [destruct Hin|].
  inversion Hnd as [|? ? Hk Hnd']; subst. simpl.
  destruct (String.eqb_spec k n) as [->|Hne].
  - assert (flat_map g ks = []) as ->; [|apply app_nil_r].
    clear IH Hin Hnd. induction ks as [|k' ks IH']; [reflexivity|].
    simpl. rewrite Hg; [|intros ->; apply Hk; left; reflexivity].
    apply IH'. intro H. apply Hk. right. exact H. inversion Hnd'. assumption.
  - destruct Hin as [->|Hin]; [congruence|]. rewrite Hg by exact Hne. apply IH; assumption.
Qed.

Lemma find_latest (yd : list hrow) (n : string) (r : hrow) :
  sorted_by_date_desc yd ->
  find (fun h => String.eqb (institution_name h) n) yd = Some r ->
  In r yd /\ institution_name r = n
  /\ forall r', In r' yd -> institution_name r' = n ->
       String.leb (filing_date r') (filing_date r) = true.
Proof.
  intros Hs. induction Hs as [|h t Hs IH Hf]; simpl; [discriminate|].
  destruct (String.eqb_spec (institution_name h) n) as [Hn|Hn]; intro Hfind.
  - inversion Hfind; subst. split; [left; reflexivity|]. split; [reflexivity|].
    intros r' [<-|Hr'] _; [apply str_leb_refl|].
    rewrite Forall_forall in Hf. exact (Hf r' Hr').
  - destruct (IH Hfind) as (Hin & Hname & Hmax). split; [right; exact Hin|].
    split; [exact Hname|]. intros r' [<-|Hr'] Hr'n; [congruence|]. apply Hmax; assumption.
Qed.

Lemma filter_combine_incl (p : Z * hrow -> bool) (ys : list Z) (hs : list hrow) (x : hrow) :
  In x (map snd (filter p (combine ys hs))) -> In x hs.
Proof.
  revert ys. induction hs as [|h t IH]; intros [|y ys]; simpl; try tauto.
  destruct (p (y, h)); simpl; [intros [->|H]; [left; reflexivity|right; eapply IH; exact H]|].
  intro H. right. eapply IH. exact H.
Qed.

Lemma filter_combine_sorted (p : Z * hrow -> bool) (ys : list Z) (hs : list hrow) :
  sorted_by_date_desc hs -> sorted_by_date_desc (map snd (filter p (combine ys hs))).
Proof.
  unfold sorted_by_date_desc. revert ys.
  induction hs as [|h t IH]; intros [|y ys] Hs; simpl; try constructor.
  inversion Hs as [|? ? Ht Hf]; subst.
  destruct (p (y, h)); simpl; [|apply IH; exact Ht].
  constructor; [apply IH; exact Ht|]. rewrite Forall_forall in *.
  intros x Hx. apply Hf. eapply filter_combine_incl. exact Hx.
Qed.

Lemma year_rows_incl (y : Z) (hs : list hrow) (x : hrow) :
  In x (year_rows y hs) -> In x hs.
Proof.
  unfold year_rows. destruct (years_of hs); [apply filter_combine_incl|intros []].
Qed.

Lemma year_rows_sorted (y : Z) (hs : list hrow) :
  sorted_by_date_desc hs -> sorted_by_date_desc (year_rows y hs).
Proof.
  intro H. unfold year_rows. destruct (years_of hs); [apply filter_combine_sorted; exact H|].
  constructor.
Qed.

Lemma latest_per_institution_in (yd : list hrow) (x : hrow) :
  In x (latest_per_institution yd) -> In x yd.
Proof.
  unfold latest_per_institution. intro H. apply in_flat_map in H as (k & _ & Hk).
  destruct (find _ yd) eqn:F; [|destruct Hk].
  destruct Hk as [<-|[]]. apply find_some in F. apply F.
Qed.

Lemma filter_flat_map_comm (p : hrow -> bool) (g : string -> list hrow) (ks : list string) :
  filter p (flat_map g ks) = flat_map (fun k => filter p (g k)) ks.
Proof.
  induction ks as [|k ks IH]; simpl; [reflexivity|]. rewrite filter_app, IH. reflexivity.
Qed.

Lemma latest_per_institution_unique (yd : list hrow) (r0 : hrow) :
  sorted_by_date_desc yd -> In r0 yd ->
  exists r,
    filter (fun h => String.eqb (institution_name h) (institution_name r0))
           (latest_per_institution yd) = [r]
    /\ In r yd /\ institution_name r = institution_name r0
    /\ forall r', In r' yd -> institution_name r' = institution_name r0 ->
         String.leb (filing_date r') (filing_date r) = true.
Proof.
  intros Hs Hin. set (n := institution_name r0).
  destruct (find (fun h => String.eqb (institution_name h) n) yd) as [r|] eqn:F.
  - exists r. destruct (find_latest yd n r Hs F) as (Hr & Hn & Hmax).
    split; [|auto].
    unfold latest_per_institution. rewrite filter_flat_map_comm.
    rewrite (flat_map_single_key _ n).
    + rewrite F. simpl. rewrite Hn, String.eqb_refl. reflexivity.
    + apply group_keys_nodup.
    + apply group_keys_in. apply in_map. exact Hin.
    + intros k Hk.
      destruct (find (fun h => String.eqb (institution_name h) k) yd) as [h|] eqn:Fk;
        [|reflexivity].
      apply find_some in Fk as [_ Hhk]. apply String.eqb_eq in Hhk.
      simpl. rewrite Hhk. apply String.eqb_neq in Hk. rewrite Hk. reflexivity.
  - exfalso. eapply find_none in F; [|exact Hin]. rewrite String.eqb_refl in F.
    discriminate.
Qed.

Lemma summarize_year_cons (y : Z) (tk : string) (h0 : hrow) (r0 : list hrow) :
  summarize_year y tk (h0 :: r0) =
  Some [mkSummary y tk (sumQ (map shares (h0 :: r0))) (sumQ (map market_value (h0 :: r0)))
          (Z.of_nat (length (h0 :: r0)))
          (sumQ (map shares (h0 :: r0)) / inject_Z (Z.of_nat (length (h0 :: r0))))%Q
          (institution_name (largest h0 r0)) (shares (largest h0 r0))
          (if Qlt_bool 0 (sumQ (map shares (h0 :: r0)))
           then (top3_sum (h0 :: r0) / sumQ (map shares (h0 :: r0)) * 100)%Q
           else 0%Q)].
Proof.
  unfold summarize_year, fdiv. cbv beta iota zeta.
  replace (0 <? Z.of_nat (length (h0 :: r0))) with true
    by (symmetry; apply Z.ltb_lt; simpl length; lia).
  replace (Qeq_bool (inject_Z (Z.of_nat (length (h0 :: r0)))) 0) with false
    by (symmetry; apply not_true_iff_false; rewrite Qeq_bool_iff; unfold Qeq; simpl; lia).
  destruct (Qlt_bool 0 (sumQ (map shares (h0 :: r0)))) eqn:Hq; [|reflexivity].
  replace (Qeq_bool (sumQ (map shares (h0 :: r0))) 0) with false; [reflexivity|].
  symmetry. apply not_true_iff_false. rewrite Qeq_bool_iff. intro He.
  unfold Qlt_bool in Hq. apply negb_true_iff in Hq.
  assert (Hle : Qle_bool (sumQ (map shares (h0 :: r0))) 0 = true)
    by (apply Qle_bool_iff; unfold Qle, Qeq in *; simpl in *; lia).
  congruence.
Qed.

Lemma summarize_year_some (y : Z) (tk : string) (lpi : list hrow) :
  summarize_year y tk lpi <> None.
Proof. destruct lpi as [|h0 r0]; [discriminate|]. rewrite summarize_year_cons. discriminate. Qed.

Lemma summarize_year_in (y : Z) (tk : string) (lpi : list hrow) (a : list year_summary)
    (s : year_summary) :
  summarize_year y tk lpi = Some a -> In s a ->
  year s = y
  /\ total_institutional_shares s = sumQ (map shares lpi)
  /\ total_market_value s = sumQ (map market_value lpi)
  /\ num_major_institutions s = Z.of_nat (length lpi)
  /\ (Qlt_bool 0 (sumQ (map shares lpi)) = false -> concentration_top3 s = 0%Q).
Proof.
  destruct lpi as [|h0 r0].
  - intro H. inversion H; subst. intros [].
  - rewrite summarize_year_cons. intro H. inversion H; subst. intros [<-|[]]. simpl.
    repeat split. intros ->. reflexivity.
Qed.

Lemma summarize_years_some (hs : list hrow) (tk : string) (ys : list Z) :
  summarize_years hs tk ys <> None.
Proof.
  induction ys as [|y ys IH]; simpl; [discriminate|].
  destruct (summarize_year y tk (latest_per_institution (year_rows y hs))) eqn:E.
  - destruct (summarize_years hs tk ys); [discriminate|congruence].
  - exfalso. exact (summarize_year_some _ _ _ E).
Qed.

Lemma summarize_years_in (hs : list hrow) (tk : string) (ys : list Z) (l : list year_summary)
    (s : year_summary) :
  summarize_years hs tk ys = Some l -> In s l ->
  exists y a, summarize_year y tk (latest_per_institution (year_rows y hs)) = Some a /\ In s a.
Proof.
  revert l. induction ys as [|y ys IH]; intros l H Hin; simpl in H.
  - inversion H; subst. destruct Hin.
  - destruct (summarize_year y tk (latest_per_institution (year_rows y hs))) as [a|] eqn:E;
      [|discriminate].
    destruct (summarize_years hs tk ys) as [b|] eqn:E'; [|discriminate].
    inversion H; subst. apply in_app_or in Hin as [Hin|Hin].
    + exists y, a. split; assumption.
    + apply (IH b eq_refl Hin).
Qed.

Lemma create_historical_summary_in (hs : list hrow) (tk : string) (s : year_summary) :
  In s (_create_historical_summary hs tk) ->
  exists y a, summarize_year y tk (latest_per_institution (year_rows y hs)) = Some a /\ In s a.
Proof.
  unfold _create_historical_summary. destruct hs as [|h t]; [intros []|].
  destruct (years_of (h :: t)) as [ys|]; [|intros []].
  destruct (summarize_years (h :: t) tk (unique_years_desc ys)) as [l|] eqn:E; [|intros []].
  intro Hin. exact (summarize_years_in _ _ _ _ _ E Hin).
Qed.

End SummaryFacts.

(** C4: for rows sorted by filing date descending, the rows kept for a year
    hold exactly one row per institution of that year: the institution's
    first row there, whose date is the latest of its rows in that year; the
    yearly summary's totals and institution count are taken over these rows
    only. *)
Theorem latest_filing_per_institution (hs : list Summary.hrow) (y : Z)
    (Hsort : Summary.sorted_by_date_desc hs) :
  (forall r0, In r0 (Summary.year_rows y hs) ->
     exists r,
       filter (fun h => String.eqb (Summary.institution_name h) (Summary.institution_name r0))
              (Summary.latest_per_institution (Summary.year_rows y hs)) = [r]
       /\ In r (Summary.year_rows y hs)
       /\ Summary.institution_name r = Summary.institution_name r0
       /\ forall r', In r' (Summary.year_rows y hs) ->
            Summary.institution_name r' = Summary.institution_name r0 ->
            String.leb (Summary.filing_date r') (Summary.filing_date r) = true)
  /\ (forall r, In r (Summary.latest_per_institution (Summary.year_rows y hs)) ->
        In r (Summary.year_rows y hs))
  /\ (forall tk s, In s (Summary._create_historical_summary hs tk) -> Summary.year s = y ->
        Summary.total_institutional_shares s
          = Summary.sumQ (map Summary.shares (Summary.latest_per_institution (Summary.year_rows y hs)))
        /\ Summary.total_market_value s
          = Summary.sumQ (map Summary.market_value
                              (Summary.latest_per_institution (Summary.year_rows y hs)))
        /\ Summary.num_major_institutions s
          = Z.of_nat (length (Summary.latest_per_institution (Summary.year_rows y hs)))).
Proof.
  split; [|split].
  - intros r0 Hin. apply SummaryFacts.latest_per_institution_unique; [|exact Hin].
    apply SummaryFacts.year_rows_sorted. exact Hsort.
  - apply SummaryFacts.latest_per_institution_in.
  - intros tk s Hin Hy.
    destruct (SummaryFacts.create_historical_summary_in hs tk s Hin) as (y' & a & E & Hs).
    destruct (SummaryFacts.summarize_year_in _ _ _ _ _ E Hs) as (Hy' & Ht & Hv & Hn & _).
    rewrite Hy' in Hy. subst y'. split; [exact Ht|]. split; assumption.
Qed.

(** C4, witness: with share counts 300 (November) and 200 (May) from one
    institution in 2020, the 2020 summary counts one institution with 300
    shares. *)
Lemma latest_filing_per_institution_witness :
  (forall s, In s (Summary._create_historical_summary ex_holdings "NVDA") ->
     Summary.year s = 2020 ->
     Summary.total_institutional_shares s = 300%Q /\ Summary.num_major_institutions s = 1)
  /\ Summary._create_historical_summary ex_holdings "NVDA" <> [].
Proof.
  assert (Hs : Summary.sorted_by_date_desc ex_holdings)
    by (repeat constructor).
  split.
  - intros s Hin Hy.
    destruct (latest_filing_per_institution ex_holdings 2020 Hs) as (_ & _ & H).
    destruct (H "NVDA"%string s Hin Hy) as (Ht & _ & Hn).
    rewrite Ht, Hn. vm_compute. split; reflexivity.
  - vm_compute. discriminate.
Defined.

(** C7: the summary of a year is always produced (no division fails), and
    every yearly summary whose total share count is 0 has a top-3
    concentration of 0. *)
Theorem concentration_zero_total :
  (forall y tk lpi, Summary.summarize_year y tk lpi <> None)
  /\ (forall hs tk ys, Summary.summarize_years hs tk ys <> None)
  /\ (forall hs tk s, In s (Summary._create_historical_summary hs tk) ->
        Qeq (Summary.total_institutional_shares s) 0 ->
        Summary.concentration_top3 s = 0%Q).
Proof.
  split; [exact SummaryFacts.summarize_year_some|].
  split; [exact SummaryFacts.summarize_years_some|].
  intros hs tk s Hin H0.
  destruct (SummaryFacts.create_historical_summary_in hs tk s Hin) as (y & a & E & Hs).
  destruct (SummaryFacts.summarize_year_in _ _ _ _ _ E Hs) as (_ & Ht & _ & _ & Hc).
  apply Hc. rewrite Ht in H0. unfold Summary.Qlt_bool. apply negb_false_iff.
  apply Qle_bool_iff. rewrite H0. apply Qle_refl.
Qed.

(** C7, witness: a year whose only institution holds 0 shares gets a
    summary, with concentration 0. *)
Lemma concentration_zero_total_witness :
  Summary._create_historical_summary ex_zero_holdings "NVDA" <> []
  /\ (forall s, In s (Summary._create_historical_summary ex_zero_holdings "NVDA") ->
        Summary.concentration_top3 s = 0%Q).
Proof.
  split; [vm_compute; discriminate|].
  intros s Hin. destruct concentration_zero_total as (_ & _ & H).
  apply (H ex_zero_holdings "NVDA"%string s Hin).
  vm_compute in Hin. destruct Hin as [<-|[]]. reflexivity.
Defined.

(** * Further properties *)

(** ** The crawlers' output order and filters *)

Module CrawlOrder.

Lemma str_leb_trans (a b c : string) :
  String.leb a b = true -> String.leb b c = true -> String.leb a c = true.
Proof.
  unfold String.leb.
  destruct (String.compare a b) eqn:Hab; try discriminate;
  destruct (String.compare b c) eqn:Hbc; try discriminate; intros _ _.
  - apply String.compare_eq_iff in Hab, Hbc. subst. rewrite SummaryFacts.str_compare_refl.
    reflexivity.
  - apply String.compare_eq_iff in Hab. subst. rewrite Hbc. reflexivity.
  - apply String.compare_eq_iff in Hbc. subst. rewrite Hab. reflexivity.
  - rewrite (SummaryFacts.str_compare_lt_trans a b c Hab Hbc). reflexivity.
Qed.

Lemma str_ltb_leb (a b : string) : String.ltb a b = true -> String.leb a b = true.
Proof. unfold String.ltb, String.leb. destruct (String.compare a b); congruence. Qed.

Lemma str_ltb_false_leb (a b : string) : String.ltb a b = false -> String.leb b a = true.
Proof.
  unfold String.ltb, String.leb. rewrite (String.compare_antisym b a).
  destruct (String.compare a b); simpl; congruence.
Qed.

Section Sort.
Variable E : Type.
Variable key : E -> string.

Lemma insert_desc_sorted (x : E) (l : list E) :
  Sorted (fun a b : E => String.leb (key b) (key a) = true) l -> Sorted (fun a b : E => String.leb (key b) (key a) = true) (insert_desc key x l).
Proof.
  induction l as [|y r IH]; intro H; simpl.
  - repeat constructor.
  - destruct (String.ltb (key x) (key y)) eqn:C.
    + inversion H as [|? ? Hr Hh]; subst. constructor; [apply IH; exact Hr|].
      destruct r as [|z r']; simpl.
      * constructor. cbv beta. apply str_ltb_leb. exact C.
      * inversion Hh; subst.
        destruct (String.ltb (key x) (key z)); constructor; [assumption|].
        cbv beta. apply str_ltb_leb. exact C.
    + constructor; [exact H|]. constructor. cbv beta.
      apply str_ltb_false_leb. exact C.
Qed.

Lemma sort_desc_strongly_sorted (l : list E) :
  StronglySorted (fun a b : E => String.leb (key b) (key a) = true) (sort_desc key l).
Proof.
  apply Sorted_StronglySorted.
  - intros a b c H1 H2. cbv beta in *. eapply str_leb_trans; eassumption.
  - unfold sort_desc. induction l as [|x r IH]; simpl; [constructor|].
    apply insert_desc_sorted. exact IH.
Qed.
End Sort.

Lemma crawl_is_sorted {E} (date_of : E -> string) proc sub_get shard_get (cik : string) :
  exists l, fst (crawl date_of proc sub_get shard_get cik) = sort_desc date_of l.
Proof.
  unfold crawl, crawl_body, rbindM, get_json, rlift, json_of, rret.
  destruct (sub_get (submissions_url cik)) as [|c [d|]]; simpl; try (exists []; reflexivity).
  - destruct (c =? 200); simpl; [|exists []; reflexivity].
    destruct (proc (Json.recent d)) as [R|]; simpl; [|exists []; reflexivity].
    destruct (shard_loop E proc shard_get (Json.files d) R _) as [[a|e] tr1]; simpl.
    + exists a. reflexivity.
    + exists []. reflexivity.
  - destruct (c =? 200); simpl; exists []; reflexivity.
Qed.

Lemma process_loop_kept (fd : Json.filing_data) (s e : Z) (i : nat) (forms : list string)
    (l : list Tracker.filing) (x : Tracker.filing) :
  Tracker.process_loop fd s e i forms = Ok l -> In x l ->
  Tracker.form x = "13F-HR"%string /\ s <= Tracker.filing_year x <= e.
Proof.
  revert i l. induction forms as [|f fs IH]; intros i l H Hin.
  - simpl in H. inversion H; subst. destruct Hin.
  - cbn [Tracker.process_loop] in H. unfold rbind at 1 in H.
    destruct (String.eqb_spec f "13F-HR").
    + unfold rbind at 1 in H.
      destruct (nth_r i (Json.filingDate fd)) as [date|]; [|discriminate].
      unfold rbind at 1 in H.
      destruct (py_int (hd ""%string (str_split "-"%char date))) as [y|]; [|discriminate].
      destruct ((s <=? y) && (y <=? e)) eqn:B.
      * unfold rbind at 1 in H.
        destruct (nth_r i (Json.accessionNumber fd)) as [an|]; [|discriminate].
        unfold rbind in H.
        destruct (Tracker.process_loop fd s e (S i) fs) as [rest|] eqn:Hr; [|discriminate].
        inversion H; subst. destruct Hin as [<-|Hin]; [|eapply IH; eassumption].
        simpl. apply andb_true_iff in B as [B1 B2]. apply Z.leb_le in B1, B2. auto.
      * unfold rbind in H.
        destruct (Tracker.process_loop fd s e (S i) fs) as [rest|] eqn:Hr; [|discriminate].
        inversion H; subst. eapply IH; eassumption.
    + unfold rbind in H.
      destruct (Tracker.process_loop fd s e (S i) fs) as [rest|] eqn:Hr; [|discriminate].
      inversion H; subst. eapply IH; eassumption.
Qed.

Lemma extract_loop_kept (fd : Json.filing_data) (cutoff : Z) (i : nat) (forms : list string)
    (l : list Simplified.filing) (x : Simplified.filing) :
  Simplified.extract_loop fd cutoff i forms = Ok l -> In x l ->
  Simplified.form x = "13F-HR"%string /\ cutoff <= Simplified.filing_year x.
Proof.
  revert i l. induction forms as [|f fs IH]; intros i l H Hin.
  - simpl in H. inversion H; subst. destruct Hin.
  - cbn [Simplified.extract_loop] in H. unfold rbind at 1 in H.
    destruct (String.eqb_spec f "13F-HR").
    + unfold rbind at 1 in H.
      destruct (nth_r i (Json.filingDate fd)) as [date|]; [|discriminate].
      unfold rbind at 1 in H.
      destruct (py_int (hd ""%string (str_split "-"%char date))) as [y|]; [|discriminate].
      destruct (cutoff <=? y) eqn:B.
      * unfold rbind at 1 in H.
        destruct (nth_r i (Json.accessionNumber fd)) as [an|]; [|discriminate].
        unfold rbind at 1 in H.
        destruct (Simplified.quarter_label date) as [q|]; [|discriminate].
        unfold rbind in H.
        destruct (Simplified.extract_loop fd cutoff (S i) fs) as [rest|] eqn:Hr; [|discriminate].
        inversion H; subst. destruct Hin as [<-|Hin]; [|eapply IH; eassumption].
        simpl. apply Z.leb_le in B. auto.
      * unfold rbind in H.
        destruct (Simplified.extract_loop fd cutoff (S i) fs) as [rest|] eqn:Hr; [|discriminate].
        inversion H; subst. eapply IH; eassumption.
    + unfold rbind in H.
      destruct (Simplified.extract_loop fd cutoff (S i) fs) as [rest|] eqn:Hr; [|discriminate].
      inversion H; subst. eapply IH; eassumption.
Qed.

End CrawlOrder.

(** X1: both crawlers return their entries newest filing date first (each
    entry's date is at least that of every later entry). *)
Theorem crawlers_newest_first sub_get shard_get (cik : string) :
  (forall start_year end_year,
     StronglySorted (fun a b => String.leb (Tracker.filing_date b) (Tracker.filing_date a) = true)
       (fst (get_historical_13f_filings sub_get shard_get cik start_year end_year)))
  /\ (forall years_back now_year,
     StronglySorted
       (fun a b => String.leb (Simplified.filing_date b) (Simplified.filing_date a) = true)
       (fst (get_comprehensive_13f_history sub_get shard_get cik years_back now_year))).
Proof.
  split; intros.
  - unfold get_historical_13f_filings.
    destruct (CrawlOrder.crawl_is_sorted Tracker.filing_date
                (fun fd => Tracker._process_filing_data fd start_year end_year)
                sub_get shard_get cik) as [l ->].
    apply (CrawlOrder.sort_desc_strongly_sorted _ Tracker.filing_date).
  - unfold get_comprehensive_13f_history.
    destruct (CrawlOrder.crawl_is_sorted Simplified.filing_date
                (fun fd => Simplified._extract_13f_filings fd years_back now_year)
                sub_get shard_get cik) as [l ->].
    apply (CrawlOrder.sort_desc_strongly_sorted _ Simplified.filing_date).
Qed.

(** X2: every entry the tracker's crawler returns is a 13F-HR filing whose
    year lies in [start_year, end_year]; every entry of the simplified
    crawler is a 13F-HR filing of a year at least [now_year - years_back]. *)
Theorem crawlers_keep_13f_in_range sub_get shard_get (cik : string) :
  (forall start_year end_year e,
     In e (fst (get_historical_13f_filings sub_get shard_get cik start_year end_year)) ->
     Tracker.form e = "13F-HR"%string /\ start_year <= Tracker.filing_year e <= end_year)
  /\ (forall years_back now_year e,
     In e (fst (get_comprehensive_13f_history sub_get shard_get cik years_back now_year)) ->
     Simplified.form e = "13F-HR"%string /\ now_year - years_back <= Simplified.filing_year e).
Proof.
  split.
  - intros s en e Hin.
    destruct (crawl_from_proc _ _ _ _ _ cik e Hin) as (fd & l & Hp & Hl).
    exact (CrawlOrder.process_loop_kept _ _ _ _ _ _ _ Hp Hl).
  - intros yb ny e Hin.
    destruct (crawl_from_proc _ _ _ _ _ cik e Hin) as (fd & l & Hp & Hl).
    exact (CrawlOrder.extract_loop_kept _ _ _ _ _ _ Hp Hl).
Qed.

(** ** Recent filings *)

Module RecentFacts.

Lemma skipn_cons_nth {A} (i : nat) (l r : list A) (a : A) :
  skipn i l = a :: r -> nth_error l i = Some a /\ skipn (S i) l = r.
Proof.
  revert l. induction i as [|i IH]; intros [|x l] H; simpl in *; try discriminate.
  - inversion H; subst. split; reflexivity.
  - apply IH. exact H.
Qed.

Lemma recent_loop_prefix (fd : Json.filing_data) (limit : Z) (forms : list string) :
  forall (i : nat) (acc : list Recent.filing),
  (length acc <= Z.to_nat limit)%nat ->
  (length forms <= length (skipn i (Json.accessionNumber fd)))%nat ->
  (length forms <= length (skipn i (Json.filingDate fd)))%nat ->
  Recent.recent_loop fd limit i forms acc
  = Ok (acc ++ firstn (Z.to_nat limit - length acc)
                  (hr_entries forms (skipn i (Json.accessionNumber fd))
                              (skipn i (Json.filingDate fd)))).
Proof.
  induction forms as [|f fs IH]; intros i acc Hacc Ha Hd.
  - simpl. unfold hr_entries. simpl. rewrite firstn_nil, app_nil_r. reflexivity.
  - destruct (skipn i (Json.accessionNumber fd)) as [|a ra] eqn:Sa; [simpl in Ha; lia|].
    destruct (skipn i (Json.filingDate fd)) as [|d rd] eqn:Sd; [simpl in Hd; lia|].
    apply skipn_cons_nth in Sa as [Na Sa]. apply skipn_cons_nth in Sd as [Nd Sd].
    simpl in Ha, Hd.
    assert (Hr : forall acc', (length acc' <= Z.to_nat limit)%nat ->
               Recent.recent_loop fd limit (S i) fs acc'
               = Ok (acc' ++ firstn (Z.to_nat limit - length acc') (hr_entries fs ra rd))).
    { intros acc' H'. rewrite IH by (rewrite ?Sa, ?Sd; lia || assumption). rewrite Sa, Sd.
      reflexivity. }
    unfold hr_entries at 1. cbn [combine filter map fst snd]. fold (hr_entries fs ra rd).
    cbn [Recent.recent_loop].
    destruct (String.eqb f "13F-HR") eqn:F; simpl andb.
    + destruct (Z.of_nat (length acc) <? limit) eqn:L.
      * apply Z.ltb_lt in L. unfold nth_r. rewrite Na, Nd. simpl.
        rewrite Hr by (rewrite length_app; simpl; lia).
        rewrite length_app. simpl length.
        replace (Z.to_nat limit - length acc)%nat
          with (S (Z.to_nat limit - (length acc + 1)))%nat by lia.
        simpl. rewrite <- app_assoc. reflexivity.
      * apply Z.ltb_ge in L. rewrite Hr by exact Hacc.
        replace (Z.to_nat limit - length acc)%nat with 0%nat by lia. reflexivity.
    + apply Hr. exact Hacc.
Qed.

End RecentFacts.

(** X3: when the submissions document is read with status 200 and the
    accession-number and date lists are as long as the form list,
    [get_13f_filings] returns the first [limit] 13F-HR entries of the
    recent list in order (none when [limit] is 0 or negative), each with
    the accession number and date of its own index. *)
Theorem get_13f_filings_first_limit sub_get (cik : string) (limit : Z)
    (data : Json.submissions)
    (Hs : sub_get (submissions_url cik) = HResp 200 (Some data))
    (Ha : (length (Json.form (Json.recent data))
           <= length (Json.accessionNumber (Json.recent data)))%nat)
    (Hd : (length (Json.form (Json.recent data))
           <= length (Json.filingDate (Json.recent data)))%nat) :
  get_13f_filings sub_get cik limit
  = firstn (Z.to_nat limit)
      (hr_entries (Json.form (Json.recent data)) (Json.accessionNumber (Json.recent data))
                  (Json.filingDate (Json.recent data))).
Proof.
  unfold get_13f_filings. rewrite Hs. simpl (200 =? 200).
  rewrite (RecentFacts.recent_loop_prefix _ limit _ 0 []); simpl; [|lia|exact Ha|exact Hd].
  rewrite Nat.sub_0_r. reflexivity.
Qed.

(** X3, witness: the example submissions list 13F-HR, 10-K, 13F-HR; with
    [limit = 1] only the first 13F-HR entry is returned. *)
Lemma get_13f_filings_first_limit_witness :
  get_13f_filings ex_sub_get ex_cik 1 = [Recent.mkFiling "a1" "2021-11-15" "13F-HR"].
Proof.
  rewrite (get_13f_filings_first_limit ex_sub_get ex_cik 1 ex_submissions eq_refl
             ltac:(vm_compute; lia) ltac:(vm_compute; lia)).
  vm_compute. reflexivity.
Defined.

(** ** The filings processed per institution *)

Module SelectFacts.

Lemma mod4_shift (s : nat) : ((s + 4) mod 4 = s mod 4)%nat.
Proof.
  replace (s + 4)%nat with (s + 1 * 4)%nat by lia. apply Nat.Div0.mod_add.
Qed.

Lemma stride_shift {A} (s : nat) (l : list A) :
  map snd (filter (fun p => Nat.eqb (fst p mod 4) 0) (combine (seq (s + 4) (length l)) l))
  = map snd (filter (fun p => Nat.eqb (fst p mod 4) 0) (combine (seq s (length l)) l)).
Proof.
  revert s. induction l as [|x r IH]; intro s; [reflexivity|].
  simpl length. cbn [seq combine filter fst]. rewrite mod4_shift.
  replace (S (s + 4)) with (S s + 4)%nat by lia.
  destruct (Nat.eqb (s mod 4) 0); cbn [map]; rewrite IH; reflexivity.
Qed.

Lemma every_fourth_cons4 {A} (a b c d : A) (r : list A) :
  every_fourth (a :: b :: c :: d :: r) = a :: every_fourth r.
Proof.
  unfold every_fourth. simpl length. cbn [seq combine filter fst map snd].
  simpl (Nat.eqb _ 0). cbn [map snd]. f_equal.
  pose proof (stride_shift 0 r) as H. simpl plus in H. exact H.
Qed.

Lemma every_fourth_nth {A} (l : list A) (k : nat) :
  nth_error (every_fourth l) k = nth_error l (4 * k).
Proof.
  remember (length l) as n eqn:Hn. revert l k Hn.
  induction n as [n IH] using lt_wf_ind; intros l k Hn.
  destruct l as [|a [|b [|c [|d r]]]];
    [destruct k; reflexivity
    | destruct k as [|k]; [reflexivity|];
      rewrite !(proj2 (nth_error_None _ _)); [reflexivity|simpl; lia..]..|].
  - rewrite every_fourth_cons4. destruct k as [|k]; [reflexivity|].
    simpl nth_error at 1. rewrite (IH (length r)) by (simpl in Hn; lia || reflexivity).
    replace (4 * S k)%nat with (S (S (S (S (4 * k))))) by lia. reflexivity.
Qed.

Lemma every_fourth_length {A} (l : list A) :
  length (every_fourth l) = ((length l + 3) / 4)%nat.
Proof.
  remember (length l) as n eqn:Hn. revert l Hn.
  induction n as [n IH] using lt_wf_ind; intros l Hn.
  destruct l as [|a [|b [|c [|d r]]]]; subst n; try reflexivity.
  rewrite every_fourth_cons4. simpl length. rewrite (IH (length r)) by (simpl; lia || reflexivity).
  replace (S (S (S (S (length r)))) + 3)%nat with ((length r + 3) + 1 * 4)%nat by lia.
  rewrite Nat.div_add by lia. lia.
Qed.

Lemma every_fourth_incl {A} (l : list A) (x : A) : In x (every_fourth l) -> In x l.
Proof.
  intro H. apply In_nth_error in H as [k Hk]. rewrite every_fourth_nth in Hk.
  eapply nth_error_In. exact Hk.
Qed.

Lemma in_firstn {A} (n : nat) (l : list A) (x : A) : In x (firstn n l) -> In x l.
Proof. intro H. rewrite <- (firstn_skipn n l). apply in_or_app. left. exact H. Qed.

Lemma filings_to_process_incl (hf : list Tracker.filing) (f : Tracker.filing) :
  In f (filings_to_process hf) -> In f hf.
Proof.
  unfold filings_to_process. intro Hf. apply in_firstn in Hf.
  apply in_app_or in Hf as [Hf|Hf].
  - apply in_firstn in Hf. apply filter_In in Hf. apply Hf.
  - apply every_fourth_incl in Hf. apply filter_In in Hf. apply Hf.
Qed.

End SelectFacts.

(** X4: for each institution, [get_historical_holdings_for_ticker] processes
    at most 50 of its filings, all taken from its history: first its first
    20 filings of 2020 or later (in history order), then, up to the 50
    limit, the older filings at positions 0, 4, 8, ... of the list of
    pre-2020 filings, which holds (n + 3) / 4 of n older filings. *)
Theorem filings_to_process_selection (hf : list Tracker.filing) :
  let old := filter (fun f => Tracker.filing_year f <? 2020) hf in
  let recent := firstn 20 (filter (fun f => 2020 <=? Tracker.filing_year f) hf) in
  (length (filings_to_process hf) <= 50)%nat
  /\ (forall f, In f (filings_to_process hf) -> In f hf)
  /\ filings_to_process hf = recent ++ firstn (50 - length recent) (every_fourth old)
  /\ Forall (fun f => 2020 <= Tracker.filing_year f) recent
  /\ Forall (fun f => Tracker.filing_year f < 2020) (every_fourth old)
  /\ (forall k, nth_error (every_fourth old) k = nth_error old (4 * k))
  /\ length (every_fourth old) = ((length old + 3) / 4)%nat.
Proof.
  cbv zeta. unfold filings_to_process.
  assert (Hr : (length (firstn 20 (filter (fun f => (2020 <=? Tracker.filing_year f)%Z) hf)) <= 20)%nat)
    by (rewrite length_firstn; lia).
  split; [rewrite length_firstn; lia|].
  split; [apply SelectFacts.filings_to_process_incl|].
  - split; [rewrite firstn_app, firstn_all2 by lia; reflexivity|].
    split.
    + apply Forall_forall. intros f Hf. apply SelectFacts.in_firstn in Hf. apply filter_In in Hf as [_ Hf].
      apply Z.leb_le. exact Hf.
    + split.
      * apply Forall_forall. intros f Hf. apply SelectFacts.every_fourth_incl in Hf.
        apply filter_In in Hf as [_ Hf]. apply Z.ltb_lt. exact Hf.
      * split; [apply SelectFacts.every_fourth_nth|apply SelectFacts.every_fourth_length].
Qed.

(** X5: [get_historical_holdings_for_ticker] reads the first three
    institutions of [get_major_institutions] (Berkshire Hathaway, Vanguard,
    BlackRock; the literal's repeated Vanguard key leaves 13 entries), and
    every holding it returns is a holding that [parse_13f_holdings] returned
    for [[ticker]] on one processed filing of one of them, labelled with
    that institution and that filing's date, year and accession number; the
    year lies in [start_year, end_year]. *)
Theorem historical_holdings_provenance soup_entries re_search_other fetch sub_get shard_get
    (ticker : string) (start_year end_year : Z) :
  firstn 3 get_major_institutions
    = [("0001067983", "Berkshire Hathaway Inc"); ("0001364742", "Vanguard Group Inc");
       ("0000950123", "BlackRock Inc")]%string
  /\ length get_major_institutions = 13%nat
  /\ forall x,
     In x (get_historical_holdings_for_ticker soup_entries re_search_other fetch sub_get shard_get
             ticker start_year end_year) ->
     exists inst f hs,
       In inst (firstn 3 get_major_institutions)
       /\ In f (filings_to_process
                  (fst (get_historical_13f_filings sub_get shard_get (fst inst)
                          start_year end_year)))
       /\ fst (parse_13f_holdings soup_entries re_search_other fetch (fst inst) (Tracker.accession_number f)
                                  [ticker]) = Ok hs
       /\ In (hh_holding x) hs
       /\ hh_institution_name x = snd inst /\ hh_institution_cik x = fst inst
       /\ hh_filing_date x = Tracker.filing_date f
       /\ hh_filing_year x = Tracker.filing_year f
       /\ hh_accession_number x = Tracker.accession_number f
       /\ start_year <= hh_filing_year x <= end_year.
Proof.
  split; [vm_compute; reflexivity|]. split; [vm_compute; reflexivity|].
  intros x Hx. unfold get_historical_holdings_for_ticker in Hx.
  apply in_flat_map in Hx as (inst & Hinst & Hx).
  apply in_flat_map in Hx as (f & Hf & Hx).
  unfold holdings_of_filing in Hx.
  destruct (fst (parse_13f_holdings soup_entries re_search_other fetch (fst inst) (Tracker.accession_number f)
                                    [ticker])) as [hs|] eqn:P; [|destruct Hx].
  apply in_map_iff in Hx as (h & <- & Hh).
  exists inst, f, hs. do 4 (split; [assumption|]).
  cbn [hh_holding hh_institution_name hh_institution_cik hh_filing_date hh_filing_year
       hh_accession_number].
  do 5 (split; [reflexivity|]).
  apply SelectFacts.filings_to_process_incl in Hf.
  destruct (crawl_from_proc _ _ _ _ _ (fst inst) f Hf) as (fd & l & Hp & Hl).
  exact (proj2 (CrawlOrder.process_loop_kept _ _ _ _ _ _ _ Hp Hl)).
Qed.

(** ** Markup repair, CIK padding and the CUSIP map *)

Module TextFacts.

Lemma escape_entity_app (p r : list ascii) :
  In p known_entities -> escape_amp_l (p ++ r) = p ++ escape_amp_l r.
Proof. intros [<-|[<-|[<-|[<-|[<-|[]]]]]]; reflexivity. Qed.

Lemma is_prefix_app (p l : list ascii) : is_prefix p l = true -> exists r, l = p ++ r.
Proof.
  revert l. induction p as [|a p IH]; intros l H; [exists l; reflexivity|].
  destruct l as [|b l]; [discriminate|]. simpl in H. apply andb_true_iff in H as [Hab H].
  apply Ascii.eqb_eq in Hab. subst. destruct (IH l H) as [r ->]. exists r. reflexivity.
Qed.

Lemma is_prefix_app_self (p r : list ascii) : is_prefix p (p ++ r) = true.
Proof. induction p as [|a p IH]; simpl; [reflexivity|]. rewrite Ascii.eqb_refl. exact IH. Qed.

Lemma escape_amp_l_idem (l : list ascii) : escape_amp_l (escape_amp_l l) = escape_amp_l l.
Proof.
  induction l as [|c r IH]; [reflexivity|]. cbn [escape_amp_l].
  destruct (Ascii.eqb c "&"%char) eqn:Hc.
  - destruct (existsb (fun p => is_prefix p r) known_entities) eqn:He.
    + cbn [escape_amp_l]. rewrite Hc.
      apply existsb_exists in He as (p & Hp & Hpre).
      destruct (is_prefix_app p r Hpre) as [r' ->].
      rewrite (escape_entity_app p r' Hp).
      assert (existsb (fun q => is_prefix q (p ++ escape_amp_l r')) known_entities = true) as ->.
      { apply existsb_exists. exists p. split; [exact Hp|]. apply is_prefix_app_self. }
      rewrite (escape_entity_app p r' Hp) in IH. rewrite IH. reflexivity.
    + apply Ascii.eqb_eq in Hc. subst c. cbn. rewrite IH. reflexivity.
  - cbn [escape_amp_l]. rewrite Hc, IH. reflexivity.
Qed.

Lemma length_string_of_list (l : list ascii) : String.length (string_of_list_ascii l) = length l.
Proof. induction l as [|c r IH]; simpl; [reflexivity|]. rewrite IH. reflexivity. Qed.

Lemma length_list_of_string (s : string) : length (list_ascii_of_string s) = String.length s.
Proof. induction s as [|c r IH]; simpl; [reflexivity|]. rewrite IH. reflexivity. Qed.

Lemma digits_Z_zeros (n : nat) (l : list ascii) : digits_Z (repeat "0"%char n ++ l) = digits_Z l.
Proof.
  unfold digits_Z. rewrite fold_left_app. f_equal.
  induction n as [|n IH]; [reflexivity|]. simpl repeat. cbn [fold_left].
  replace (0 * 10 + digit_val "0"%char) with 0 by reflexivity. exact IH.
Qed.

Lemma forallb_repeat_zero (n : nat) : forallb is_digit (repeat "0"%char n) = true.
Proof. induction n as [|n IH]; [reflexivity|]. simpl. exact IH. Qed.

Lemma lower_upper_char (c : ascii) : lower_char (upper_char c) = lower_char c.
Proof. destruct c as [[] [] [] [] [] [] [] []]; vm_compute; reflexivity. Qed.

Lemma lower_lower_char (c : ascii) : lower_char (lower_char c) = lower_char c.
Proof. destruct c as [[] [] [] [] [] [] [] []]; vm_compute; reflexivity. Qed.

Lemma list_ascii_of_string_app (s t : string) :
  list_ascii_of_string (s ++ t) = list_ascii_of_string s ++ list_ascii_of_string t.
Proof. induction s as [|c s IH]; simpl; [reflexivity|]. rewrite IH. reflexivity. Qed.

(** A pattern of ordinary characters reads as their atoms. *)
Lemma re_parse_plain_app (l r : list ascii) :
  forallb TextAux.ordinary l = true ->
  re_parse (l ++ r) = option_map (app (map TextAux.atom_of l)) (re_parse r).
Proof.
  induction l as [|c l IH]; intro H.
  - simpl. destruct (re_parse r); reflexivity.
  - simpl in H. apply andb_true_iff in H as [Hc H].
    unfold TextAux.ordinary in Hc. apply andb_true_iff in Hc as [Hm Hb].
    apply negb_true_iff in Hm, Hb.
    cbn [app re_parse]. rewrite Hb, Hm, (IH H). unfold TextAux.atom_of.
    destruct (Ascii.eqb c "."%char) eqn:D; destruct (re_parse r); cbn; rewrite ?D; reflexivity.
Qed.

Lemma re_parse_plain (l : list ascii) :
  forallb TextAux.ordinary l = true -> re_parse l = Some (map TextAux.atom_of l).
Proof.
  intro H. pose proof (re_parse_plain_app l [] H) as P. rewrite app_nil_r in P.
  rewrite P. cbn. rewrite app_nil_r. reflexivity.
Qed.

(** The case of an ordinary character does not matter under [re.IGNORECASE]. *)
Definition fold_atom (a : ratom) : ratom :=
  match a with RChar c => RChar (lower_char c) | _ => a end.

Lemma re_match_fold (p : list ratom) (prev : option ascii) (l : list ascii) :
  re_match (map fold_atom p) prev l = re_match p prev l.
Proof.
  revert prev l. induction p as [|a p IH]; intros prev l; [reflexivity|].
  destruct a as [c| |]; cbn [map fold_atom re_match].
  - destruct l as [|d r]; [reflexivity|]. rewrite lower_lower_char, IH. reflexivity.
  - destruct l as [|d r]; [reflexivity|]. rewrite IH. reflexivity.
  - rewrite IH. reflexivity.
Qed.

Lemma re_search_fold (p : list ratom) (prev : option ascii) (l : list ascii) :
  re_search_l (map fold_atom p) prev l = re_search_l p prev l.
Proof.
  revert prev. induction l as [|c r IH]; intro prev; cbn [re_search_l];
    rewrite re_match_fold; [reflexivity|]. rewrite IH. reflexivity.
Qed.

Lemma ordinary_lower_char (c : ascii) : TextAux.ordinary (lower_char c) = TextAux.ordinary c.
Proof. destruct c as [[] [] [] [] [] [] [] []]; vm_compute; reflexivity. Qed.

Lemma ordinary_upper_char (c : ascii) : TextAux.ordinary (upper_char c) = TextAux.ordinary c.
Proof. destruct c as [[] [] [] [] [] [] [] []]; vm_compute; reflexivity. Qed.

Lemma fold_atom_lower_char (c : ascii) :
  fold_atom (TextAux.atom_of (lower_char c)) = fold_atom (TextAux.atom_of c).
Proof. destruct c as [[] [] [] [] [] [] [] []]; vm_compute; reflexivity. Qed.

Lemma fold_atom_upper_char (c : ascii) :
  fold_atom (TextAux.atom_of (upper_char c)) = fold_atom (TextAux.atom_of c).
Proof. destruct c as [[] [] [] [] [] [] [] []]; vm_compute; reflexivity. Qed.

Lemma forallb_map_ascii (f : ascii -> bool) (g : ascii -> ascii) (l : list ascii) :
  (forall c, f (g c) = f c) -> forallb f (map g l) = forallb f l.
Proof. intro H. induction l as [|c l IH]; simpl; [reflexivity|]. rewrite H, IH. reflexivity. Qed.

(** The lower-cased and the upper-cased patterns search like the ticker. *)
Lemma re_search_cased (re : string -> string -> result bool) (g : ascii -> ascii)
    (tk line : string) :
  (forall c, TextAux.ordinary (g c) = TextAux.ordinary c) ->
  (forall c, fold_atom (TextAux.atom_of (g c)) = fold_atom (TextAux.atom_of c)) ->
  TextAux.plain_ticker tk = true ->
  re_search re (string_of_list_ascii (map g (list_ascii_of_string tk))) line
  = Ok (TextAux.ticker_hit tk line).
Proof.
  intros Ho Hf Hp. unfold re_search. rewrite list_ascii_of_string_of_list_ascii.
  unfold TextAux.plain_ticker in Hp.
  rewrite re_parse_plain by (rewrite forallb_map_ascii by exact Ho; exact Hp).
  unfold TextAux.ticker_hit, TextAux.ticker_atoms. f_equal.
  rewrite <- re_search_fold, <- (re_search_fold (map TextAux.atom_of (list_ascii_of_string tk))).
  rewrite !map_map, (map_ext _ _ Hf). reflexivity.
Qed.

Lemma re_search_bounded_pattern (re : string -> string -> result bool) (tk line : string) :
  TextAux.plain_ticker tk = true ->
  re_search re ("\b" ++ tk ++ "\b")%string line
  = Ok (re_search_l (RBound :: TextAux.ticker_atoms tk ++ [RBound]) None
                    (list_ascii_of_string line)).
Proof.
  intro Hp. unfold re_search. rewrite !list_ascii_of_string_app.
  change (list_ascii_of_string "\b") with ["\"; "b"]%char.
  cbn [app]. cbn [re_parse].
  rewrite (re_parse_plain_app _ _ Hp). reflexivity.
Qed.

Lemma re_match_app_l (p q : list ratom) (prev : option ascii) (l : list ascii) :
  re_match (p ++ q) prev l = true -> re_match p prev l = true.
Proof.
  revert prev l. induction p as [|a p IH]; intros prev l H; [reflexivity|].
  destruct a as [c| |]; cbn [app re_match] in *.
  - destruct l as [|d r]; [discriminate|].
    apply andb_true_iff in H as [H1 H2]. rewrite H1, (IH _ _ H2). reflexivity.
  - destruct l as [|d r]; [discriminate|].
    apply andb_true_iff in H as [H1 H2]. rewrite H1, (IH _ _ H2). reflexivity.
  - apply andb_true_iff in H as [H1 H2]. rewrite H1, (IH _ _ H2). reflexivity.
Qed.

(** A match of the word-bounded pattern is a match of the ticker. *)
Lemma re_search_bounded (p : list ratom) (prev : option ascii) (l : list ascii) :
  re_search_l (RBound :: p ++ [RBound]) prev l = true -> re_search_l p prev l = true.
Proof.
  revert prev. induction l as [|c r IH]; intros prev H; cbn [re_search_l] in *.
  - rewrite orb_false_r in *. cbn [re_match] in H. apply andb_true_iff in H as [_ H].
    exact (re_match_app_l _ _ _ _ H).
  - apply orb_true_iff in H as [H|H].
    + cbn [re_match] in H. apply andb_true_iff in H as [_ H].
      rewrite (re_match_app_l _ _ _ _ H). reflexivity.
    + rewrite (IH _ H). apply orb_true_r.
Qed.

Lemma pattern_loop_eq (re : string -> string -> result bool) (tk line : string) :
  TextAux.plain_ticker tk = true ->
  pattern_loop re (ticker_patterns tk) tk line
  = if TextAux.ticker_hit tk line then
      match findall_numbers line with
      | [] => Ok None
      | _ => h <- holding_of_line tk line (findall_numbers line) ;; Ok (Some h)
      end
    else Ok None.
Proof.
  intro Hp. unfold ticker_patterns. cbn [pattern_loop].
  rewrite (re_search_bounded_pattern re tk line Hp).
  unfold lower, upper.
  rewrite (re_search_cased re lower_char tk line ordinary_lower_char fold_atom_lower_char Hp).
  rewrite (re_search_cased re upper_char tk line ordinary_upper_char fold_atom_upper_char Hp).
  cbn [rbind].
  destruct (re_search_l (RBound :: _ ++ [RBound]) None _) eqn:W.
  - apply re_search_bounded in W. unfold TextAux.ticker_hit. rewrite W. reflexivity.
  - destruct (TextAux.ticker_hit tk line); reflexivity.
Qed.

Lemma re_match_chars (t : list ascii) (prev : option ascii) (l : list ascii) :
  re_match (map RChar t) prev l = is_prefix (map lower_char t) (map lower_char l).
Proof.
  revert prev l. induction t as [|c t IH]; intros prev l; [reflexivity|].
  destruct l as [|d r]; cbn [map re_match is_prefix]; [reflexivity|]. rewrite IH. reflexivity.
Qed.

(** Without a dot, the ticker is searched for as a plain substring, up to case. *)
Lemma ticker_hit_contains (tk line : string) :
  forallb (fun c => negb (Ascii.eqb c "."%char)) (list_ascii_of_string tk) = true ->
  TextAux.ticker_hit tk line = contains (lower tk) (lower line).
Proof.
  intro H. unfold TextAux.ticker_hit, TextAux.ticker_atoms, contains, lower.
  rewrite !list_ascii_of_string_of_list_ascii.
  assert (E : map TextAux.atom_of (list_ascii_of_string tk) = map RChar (list_ascii_of_string tk)).
  { apply map_ext_in. intros c Hc. rewrite forallb_forall in H. specialize (H c Hc).
    apply negb_true_iff in H. unfold TextAux.atom_of. rewrite H. reflexivity. }
  rewrite E. generalize (@None ascii). induction (list_ascii_of_string line) as [|c r IH];
    intro prev; cbn [re_search_l map contains_l]; rewrite re_match_chars; [reflexivity|].
  rewrite IH. reflexivity.
Qed.

End TextFacts.

(** X6: the markup repair of [_parse_xml_info_table] is idempotent: every
    ampersand of its output starts one of the five known entities, so a
    second pass changes nothing. *)
Theorem escape_amp_idempotent (s : string) : escape_amp (escape_amp s) = escape_amp s.
Proof.
  unfold escape_amp. rewrite list_ascii_of_string_of_list_ascii, TextFacts.escape_amp_l_idem.
  reflexivity.
Qed.

(** X7: [str.zfill(width)] gives a string of length [max width (len s)];
    for a non-empty string of decimal digits the padded string reads as the
    same integer, so [str(cik).zfill(10)] names the same CIK. *)
Theorem zfill_length_and_value (width : nat) (s : string) :
  String.length (zfill width s) = Nat.max width (String.length s)
  /\ (s <> ""%string -> forallb is_digit (list_ascii_of_string s) = true ->
      py_int (zfill width s) = py_int s).
Proof.
  unfold zfill. split.
  - rewrite TextFacts.length_string_of_list, <- TextFacts.length_list_of_string.
    destruct (list_ascii_of_string s) as [|c r].
    + rewrite repeat_length. simpl. lia.
    + destruct (Ascii.eqb c "-"%char || Ascii.eqb c "+"%char); simpl length;
        rewrite ?length_app, repeat_length; simpl length; lia.
  - intros Hne Hd.
    assert (Hl : list_ascii_of_string s <> []).
    { intro H. apply Hne. rewrite <- (string_of_list_ascii_of_string s), H. reflexivity. }
    destruct (list_ascii_of_string s) as [|c r] eqn:E; [congruence|].
    pose proof Hd as Hc. simpl in Hc. apply andb_true_iff in Hc as [Hc _].
    replace (Ascii.eqb c "-"%char || Ascii.eqb c "+"%char) with false
      by (destruct c as [[] [] [] [] [] [] [] []]; simpl in Hc; try discriminate; reflexivity).
    rewrite <- (string_of_list_ascii_of_string s). rewrite E.
    rewrite (py_int_digits (c :: r)); [|discriminate|exact Hd].
    rewrite py_int_digits.
    + rewrite TextFacts.digits_Z_zeros. reflexivity.
    + destruct (width - length (c :: r))%nat; discriminate.
    + rewrite forallb_app, TextFacts.forallb_repeat_zero. exact Hd.
Qed.

(** X7, witness: the CIK 1067983 is padded to 0001067983, the same integer. *)
Lemma zfill_length_and_value_witness :
  zfill 10 "1067983" = "0001067983"%string
  /\ py_int (zfill 10 "1067983") = py_int "1067983".
Proof.
  split; [vm_compute; reflexivity|].
  apply (proj2 (zfill_length_and_value 10 "1067983")); [discriminate|vm_compute; reflexivity].
Defined.

(** X8: [_cusip_to_ticker] inverts [ticker_to_cusip]: the CUSIP of each of
    the six mapped tickers gives back that ticker, and any other CUSIP gives
    [''] (so [ticker in target_tickers] can only hold for those six). *)
Theorem cusip_ticker_round_trip :
  (forall t c, In (t, c) ticker_to_cusip -> _cusip_to_ticker c = t)
  /\ (forall c, ~ In c (map snd ticker_to_cusip) -> _cusip_to_ticker c = ""%string).
Proof.
  split.
  - intros t c H. simpl in H.
    destruct H as [H|[H|[H|[H|[H|[H|[]]]]]]]; inversion H; subst; vm_compute; reflexivity.
  - intros c Hc. unfold _cusip_to_ticker. simpl in Hc. simpl.
    repeat match goal with
           | |- context [String.eqb c ?k] =>
               destruct (String.eqb_spec c k); [subst; exfalso; tauto|]
           end.
    reflexivity.
Qed.

(** X9: the full-text fallback interpolates the ticker into its patterns
    unescaped, so the ticker is a regular expression.  For a ticker of
    ordinary characters (dots included) a line matches exactly when the
    ticker, each dot matching any character, occurs in the line up to case:
    the word-bounded pattern adds no restriction (NVDA also matches inside
    NVDAX); without a dot this is plain substring search of the lower-cased
    ticker in the lower-cased line.  A matching line gives a holding exactly
    when it contains a number. *)
Theorem ticker_match_as_pattern (re_search_other : string -> string -> result bool)
    (tk line : string) :
  TextAux.plain_ticker tk = true ->
  pattern_loop re_search_other (ticker_patterns tk) tk line
  = (if TextAux.ticker_hit tk line then
       match findall_numbers line with
       | [] => Ok None
       | _ => h <- holding_of_line tk line (findall_numbers line) ;; Ok (Some h)
       end
     else Ok None)
  /\ (forallb (fun c => negb (Ascii.eqb c "."%char)) (list_ascii_of_string tk) = true ->
      TextAux.ticker_hit tk line = contains (lower tk) (lower line)).
Proof.
  intro Hp. split.
  - exact (TextFacts.pattern_loop_eq re_search_other tk line Hp).
  - apply TextFacts.ticker_hit_contains.
Qed.

(** X9, witness: the ticker BRK.B matches the line "BRKXB holdings 7 9"
    (its dot matches the X), which gives a holding of 7 shares worth 9000. *)
Lemma ticker_match_as_pattern_witness :
  TextAux.plain_ticker "BRK.B" = true
  /\ TextAux.ticker_hit "BRK.B" "BRKXB holdings 7 9" = true
  /\ option_map (option_map (fun h => (shares h, market_value h)))
       (match pattern_loop ex_re (ticker_patterns "BRK.B") "BRK.B" "BRKXB holdings 7 9" with
        | Ok o => Some o | Raise _ => None end)
     = Some (Some (7%Q, 9000%Q)).
Proof.
  assert (Hp : TextAux.plain_ticker "BRK.B" = true) by (vm_compute; reflexivity).
  split; [exact Hp|]. split; [vm_compute; reflexivity|].
  rewrite (proj1 (ticker_match_as_pattern ex_re "BRK.B" "BRKXB holdings 7 9" Hp)).
  vm_compute. reflexivity.
Defined.

Module NumberFacts.
Import TextAux.

Lemma digit_not_comma (c : ascii) : is_digit c = true -> not_comma c = true.
Proof.
  intro H. unfold not_comma.
  destruct (Ascii.eqb_spec c ","%char); [subst; discriminate|reflexivity].
Qed.

Lemma filter_digits (d : list ascii) : all_digits d -> filter not_comma d = d.
Proof.
  induction 1 as [|c d Hc _ IH]; [reflexivity|].
  simpl. rewrite (digit_not_comma c Hc), IH. reflexivity.
Qed.

Lemma take_digits_spec (l : list ascii) :
  let (d, r) := take_digits l in
  l = d ++ r /\ all_digits d /\ match r with c :: _ => is_digit c = false | [] => True end.
Proof.
  induction l as [|c l IH]; simpl; [repeat split; constructor|].
  destruct (is_digit c) eqn:E.
  - destruct (take_digits l) as [d r]. destruct IH as [-> [Hd Hr]].
    repeat split; [constructor; assumption|exact Hr].
  - repeat split; [constructor|exact E].
Qed.

Lemma take_digits_app (d r : list ascii) :
  all_digits d -> match r with c :: _ => is_digit c = false | [] => True end ->
  take_digits (d ++ r) = (d, r).
Proof.
  intros Hd Hr. induction Hd as [|c d Hc _ IH]; simpl.
  - destruct r as [|c r]; [reflexivity|]. simpl. rewrite Hr. reflexivity.
  - rewrite Hc, IH. reflexivity.
Qed.

Lemma take_groups_spec (l : list ascii) :
  let (g, r) := take_groups l in l = g ++ r /\ all_digits (filter not_comma g).
Proof.
  induction l as [l IH] using (induction_ltof1 _ (@length ascii)).
  destruct l as [|c0 l]; [split; [reflexivity|constructor]|].
  simpl. destruct (Ascii.eqb_spec c0 ","%char) as [->|Hne].
  2:{ destruct c0 as [[] [] [] [] [] [] [] []]; try (split; [reflexivity|constructor]);
      exfalso; apply Hne; reflexivity. }
  destruct l as [|a [|b [|c r]]]; try (split; [reflexivity|constructor]).
  destruct (is_digit a && is_digit b && is_digit c) eqn:E; [|split; [reflexivity|constructor]].
  rewrite !Bool.andb_true_iff in E. destruct E as [[Ea Eb] Ec].
  assert (Hlt : ltof _ (@length ascii) r (","%char :: a :: b :: c :: r))
    by (unfold ltof; simpl; lia).
  specialize (IH r Hlt). destruct (take_groups r) as [g rest]. destruct IH as [-> Hg].
  split; [reflexivity|].
  simpl. rewrite (digit_not_comma a Ea), (digit_not_comma b Eb), (digit_not_comma c Ec).
  repeat constructor; assumption.
Qed.

Lemma all_digits_app (a b : list ascii) : all_digits a -> all_digits b -> all_digits (a ++ b).
Proof. intros. apply Forall_app. split; assumption. Qed.

Lemma scan_number_ok (c : ascii) (r : list ascii) :
  is_digit c = true -> token_ok (fst (scan_number (c :: r))).
Proof.
  intro Hc. unfold scan_number.
  pose proof (take_digits_spec (c :: r)) as TD.
  destruct (take_digits (c :: r)) as [d r1] eqn:Ed. destruct TD as [Hl [Hd _]].
  assert (Hne : d <> []).
  { intro E. subst d. simpl in Ed. rewrite Hc in Ed.
    destruct (take_digits r). discriminate. }
  pose proof (take_groups_spec r1) as TG.
  destruct (take_groups r1) as [g r2]. destruct TG as [_ Hg].
  assert (HD : filter not_comma (d ++ g) = d ++ filter not_comma g)
    by (rewrite filter_app, (filter_digits d Hd); reflexivity).
  assert (Hb : token_ok (d ++ g)).
  { exists (d ++ filter not_comma g), []. repeat split.
    - intro E. destruct d; [contradiction|discriminate].
    - apply all_digits_app; assumption.
    - constructor.
    - left. exact HD. }
  destruct r2 as [|x r3]; [exact Hb|].
  destruct (Ascii.eqb_spec x "."%char) as [->|Hx].
  - pose proof (take_digits_spec r3) as TF.
    destruct (take_digits r3) as [f r4]. destruct TF as [_ [Hf _]].
    destruct f as [|f0 f']; [exact Hb|].
    exists (d ++ filter not_comma g), (f0 :: f'). repeat split.
    + intro E. destruct d; [contradiction|discriminate].
    + apply all_digits_app; assumption.
    + exact Hf.
    + right. split; [discriminate|]. cbn [fst].
      rewrite !filter_app, (filter_digits d Hd), <- app_assoc.
      change (filter not_comma ("."%char :: f0 :: f'))
        with ("."%char :: filter not_comma (f0 :: f')).
      rewrite (filter_digits _ Hf). reflexivity.
  - destruct x as [[] [] [] [] [] [] [] []]; try exact Hb; exfalso; apply Hx; reflexivity.
Qed.

Lemma findall_ok (fuel : nat) (l : list ascii) : Forall token_ok (findall_numbers_l fuel l).
Proof.
  revert l. induction fuel as [|fuel IH]; intro l; simpl; [constructor|].
  destruct l as [|c r]; [constructor|].
  destruct (is_digit c) eqn:Hc; [|apply IH].
  pose proof (scan_number_ok c r Hc) as H.
  destruct (scan_number (c :: r)) as [m rest]. constructor; [exact H|apply IH].
Qed.

Lemma digit_head_sign (l : list ascii) :
  match l with d :: _ => is_digit d = true | [] => False end ->
  match l with
  | "-"%char :: r' => (true, r')
  | "+"%char :: r' => (false, r')
  | _ => (false, l)
  end = (false, l).
Proof.
  destruct l as [|d r]; [contradiction|]. intro H.
  destruct d as [[] [] [] [] [] [] [] []]; try reflexivity; discriminate.
Qed.

Lemma py_float_token (m : list ascii) :
  token_ok m -> exists q, py_float (remove_commas (string_of_list_ascii m)) = Ok q.
Proof.
  intros (d & f & Hne & Hd & Hf & H).
  unfold py_float, remove_commas. rewrite !list_ascii_of_string_of_list_ascii.
  fold not_comma.
  destruct d as [|d0 d']; [contradiction|].
  pose proof (Forall_inv Hd) as H0. simpl in H0.
  rewrite (digit_head_sign (filter not_comma m))
    by (destruct H as [H|[_ H]]; rewrite H; exact H0).
  destruct H as [H|[Hfne H]]; rewrite H.
  - pose proof (take_digits_app (d0 :: d') [] Hd I) as T.
    rewrite app_nil_r in T. rewrite T. eexists; reflexivity.
  - rewrite (take_digits_app _ ("."%char :: f) Hd eq_refl).
    pose proof (take_digits_app f [] Hf I) as T.
    rewrite app_nil_r in T. rewrite T.
    destruct f; [contradiction|]. eexists; reflexivity.
Qed.

Lemma findall_float (line x : string) :
  In x (findall_numbers line) -> exists q, py_float (remove_commas x) = Ok q.
Proof.
  unfold findall_numbers. intro H. apply in_map_iff in H. destruct H as [m [<- Hm]].
  apply py_float_token. eapply Forall_forall; [apply findall_ok|exact Hm].
Qed.

Lemma last_in {A} (l : list A) (d : A) : l <> [] -> In (last l d) l.
Proof.
  induction l as [|a l IH]; [contradiction|]. intros _.
  destruct l as [|b l]; [left; reflexivity|].
  right. apply IH. discriminate.
Qed.

Lemma holding_of_line_ok (tk line : string) :
  findall_numbers line <> [] -> exists h, holding_of_line tk line (findall_numbers line) = Ok h.
Proof.
  intro Hn. unfold holding_of_line.
  destruct (findall_float line (hd ""%string (findall_numbers line))) as [s Hs].
  { destruct (findall_numbers line); [contradiction|left; reflexivity]. }
  rewrite Hs. simpl.
  destruct (1 <? length (findall_numbers line))%nat.
  - destruct (findall_float line (last (findall_numbers line) ""%string)) as [v Hv].
    { apply last_in; exact Hn. }
    rewrite Hv. simpl. eexists; reflexivity.
  - simpl. eexists; reflexivity.
Qed.

End NumberFacts.

Module TextLoopFacts.
Import TextAux.

Lemma line_holdings_cons (tk : string) (ts : list string) (line : string) :
  line_holdings (tk :: ts) line
  = (if ticker_hit tk line then
       match findall_numbers line with
       | [] => []
       | _ => match holding_of_line tk line (findall_numbers line) with
              | Ok h => [h]
              | Raise _ => []
              end
       end
     else []) ++ line_holdings ts line.
Proof. reflexivity. Qed.

Lemma ticker_loop_ok (re : string -> string -> result bool) (ts : list string)
    (line : string) (acc : list holding) :
  forallb plain_ticker ts = true ->
  ticker_loop re ts line acc = inl (acc ++ line_holdings ts line).
Proof.
  revert acc. induction ts as [|tk ts IH]; intros acc Hp; cbn [ticker_loop].
  - rewrite app_nil_r. reflexivity.
  - cbn [forallb] in Hp. apply andb_true_iff in Hp as [Htk Hp].
    rewrite line_holdings_cons, (TextFacts.pattern_loop_eq re tk line Htk).
    destruct (ticker_hit tk line); [|apply IH; exact Hp].
    destruct (findall_numbers line) as [|n ns] eqn:N; [apply IH; exact Hp|].
    rewrite <- N.
    destruct (NumberFacts.holding_of_line_ok tk line) as [h Hh]; [congruence|].
    rewrite Hh. simpl. rewrite (IH _ Hp), <- app_assoc. reflexivity.
Qed.

Lemma line_loop_ok (re : string -> string -> result bool) (ts lines : list string)
    (acc : list holding) :
  forallb plain_ticker ts = true ->
  line_loop re ts lines acc = inl (acc ++ text_holdings ts lines).
Proof.
  intro Hp. revert acc. induction lines as [|l ls IH]; intro acc; simpl.
  - rewrite app_nil_r. reflexivity.
  - destruct (String.eqb (strip l) ""); [apply IH|].
    rewrite (ticker_loop_ok re ts (strip l) acc Hp), IH, app_assoc. reflexivity.
Qed.

Lemma default_tickers_plain : forallb plain_ticker default_target_tickers = true.
Proof. vm_compute. reflexivity. Qed.

Lemma searched_plain (tt : list string) :
  forallb plain_ticker tt = true ->
  forallb plain_ticker (match tt with [] => default_target_tickers | _ => tt end) = true.
Proof. intro H. destruct tt; [exact default_tickers_plain|exact H]. Qed.

(** The holdings a run has collected, whether it ended normally or in the
    [except] branch. *)
Definition acc_of (s : acc_state) : list holding :=
  match s with inl a | inr a => a end.

Lemma extract_acc (re : string -> string -> result bool) (text : string) (tt : list string) :
  _extract_holdings_from_text re text tt
  = acc_of (line_loop re (match tt with [] => default_target_tickers | _ => tt end)
                      (str_split "010"%char text) []).
Proof. unfold _extract_holdings_from_text. destruct (line_loop _ _ _ _); reflexivity. Qed.

Lemma pattern_loop_some (re : string -> string -> result bool) (pats : list string)
    (tk line : string) (h : holding) :
  pattern_loop re pats tk line = Ok (Some h) ->
  exists n ns, findall_numbers line = n :: ns /\ holding_of_line tk line (n :: ns) = Ok h.
Proof.
  induction pats as [|p ps IH]; cbn [pattern_loop]; [discriminate|].
  destruct (re_search re p line) as [[|]|e]; cbn [rbind]; [|exact IH|discriminate].
  destruct (findall_numbers line) as [|n ns] eqn:N; [discriminate|].
  destruct (holding_of_line tk line (n :: ns)) as [h'|e] eqn:Hh; cbn [rbind]; [|discriminate].
  intro E. inversion E; subst. exists n, ns. split; [reflexivity|exact Hh].
Qed.

Lemma holding_of_line_fields (tk line : string) (ns : list string) (h : holding) :
  holding_of_line tk line ns = Ok h ->
  security_name h = line /\ cusip h = assoc_get tk ticker_to_cusip ""%string
  /\ ticker h = tk /\ raw_line h = Some line
  /\ py_float (remove_commas (hd ""%string ns)) = Ok (shares h).
Proof.
  unfold holding_of_line.
  destruct (py_float (remove_commas (hd ""%string ns))) as [s|e] eqn:S; simpl; [|discriminate].
  destruct (if (1 <? length ns)%nat then _ else _) as [v|e]; simpl; [|discriminate].
  intro E. inversion E; subst. repeat split.
Qed.

Lemma ticker_loop_inv (re : string -> string -> result bool) (ts : list string)
    (line : string) (P : holding -> Prop) :
  (forall tk h, In tk ts -> pattern_loop re (ticker_patterns tk) tk line = Ok (Some h) -> P h) ->
  forall acc, Forall P acc ->
  Forall P (acc_of (ticker_loop re ts line acc))
  /\ (length (acc_of (ticker_loop re ts line acc)) <= length acc + length ts)%nat.
Proof.
  induction ts as [|tk ts IH]; intros HP acc Hacc; cbn [ticker_loop acc_of].
  - split; [exact Hacc|simpl; lia].
  - destruct (pattern_loop re (ticker_patterns tk) tk line) as [[h|]|e] eqn:Pl.
    + assert (Hh : P h) by (apply (HP tk); [left; reflexivity|exact Pl]).
      destruct (IH (fun tk' h' Hin => HP tk' h' (or_intror Hin)) (acc ++ [h])) as [F L].
      * apply Forall_app. split; [exact Hacc|constructor; [exact Hh|constructor]].
      * split; [exact F|]. rewrite length_app in L. simpl in *. lia.
    + destruct (IH (fun tk' h' Hin => HP tk' h' (or_intror Hin)) acc Hacc) as [F L].
      split; [exact F|]. simpl. lia.
    + split; [exact Hacc|]. simpl. lia.
Qed.

Lemma line_loop_inv (re : string -> string -> result bool) (ts lines : list string)
    (P : holding -> Prop) :
  (forall l tk h, In l lines -> strip l <> ""%string -> In tk ts ->
     pattern_loop re (ticker_patterns tk) tk (strip l) = Ok (Some h) -> P h) ->
  forall acc, Forall P acc ->
  Forall P (acc_of (line_loop re ts lines acc))
  /\ (length (acc_of (line_loop re ts lines acc)) <= length acc + length lines * length ts)%nat.
Proof.
  induction lines as [|l ls IH]; intros HP acc Hacc; cbn [line_loop].
  - split; [exact Hacc|simpl; lia].
  - assert (HP' : forall l' tk h, In l' ls -> strip l' <> ""%string -> In tk ts ->
             pattern_loop re (ticker_patterns tk) tk (strip l') = Ok (Some h) -> P h)
      by (intros l' tk h Hin; apply HP; right; exact Hin).
    destruct (String.eqb (strip l) "") eqn:B.
    + destruct (IH HP' acc Hacc) as [F L]. split; [exact F|]. simpl. lia.
    + assert (Hne : strip l <> ""%string) by (intro Z; rewrite Z in B; discriminate).
      destruct (ticker_loop_inv re ts (strip l) P
                  (fun tk h Htk Hpl => HP l tk h (or_introl eq_refl) Hne Htk Hpl) acc Hacc)
        as [F L].
      destruct (ticker_loop re ts (strip l) acc) as [a|a] eqn:T; cbn [acc_of] in F, L.
      * destruct (IH HP' a F) as [F' L']. split; [exact F'|]. simpl. lia.
      * split; [exact F|]. cbn [acc_of]. simpl. nia.
Qed.

End TextLoopFacts.

(** X10: the full-text fallback never reaches its [except] branch when the
    tickers searched for (the given targets, or the six default tickers when
    none are given) are made of ordinary characters: every numeric token the
    regular expression finds parses as a float, and every search runs in
    the fragment of [re] computed here.  Its result is then, line by line
    (the text split on newlines, each line stripped, blank lines skipped)
    and ticker by ticker, one holding for each ticker that (read as a
    pattern, up to case) occurs in the line, when the line contains a
    number. *)
Theorem text_fallback_never_raises (re_search_other : string -> string -> result bool)
    (text : string) (tt : list string) :
  forallb TextAux.plain_ticker tt = true ->
  (forall tk line, findall_numbers line <> [] ->
     exists h, holding_of_line tk line (findall_numbers line) = Ok h)
  /\ (exists hs, line_loop re_search_other
                   (match tt with [] => default_target_tickers | _ => tt end)
                   (str_split "010"%char text) [] = inl hs)
  /\ _extract_holdings_from_text re_search_other text tt
     = flat_map (fun l =>
         if String.eqb (strip l) "" then []
         else flat_map (fun tk =>
                if TextAux.ticker_hit tk (strip l) then
                  match findall_numbers (strip l) with
                  | [] => []
                  | _ => match holding_of_line tk (strip l) (findall_numbers (strip l)) with
                         | Ok h => [h]
                         | Raise _ => []
                         end
                  end
                else [])
              (match tt with [] => default_target_tickers | _ => tt end))
         (str_split "010"%char text).
Proof.
  intro Hp. pose proof (TextLoopFacts.searched_plain tt Hp) as Hs.
  refine (conj NumberFacts.holding_of_line_ok (conj _ _)).
  - eexists. exact (TextLoopFacts.line_loop_ok re_search_other _ _ [] Hs).
  - unfold _extract_holdings_from_text.
    rewrite (TextLoopFacts.line_loop_ok re_search_other _ _ [] Hs). reflexivity.
Qed.

(** X10, witness: with the target BRK.B the fallback runs to its end. *)
Lemma text_fallback_never_raises_witness :
  forallb TextAux.plain_ticker ["BRK.B"%string] = true
  /\ exists hs, line_loop ex_re ["BRK.B"%string] (str_split "010"%char "BRKXB holdings 7 9") []
               = inl hs.
Proof.
  assert (Hp : forallb TextAux.plain_ticker ["BRK.B"%string] = true) by (vm_compute; reflexivity).
  split; [exact Hp|].
  exact (proj1 (proj2 (text_fallback_never_raises ex_re "BRKXB holdings 7 9" ["BRK.B"%string] Hp))).
Defined.

(** X11: every holding of the full-text fallback, whatever the tickers, is
    labelled with one of the tickers searched for, its name and raw line
    are the same non-blank stripped line of the text, that line contains at
    least one number, the share count is the first number with its commas
    removed, and the CUSIP is the ticker's entry in the built-in table (''
    for others); when the ticker is made of ordinary characters, it occurs
    in the line read as a pattern (a dot matching any character) up to
    case.  There are at most (number of lines) x (number of tickers)
    holdings. *)
Theorem text_fallback_holding_shape (re_search_other : string -> string -> result bool)
    (text : string) (tt : list string) :
  let tickers := match tt with [] => default_target_tickers | _ => tt end in
  (length (_extract_holdings_from_text re_search_other text tt)
     <= length (str_split "010"%char text) * length tickers)%nat
  /\ forall h, In h (_extract_holdings_from_text re_search_other text tt) ->
     In (ticker h) tickers
     /\ In (security_name h) (map strip (str_split "010"%char text))
     /\ security_name h <> ""%string
     /\ raw_line h = Some (security_name h)
     /\ cusip h = assoc_get (ticker h) ticker_to_cusip ""%string
     /\ (TextAux.plain_ticker (ticker h) = true ->
         TextAux.ticker_hit (ticker h) (security_name h) = true)
     /\ exists n ns, findall_numbers (security_name h) = n :: ns
                     /\ py_float (remove_commas n) = Ok (shares h).
Proof.
  intro tickers. rewrite TextLoopFacts.extract_acc. fold tickers.
  set (lines := str_split "010"%char text).
  set (P := fun h : holding =>
     In (ticker h) tickers
     /\ In (security_name h) (map strip lines)
     /\ security_name h <> ""%string
     /\ raw_line h = Some (security_name h)
     /\ cusip h = assoc_get (ticker h) ticker_to_cusip ""%string
     /\ (TextAux.plain_ticker (ticker h) = true ->
         TextAux.ticker_hit (ticker h) (security_name h) = true)
     /\ exists n ns, findall_numbers (security_name h) = n :: ns
                     /\ py_float (remove_commas n) = Ok (shares h)).
  assert (HP : forall l tk h, In l lines -> strip l <> ""%string -> In tk tickers ->
             pattern_loop re_search_other (ticker_patterns tk) tk (strip l) = Ok (Some h) -> P h).
  { intros l tk h Hl Hne Htk Hpl.
    destruct (TextLoopFacts.pattern_loop_some _ _ _ _ _ Hpl) as (n & ns & N & Hh).
    destruct (TextLoopFacts.holding_of_line_fields _ _ _ _ Hh) as (Hn & Hc & Ht & Hr & Hs).
    subst P. cbv beta. rewrite Hn, Ht.
    refine (conj Htk (conj (in_map _ _ _ Hl) (conj Hne (conj Hr (conj Hc (conj _ _)))))).
    - intro Hpt. rewrite (TextFacts.pattern_loop_eq _ _ _ Hpt) in Hpl.
      destruct (TextAux.ticker_hit tk (strip l)); [reflexivity|discriminate].
    - exists n, ns. split; [exact N|exact Hs]. }
  destruct (TextLoopFacts.line_loop_inv re_search_other tickers lines P HP [] (Forall_nil _))
    as [F L].
  split; [simpl in L; exact L|].
  intros h Hin. rewrite Forall_forall in F. exact (F h Hin).
Qed.

(** X20: an exception from the pattern search ends the whole full-text
    fallback.  When the first ticker's word-bounded pattern is outside the
    fragment and its search raises ([re.error] for a ticker such as A(B,
    whose parenthesis is not closed), the fallback returns no holding at
    all, whatever the text and the other tickers. *)
Theorem text_fallback_regex_error (re_search_other : string -> string -> result bool)
    (text tk : string) (tt : list string) (e : exn) :
  re_parse (list_ascii_of_string ("\b" ++ tk ++ "\b")) = None ->
  (forall line, re_search_other ("\b" ++ tk ++ "\b")%string line = Raise e) ->
  _extract_holdings_from_text re_search_other text (tk :: tt) = [].
Proof.
  intros Hparse Hraise. unfold _extract_holdings_from_text.
  assert (Hfirst : forall line, pattern_loop re_search_other (ticker_patterns tk) tk line = Raise e).
  { intro line. unfold ticker_patterns. cbn [pattern_loop].
    unfold re_search at 1. rewrite Hparse, Hraise. reflexivity. }
  induction (str_split "010"%char text) as [|l ls IH]; cbn [line_loop]; [reflexivity|].
  destruct (String.eqb (strip l) ""); [exact IH|].
  cbn [ticker_loop]. rewrite Hfirst. reflexivity.
Qed.

(** X20, witness: the targets A(B and NVDA give nothing on the line
    "NVDA 100 500", from which NVDA alone gives a holding. *)
Lemma text_fallback_regex_error_witness :
  _extract_holdings_from_text ex_re ex_line ["A(B"; "NVDA"]%string = []
  /\ _extract_holdings_from_text ex_re ex_line ["NVDA"%string] <> [].
Proof.
  split; [|vm_compute; discriminate].
  apply (text_fallback_regex_error ex_re ex_line "A(B" ["NVDA"%string] ReError).
  - vm_compute. reflexivity.
  - intro line. reflexivity.
Defined.

Module TableFacts.

Lemma process_entry_fields (tt : list string) (e : info_entry) (h : holding) :
  process_entry tt e = Some h ->
  ticker h = _cusip_to_ticker (cusip h) /\ raw_line h = None
  /\ target_filter tt (ticker h) (security_name h) = true
  /\ name_elem e = Some (security_name h) /\ cusip_elem e = Some (cusip h).
Proof.
  unfold process_entry.
  destruct (name_elem e) as [nm|]; [|discriminate].
  destruct (cusip_elem e) as [cu|]; [|discriminate].
  destruct (target_filter tt (_cusip_to_ticker cu) nm) eqn:F; [|discriminate].
  intro E. inversion E; subst. simpl. repeat split. exact F.
Qed.

Lemma process_entry_nil (e : info_entry) :
  match process_entry [] e with Some _ => true | None => false end
  = match name_elem e, cusip_elem e with Some _, Some _ => true | _, _ => false end.
Proof.
  unfold process_entry. destruct (name_elem e), (cusip_elem e); reflexivity.
Qed.

End TableFacts.

(** X12: every holding of the structured-table strategy comes from a
    holding tag that has both an issuer name and a CUSIP element, carries
    that name and CUSIP, is labelled with the ticker the CUSIP maps to
    ('' when unknown), has no raw line, and passes the target filter.
    With no target tickers nothing is filtered: there is exactly one
    holding per tag having both elements. *)
Theorem xml_table_holding_shape (soup_entries : string -> option (list info_entry))
    (xml : string) (tt : list string) :
  (forall h, In h (_parse_xml_info_table soup_entries xml tt) ->
     ticker h = _cusip_to_ticker (cusip h) /\ raw_line h = None
     /\ target_filter tt (ticker h) (security_name h) = true
     /\ exists tags e, soup_entries (escape_amp xml) = Some tags /\ In e tags
        /\ name_elem e = Some (security_name h) /\ cusip_elem e = Some (cusip h))
  /\ length (_parse_xml_info_table soup_entries xml [])
     = match soup_entries (escape_amp xml) with
       | None => 0%nat
       | Some tags =>
           length (filter (fun e => match name_elem e, cusip_elem e with
                                    | Some _, Some _ => true
                                    | _, _ => false
                                    end) tags)
       end.
Proof.
  unfold _parse_xml_info_table. split.
  - intros h H. destruct (soup_entries (escape_amp xml)) as [tags|]; [|destruct H].
    apply in_flat_map in H. destruct H as [e [He H]].
    destruct (process_entry tt e) as [h'|] eqn:P; [|destruct H].
    destruct H as [<-|[]].
    destruct (TableFacts.process_entry_fields _ _ _ P) as (Ht & Hr & Hf & Hn & Hc).
    repeat split; try assumption.
    exists tags, e. repeat split; assumption.
  - destruct (soup_entries (escape_amp xml)) as [tags|]; [|reflexivity].
    induction tags as [|e tags IH]; [reflexivity|].
    simpl. rewrite length_app, IH.
    pose proof (TableFacts.process_entry_nil e) as N.
    destruct (process_entry [] e);
      destruct (match name_elem e, cusip_elem e with Some _, Some _ => true | _, _ => false end);
      try discriminate; reflexivity.
Qed.

Module YahooFacts.
Import Yahoo.

Lemma sumQ_nil : Summary.sumQ [] = 0%Q.
Proof. reflexivity. Qed.

Lemma Qlt_bool_zero : Summary.Qlt_bool 0 0 = false.
Proof. reflexivity. Qed.

Lemma len0 {A} (l : list A) : length l = 0%nat -> l = [].
Proof. destruct l; [reflexivity|discriminate]. Qed.

Lemma lenS {A} (l : list A) n : length l = S n -> exists a r, l = a :: r.
Proof. destruct l as [|a r]; [discriminate|]. intros _. exists a, r. reflexivity. Qed.

Lemma Qlt_bool_true (x y : Q) : Summary.Qlt_bool x y = true <-> (x < y)%Q.
Proof.
  unfold Summary.Qlt_bool. rewrite Bool.negb_true_iff.
  split; intro H.
  - apply Qnot_le_lt. intro C. apply Qle_bool_iff in C. congruence.
  - destruct (Qle_bool y x) eqn:E; [|reflexivity].
    apply Qle_bool_iff in E. exfalso. apply (Qlt_not_le _ _ H E).
Qed.

Lemma sumQ_nonneg (s : list Q) : Forall (Qle 0) s -> (0 <= Summary.sumQ s)%Q.
Proof.
  induction 1 as [|x s Hx _ IH]; [apply Qle_refl|].
  unfold Summary.sumQ in *. simpl.
  apply (Qle_trans _ (0 + 0)); [unfold Qle; simpl; lia|].
  apply Qplus_le_compat; assumption.
Qed.

Lemma sumQ_app (a b : list Q) : (Summary.sumQ (a ++ b) == Summary.sumQ a + Summary.sumQ b)%Q.
Proof.
  induction a as [|x a IH]; unfold Summary.sumQ in *; simpl.
  - rewrite Qplus_0_l. reflexivity.
  - rewrite IH. ring.
Qed.

Lemma sumQ_firstn_le (k : nat) (s : list Q) :
  Forall (Qle 0) s -> (Summary.sumQ (firstn k s) <= Summary.sumQ s)%Q.
Proof.
  intro H. rewrite <- (firstn_skipn k s) at 2. rewrite sumQ_app.
  apply (Qle_trans _ (Summary.sumQ (firstn k s) + 0)); [rewrite Qplus_0_r; apply Qle_refl|].
  apply Qplus_le_compat; [apply Qle_refl|].
  apply sumQ_nonneg. rewrite <- (firstn_skipn k s) in H.
  apply Forall_app in H. apply H.
Qed.

Lemma Forall_firstn_Q (k : nat) (s : list Q) :
  Forall (Qle 0) s -> Forall (Qle 0) (firstn k s).
Proof.
  intro H. rewrite <- (firstn_skipn k s) in H. apply Forall_app in H. apply H.
Qed.

Lemma ratio_bounds (a t : Q) :
  (0 < t)%Q -> (0 <= a)%Q -> (a <= t)%Q -> (0 <= a / t * 100 <= 100)%Q.
Proof.
  intros Ht Ha Hat. split.
  - apply Qmult_le_0_compat; [|discriminate].
    apply Qle_shift_div_l; [exact Ht|]. rewrite Qmult_0_l. exact Ha.
  - rewrite <- (Qmult_1_l 100) at 2. apply Qmult_le_compat_r; [|discriminate].
    apply Qle_shift_div_r; [exact Ht|]. rewrite Qmult_1_l. exact Hat.
Qed.

Lemma ratio_self (t : Q) : (0 < t)%Q -> (t / t * 100 == 100)%Q.
Proof.
  intro Ht. unfold Qdiv. rewrite Qmult_inv_r; [reflexivity|].
  intro E. rewrite E in Ht. apply (Qlt_irrefl 0 Ht).
Qed.

(** What a successful [smart_money_of] computed. *)
Lemma smart_money_of_ok (tk : string) (cur : frame) (d : smart_money) :
  smart_money_of tk cur = Ok d ->
  ticker d = tk /\ total_institutions d = Z.of_nat (nrows cur)
  /\ total_shares_held d = match shares_col cur with Some s => Summary.sumQ s | None => 0%Q end
  /\ top_10_concentration d
     = match shares_col cur with
       | Some s =>
           if Summary.Qlt_bool 0 (Summary.sumQ s) then
             (Summary.sumQ (if (10 <=? nrows cur)%nat then firstn 10 s else s)
              / Summary.sumQ s * 100)%Q
           else 0%Q
       | None => 0%Q
       end
  /\ (nrows cur = 0%nat ->
        largest_holder d = None /\ largest_holder_shares d = 0%Q /\ largest_holder_pct d = 0%Q)
  /\ (nrows cur <> 0%nat ->
        exists h hs x xs, holder_col cur = Some (h :: hs) /\ shares_col cur = Some (x :: xs)
        /\ largest_holder d = Some h /\ largest_holder_shares d = x
        /\ largest_holder_pct d = match pct_col cur with Some (p :: _) => p | _ => 0%Q end).
Proof.
  unfold smart_money_of, is_empty, has_column.
  destruct (Nat.eqb_spec (nrows cur) 0) as [N|N]; simpl.
  - rewrite andb_false_r. simpl.
    destruct (shares_col cur) as [s|];
      [destruct (Summary.Qlt_bool 0 (Summary.sumQ s))|rewrite Qlt_bool_zero]; simpl;
      intro E; inversion E; subst; simpl;
      (refine (conj _ (conj _ (conj _ (conj _ (conj _ _))))); [reflexivity..| |];
       [intros _; repeat split | intros C; exfalso; exact (C N)]).
  - destruct (holder_col cur) as [[|h hs]|]; destruct (shares_col cur) as [[|x xs]|];
      try rewrite Qlt_bool_zero;
      try (destruct (Summary.Qlt_bool 0 _)); simpl; try discriminate;
      destruct (pct_col cur) as [[|p ps]|]; simpl; try discriminate;
      intro E; inversion E; subst; simpl;
      (refine (conj _ (conj _ (conj _ (conj _ (conj _ _))))); [reflexivity..| |];
       [intros C; exfalso; exact (N C) | intros _; exists h, hs, x, xs; repeat split]).
Qed.

Lemma track_ok (yahoo : string -> result (option frame)) (tk : string)
    (d : smart_money) (cur : frame) :
  track_smart_money_flows yahoo tk = Some (d, cur) ->
  yahoo tk = Ok (Some cur) /\ smart_money_of tk cur = Ok d.
Proof.
  unfold track_smart_money_flows, get_institutional_ownership_yahoo.
  destruct (yahoo tk) as [[f|]|e]; try discriminate.
  destruct (smart_money_of tk f) as [d'|e] eqn:S; intro E; inversion E; subst.
  split; [reflexivity|exact S].
Qed.

End YahooFacts.

(** X13: once Yahoo Finance returns a holders frame whose columns have one
    value per row, [track_smart_money_flows] fails (returns [(None, None)])
    exactly when the frame has rows but lacks the [Holder] or the [Shares]
    column; an empty frame, or a missing [% Out] column, still gives a
    summary. *)
Theorem smart_money_fails_iff (yahoo : string -> result (option Yahoo.frame))
    (tk : string) (f : Yahoo.frame)
    (Hy : yahoo tk = Ok (Some f)) (Hw : Yahoo.well_formed f) :
  Yahoo.track_smart_money_flows yahoo tk = None
  <-> (Yahoo.nrows f <> 0%nat /\ (Yahoo.holder_col f = None \/ Yahoo.shares_col f = None)).
Proof.
  unfold Yahoo.track_smart_money_flows, Yahoo.get_institutional_ownership_yahoo.
  rewrite Hy. destruct Hw as (H1 & H2 & H3).
  unfold Yahoo.smart_money_of, Yahoo.is_empty, Yahoo.has_column.
  destruct (Yahoo.nrows f) as [|n] eqn:N.
  - assert (T : match Yahoo.shares_col f with Some s => Summary.sumQ s | None => 0%Q end = 0%Q).
    { destruct (Yahoo.shares_col f) as [s|]; [|reflexivity].
      rewrite (YahooFacts.len0 s (H2 s eq_refl)). reflexivity. }
    rewrite T, YahooFacts.Qlt_bool_zero. simpl.
    rewrite andb_false_r. simpl. split; [discriminate|]. intros [C _]. contradiction.
  - simpl.
    destruct (Yahoo.holder_col f) as [hl|] eqn:Hh.
    2:{ destruct (Summary.Qlt_bool 0 _); simpl;
        [destruct (Yahoo.shares_col f); simpl|];
        split; intros; auto; split; auto; discriminate. }
    destruct (YahooFacts.lenS hl n (H1 hl eq_refl)) as [h [hs ->]].
    destruct (Yahoo.shares_col f) as [s|] eqn:Hs.
    2:{ rewrite YahooFacts.Qlt_bool_zero. simpl.
        split; intros; auto; split; auto; discriminate. }
    destruct (YahooFacts.lenS s n (H2 s eq_refl)) as [x [xs ->]].
    destruct (Summary.Qlt_bool 0 _); simpl;
    (destruct (Yahoo.pct_col f) as [pl|] eqn:Hp; simpl;
     [destruct (YahooFacts.lenS pl n (H3 pl eq_refl)) as [p [ps ->]]; simpl|]);
    split; try discriminate; intros [_ [C|C]]; discriminate.
Qed.

Lemma smart_money_fails_iff_witness :
  ex_yahoo "NVDA" = Ok (Some ex_frame) /\ Yahoo.well_formed ex_frame
  /\ (Yahoo.track_smart_money_flows ex_yahoo "NVDA" = None
      <-> (Yahoo.nrows ex_frame <> 0%nat
           /\ (Yahoo.holder_col ex_frame = None \/ Yahoo.shares_col ex_frame = None))).
Proof.
  assert (Hw : Yahoo.well_formed ex_frame)
    by (repeat split; intros l E; inversion E; reflexivity).
  split; [reflexivity|]. split; [exact Hw|].
  exact (smart_money_fails_iff ex_yahoo "NVDA" ex_frame eq_refl Hw).
Defined.

(** X14: a summary from [track_smart_money_flows] reports the holders frame
    Yahoo Finance returned, its row count as [total_institutions] and the
    sum of its [Shares] column (0 without one) as [total_shares_held].  Its
    "largest holder" is the first row of the frame, whatever that row's
    share count, with that row's shares and [% Out] (0 without that
    column); for a frame with no rows these are None, 0 and 0. *)
Theorem smart_money_first_row (yahoo : string -> result (option Yahoo.frame))
    (tk : string) (d : Yahoo.smart_money) (cur : Yahoo.frame)
    (H : Yahoo.track_smart_money_flows yahoo tk = Some (d, cur)) :
  yahoo tk = Ok (Some cur)
  /\ Yahoo.ticker d = tk
  /\ Yahoo.total_institutions d = Z.of_nat (Yahoo.nrows cur)
  /\ Yahoo.total_shares_held d
     = match Yahoo.shares_col cur with Some s => Summary.sumQ s | None => 0%Q end
  /\ (Yahoo.nrows cur = 0%nat ->
        Yahoo.largest_holder d = None /\ Yahoo.largest_holder_shares d = 0%Q
        /\ Yahoo.largest_holder_pct d = 0%Q)
  /\ (Yahoo.nrows cur <> 0%nat ->
        exists h hs x xs, Yahoo.holder_col cur = Some (h :: hs)
        /\ Yahoo.shares_col cur = Some (x :: xs)
        /\ Yahoo.largest_holder d = Some h /\ Yahoo.largest_holder_shares d = x
        /\ Yahoo.largest_holder_pct d
           = match Yahoo.pct_col cur with Some (p :: _) => p | _ => 0%Q end).
Proof.
  destruct (YahooFacts.track_ok _ _ _ _ H) as [Hy S].
  destruct (YahooFacts.smart_money_of_ok _ _ _ S) as (Ht & Hn & Hs & _ & H0 & H1).
  exact (conj Hy (conj Ht (conj Hn (conj Hs (conj H0 H1))))).
Qed.

Lemma smart_money_first_row_witness :
  exists d, Yahoo.track_smart_money_flows ex_yahoo "NVDA" = Some (d, ex_frame)
  /\ Yahoo.largest_holder d = Some "Vanguard Group Inc"%string
  /\ Yahoo.largest_holder_shares d = 300%Q.
Proof.
  eexists. split; [vm_compute; reflexivity|].
  destruct (smart_money_first_row ex_yahoo "NVDA" _ ex_frame
              ltac:(vm_compute; reflexivity)) as (_ & _ & _ & _ & _ & H1).
  destruct (H1 ltac:(discriminate)) as (h & hs & x & xs & Hh & Hs & -> & -> & _).
  vm_compute in Hh, Hs. inversion Hh. inversion Hs. split; reflexivity.
Defined.

(** X15: when the [Shares] column holds no negative count, the top-10
    concentration of a summary lies between 0 and 100; it is 100 for a
    frame of fewer than ten rows with a positive total, and exactly 0
    whenever the total is not positive. *)
Theorem smart_money_concentration_range (yahoo : string -> result (option Yahoo.frame))
    (tk : string) (d : Yahoo.smart_money) (cur : Yahoo.frame)
    (H : Yahoo.track_smart_money_flows yahoo tk = Some (d, cur))
    (Hnn : forall s, Yahoo.shares_col cur = Some s -> Forall (Qle 0) s) :
  (0 <= Yahoo.top_10_concentration d <= 100)%Q
  /\ ((Yahoo.nrows cur < 10)%nat -> (0 < Yahoo.total_shares_held d)%Q ->
      Yahoo.top_10_concentration d == 100)%Q
  /\ (~ (0 < Yahoo.total_shares_held d)%Q -> Yahoo.top_10_concentration d = 0%Q).
Proof.
  destruct (YahooFacts.track_ok _ _ _ _ H) as [_ S].
  destruct (YahooFacts.smart_money_of_ok _ _ _ S) as (_ & _ & Hs & Hc & _ & _).
  rewrite Hc, Hs. clear Hc Hs H S.
  destruct (Yahoo.shares_col cur) as [s|].
  2:{ split; [split; discriminate|]. split; [intros _ C; discriminate C|reflexivity]. }
  specialize (Hnn s eq_refl).
  destruct (Summary.Qlt_bool 0 (Summary.sumQ s)) eqn:Q.
  - apply YahooFacts.Qlt_bool_true in Q.
    split; [|split].
    + apply YahooFacts.ratio_bounds; [exact Q| |].
      * destruct (10 <=? Yahoo.nrows cur)%nat;
          [apply YahooFacts.sumQ_nonneg, YahooFacts.Forall_firstn_Q, Hnn|apply YahooFacts.sumQ_nonneg, Hnn].
      * destruct (10 <=? Yahoo.nrows cur)%nat;
          [apply YahooFacts.sumQ_firstn_le, Hnn|apply Qle_refl].
    + intros Hlt _. replace (10 <=? Yahoo.nrows cur)%nat with false
        by (symmetry; apply Nat.leb_gt; exact Hlt).
      apply YahooFacts.ratio_self. exact Q.
    + intro C. contradiction.
  - split; [split; discriminate|]. split; [|reflexivity].
    intros _ C. apply YahooFacts.Qlt_bool_true in C. congruence.
Qed.

Lemma smart_money_concentration_range_witness :
  exists d, Yahoo.track_smart_money_flows ex_yahoo "NVDA" = Some (d, ex_frame)
  /\ (Yahoo.top_10_concentration d == 100)%Q.
Proof.
  eexists. split; [vm_compute; reflexivity|].
  destruct (smart_money_concentration_range ex_yahoo "NVDA" _ ex_frame
              ltac:(vm_compute; reflexivity)
              ltac:(intros s E; inversion E; repeat constructor; discriminate))
    as (_ & H2 & _).
  apply H2; [vm_compute; lia|vm_compute; reflexivity].
Defined.

Module UniqueFacts.

Lemma in_unique {A} (eq_dec : forall x y : A, {x = y} + {x <> y}) (l : list A) (x : A) :
  In x (unique eq_dec l) <-> In x l.
Proof.
  induction l as [|a l IH]; simpl; [tauto|].
  rewrite filter_In, IH. split.
  - intros [H|[H _]]; [left; exact H|right; exact H].
  - intros [H|H]; [left; exact H|].
    destruct (eq_dec a x) as [E|E]; [left; exact E|right; split; [exact H|reflexivity]].
Qed.

Lemma nodup_unique {A} (eq_dec : forall x y : A, {x = y} + {x <> y}) (l : list A) :
  NoDup (unique eq_dec l).
Proof.
  induction l as [|a l IH]; simpl; [constructor|]. constructor.
  - rewrite filter_In. intros [_ H]. destruct (eq_dec a a); [discriminate|contradiction].
  - apply NoDup_filter. exact IH.
Qed.

Lemma length_unique {A} (eq_dec : forall x y : A, {x = y} + {x <> y}) (l : list A) :
  (length (unique eq_dec l) <= length l)%nat.
Proof.
  induction l as [|a l IH]; simpl; [lia|].
  pose proof (filter_length_le (fun y => if eq_dec a y then false else true) (unique eq_dec l)).
  lia.
Qed.

Lemma length_unique_pos {A} (eq_dec : forall x y : A, {x = y} + {x <> y}) (l : list A) :
  l <> [] -> (0 < length (unique eq_dec l))%nat.
Proof. destruct l; [contradiction|]. intros _. simpl. lia. Qed.

(** Sum of the group sizes over a duplicate-free list of keys covering
    every element. *)
Lemma sum_group_sizes {A} (key : A -> Z) (ys : list Z) (l : list A) :
  NoDup ys -> (forall a, In a l -> In (key a) ys) ->
  fold_right Z.add 0 (map (fun y => Z.of_nat (length (filter (fun a => Z.eqb (key a) y) l))) ys)
  = Z.of_nat (length l).
Proof.
  intros Hnd. induction l as [|a l IH]; intro Hin.
  - simpl. clear Hnd Hin. induction ys as [|y ys IHy]; simpl; [reflexivity|].
    rewrite IHy. reflexivity.
  - assert (Hl : forall b, In b l -> In (key b) ys) by (intros b Hb; apply Hin; right; exact Hb).
    specialize (IH Hl). simpl length.
    assert (Ha : In (key a) ys) by (apply Hin; left; reflexivity).
    clear Hin Hl.
    transitivity (fold_right Z.add 0
       (map (fun y => Z.of_nat (length (filter (fun b => Z.eqb (key b) y) l))) ys) + 1).
    2:{ rewrite IH. lia. }
    clear IH. induction ys as [|y ys IHy]; [destruct Ha|].
    inversion Hnd as [|? ? Hy Hnd']; subst. cbn [map fold_right].
    destruct (Z.eqb_spec (key a) y) as [E|E].
    + subst y.
      rewrite (map_ext_in _ (fun y => Z.of_nat (length (filter (fun b => Z.eqb (key b) y) l))) ys).
      * simpl length. lia.
      * intros y Hy'. simpl. destruct (Z.eqb_spec (key a) y); [subst; contradiction|reflexivity].
    + destruct Ha as [Ha|Ha]; [congruence|].
      specialize (IHy Hnd' Ha). simpl in IHy |- *.
      destruct (Z.eqb_spec (key a) y); [contradiction|]. lia.
Qed.

End UniqueFacts.

Module YearlyFacts.

Lemma insert_Z_perm (x : Z) (l : list Z) : Permutation (insert_Z_desc x l) (x :: l).
Proof.
  induction l as [|y r IH]; simpl; [reflexivity|].
  destruct (x <? y); [|reflexivity].
  rewrite IH. apply perm_swap.
Qed.

Lemma sort_Z_perm (l : list Z) : Permutation (sort_Z_desc l) l.
Proof.
  unfold sort_Z_desc. induction l as [|x r IH]; simpl; [reflexivity|].
  rewrite insert_Z_perm, IH. reflexivity.
Qed.

Lemma insert_Z_sorted (x : Z) (l : list Z) :
  Sorted (fun a b => b <= a) l -> Sorted (fun a b => b <= a) (insert_Z_desc x l).
Proof.
  induction l as [|y r IH]; intro H; simpl; [repeat constructor|].
  destruct (Z.ltb_spec x y).
  - inversion H as [|? ? Hr Hh]; subst. constructor; [apply IH; exact Hr|].
    destruct r as [|z r']; simpl; [constructor; lia|].
    inversion Hh; subst. destruct (x <? z); constructor; lia.
  - constructor; [exact H|]. constructor. lia.
Qed.

Lemma sort_Z_strict (l : list Z) :
  NoDup l -> StronglySorted (fun a b => b < a) (sort_Z_desc l).
Proof.
  intro Hnd.
  assert (Hs : StronglySorted (fun a b => b <= a) (sort_Z_desc l)).
  { apply Sorted_StronglySorted; [intros a b c; lia|].
    unfold sort_Z_desc. induction l as [|x r IH]; simpl; [constructor|].
    apply insert_Z_sorted. apply IH. inversion Hnd; assumption. }
  assert (Hn : NoDup (sort_Z_desc l)) by (eapply Permutation_NoDup; [symmetry; apply sort_Z_perm|exact Hnd]).
  clear Hnd. induction Hs as [|a m Hs IH Hf]; constructor.
  - apply IH. inversion Hn; assumption.
  - inversion Hn as [|? ? Hna _]; subst.
    rewrite Forall_forall in *. intros b Hb.
    specialize (Hf b Hb). assert (b <> a) by (intro E; subst; contradiction). lia.
Qed.

Lemma sum_perm (l l' : list Z) : Permutation l l' -> fold_right Z.add 0 l = fold_right Z.add 0 l'.
Proof. induction 1; simpl; lia. Qed.

Lemma ratio_mult (t a : Z) : 0 < a -> (inject_Z t / inject_Z a * inject_Z a == inject_Z t)%Q.
Proof.
  intro Ha. unfold Qdiv. rewrite <- Qmult_assoc, (Qmult_comm (/ _)), Qmult_inv_r.
  - apply Qmult_1_r.
  - intro E. unfold Qeq in E. simpl in E. lia.
Qed.

Lemma ratio_ge1 (t a : Z) : 0 < a -> a <= t -> (1 <= inject_Z t / inject_Z a)%Q.
Proof.
  intros Ha Hat. apply Qle_shift_div_l.
  - change 0%Q with (inject_Z 0). rewrite <- Zlt_Qlt. exact Ha.
  - rewrite Qmult_1_l. rewrite <- Zle_Qle. exact Hat.
Qed.

End YearlyFacts.

(** X18: the yearly summary of a timeline lists each filing year of the
    timeline exactly once, newest first; its [total_filings] add up to the
    number of timeline entries; and in every row, labelled with the ticker
    given, there are between 1 and [total_filings] active institutions and
    filing quarters, and [avg_filings_per_institution] is
    [total_filings / active_institutions], hence at least 1. *)
Theorem yearly_summary_shape (value_counts_first : list string -> string)
    (timeline_df : list Timeline.entry) (tk : string) :
  let rows := _create_yearly_summary value_counts_first timeline_df tk in
  StronglySorted (fun a b => b < a) (map Yearly.year rows)
  /\ (forall y, In y (map Yearly.year rows) <-> In y (map Timeline.filing_year timeline_df))
  /\ fold_right Z.add 0 (map Yearly.total_filings rows) = Z.of_nat (length timeline_df)
  /\ forall r, In r rows ->
       Yearly.ticker r = tk
       /\ 1 <= Yearly.active_institutions r <= Yearly.total_filings r
       /\ (Yearly.avg_filings_per_institution r * inject_Z (Yearly.active_institutions r)
           == inject_Z (Yearly.total_filings r))%Q
       /\ (1 <= Yearly.avg_filings_per_institution r)%Q
       /\ 1 <= Yearly.quarters_with_activity r <= Yearly.total_filings r.
Proof.
  intro rows.
  set (ys := unique Z.eq_dec (map Timeline.filing_year timeline_df)).
  assert (Hy : map Yearly.year rows = sort_Z_desc ys).
  { unfold rows, _create_yearly_summary. fold ys. rewrite map_map. apply map_id. }
  split; [|split; [|split]].
  - rewrite Hy. apply YearlyFacts.sort_Z_strict. apply UniqueFacts.nodup_unique.
  - intro y. rewrite Hy. split; intro H.
    + apply (Permutation_in _ (YearlyFacts.sort_Z_perm ys)) in H.
      apply UniqueFacts.in_unique in H. exact H.
    + apply (Permutation_in _ (Permutation_sym (YearlyFacts.sort_Z_perm ys))).
      apply UniqueFacts.in_unique. exact H.
  - unfold rows, _create_yearly_summary. fold ys. rewrite map_map.
    rewrite (YearlyFacts.sum_perm _ _ (Permutation_map _ (YearlyFacts.sort_Z_perm ys))).
    apply (UniqueFacts.sum_group_sizes Timeline.filing_year ys timeline_df).
    + apply UniqueFacts.nodup_unique.
    + intros a Ha. apply UniqueFacts.in_unique. apply in_map. exact Ha.
  - intros r Hr. unfold rows, _create_yearly_summary in Hr. fold ys in Hr.
    apply in_map_iff in Hr. destruct Hr as [y [<- Hyin]].
    apply (Permutation_in _ (YearlyFacts.sort_Z_perm ys)) in Hyin.
    apply UniqueFacts.in_unique, in_map_iff in Hyin. destruct Hyin as [e [Hey He]].
    unfold year_row. cbn [Yearly.ticker Yearly.active_institutions Yearly.total_filings
                          Yearly.avg_filings_per_institution Yearly.quarters_with_activity].
    set (yd := filter (fun e => Z.eqb (Timeline.filing_year e) y) timeline_df).
    assert (Hyd : yd <> []).
    { intro E. assert (Hin : In e yd).
      { unfold yd. apply filter_In. split; [exact He|]. apply Z.eqb_eq. exact Hey. }
      rewrite E in Hin. destruct Hin. }
    pose proof (UniqueFacts.length_unique string_dec (map Timeline.institution_name yd)) as L1.
    pose proof (UniqueFacts.length_unique_pos string_dec (map Timeline.institution_name yd)) as L2.
    pose proof (UniqueFacts.length_unique string_dec (map Timeline.filing_quarter yd)) as L3.
    pose proof (UniqueFacts.length_unique_pos string_dec (map Timeline.filing_quarter yd)) as L4.
    rewrite length_map in L1, L3.
    assert (Hm : forall (f : Timeline.entry -> string), map f yd <> []).
    { intros f E. apply map_eq_nil in E. contradiction. }
    specialize (L2 (Hm _)). specialize (L4 (Hm _)).
    replace (0 <? length (unique string_dec (map Timeline.institution_name yd)))%nat with true
      by (symmetry; apply Nat.ltb_lt; exact L2).
    split; [reflexivity|]. split; [lia|]. split; [|split; [|lia]].
    + apply YearlyFacts.ratio_mult. lia.
    + apply YearlyFacts.ratio_ge1; lia.
Qed.

Module TimelineFacts.

Lemma str_leb_ltb_false (a b : string) : String.leb b a = true -> String.ltb a b = false.
Proof.
  unfold String.ltb, String.leb. rewrite (String.compare_antisym b a).
  destruct (String.compare a b); simpl; congruence.
Qed.

Lemma str_leb_antisym (a b : string) :
  String.leb a b = true -> String.leb b a = true -> a = b.
Proof.
  unfold String.leb. rewrite (String.compare_antisym b a).
  destruct (String.compare a b) eqn:E; simpl; try congruence.
  intros _ _. apply String.compare_eq_iff. exact E.
Qed.

Lemma filter_flat_map {A B} (p : B -> bool) (f : A -> list B) (l : list A) :
  filter p (flat_map f l) = flat_map (fun x => filter p (f x)) l.
Proof.
  induction l as [|x l IH]; simpl; [reflexivity|]. rewrite filter_app, IH. reflexivity.
Qed.

Lemma StronglySorted_map {A B} (R : B -> B -> Prop) (f : A -> B) (l : list A) :
  StronglySorted (fun a b => R (f a) (f b)) l -> StronglySorted R (map f l).
Proof.
  induction 1 as [|a l _ IH Hf]; simpl; constructor; [exact IH|].
  apply Forall_map. exact Hf.
Qed.

Lemma filter_block (c name cik tk : string) (l : list Simplified.filing) :
  filter (fun e => String.eqb (Timeline.institution_cik e) c)
         (map (Timeline.of_filing name cik tk) l)
  = if String.eqb cik c then map (Timeline.of_filing name cik tk) l else [].
Proof.
  induction l as [|f l IH]; simpl; [destruct (String.eqb cik c); reflexivity|].
  rewrite IH. destruct (String.eqb cik c); reflexivity.
Qed.

Lemma block_select {B} (insts : list (string * string)) (c : string)
    (M : string * string -> list B) :
  NoDup (map fst insts) ->
  flat_map (fun inst => if String.eqb (fst inst) c then M inst else []) insts = []
  \/ exists inst, In inst insts /\ fst inst = c
       /\ flat_map (fun inst => if String.eqb (fst inst) c then M inst else []) insts = M inst.
Proof.
  induction insts as [|i is IH]; intro Hnd; [left; reflexivity|].
  inversion Hnd as [|? ? Hni Hnd']; subst. simpl.
  destruct (String.eqb_spec (fst i) c) as [E|E].
  - right. exists i. split; [left; reflexivity|]. split; [exact E|].
    assert (Z : flat_map (fun inst => if String.eqb (fst inst) c then M inst else []) is = []).
    { clear IH Hnd Hnd'. revert Hni. induction is as [|j js IHj]; intro Hni; [reflexivity|].
      simpl in Hni |- *.
      destruct (String.eqb_spec (fst j) c) as [E'|E'].
      - exfalso. apply Hni. left. congruence.
      - apply IHj. tauto. }
    rewrite Z, app_nil_r. reflexivity.
  - destruct (IH Hnd') as [H|[inst [Hin [Hc H]]]]; [left; exact H|].
    right. exists inst. split; [right; exact Hin|]. split; [exact Hc|exact H].
Qed.

Lemma major_institutions_nodup : NoDup (map fst Timeline.major_institutions).
Proof. simpl. repeat constructor; simpl; intuition discriminate. Qed.

Lemma comprehensive_sorted sub_get shard_get (cik : string) (years_back now_year : Z) :
  StronglySorted (fun a b => String.leb (Simplified.filing_date b) (Simplified.filing_date a) = true)
    (fst (get_comprehensive_13f_history sub_get shard_get cik years_back now_year)).
Proof.
  unfold get_comprehensive_13f_history.
  destruct (CrawlOrder.crawl_is_sorted Simplified.filing_date
              (fun fd => Simplified._extract_13f_filings fd years_back now_year)
              sub_get shard_get cik) as [l ->].
  apply (CrawlOrder.sort_desc_strongly_sorted _ Simplified.filing_date).
Qed.

Lemma comprehensive_kept sub_get shard_get (cik : string) (years_back now_year : Z)
    (f : Simplified.filing) :
  In f (fst (get_comprehensive_13f_history sub_get shard_get cik years_back now_year)) ->
  Simplified.form f = "13F-HR"%string /\ now_year - years_back <= Simplified.filing_year f.
Proof.
  intro Hin.
  destruct (crawl_from_proc _ _ _ _ _ cik f Hin) as (fd & l & Hp & Hl).
  exact (CrawlOrder.extract_loop_kept _ _ _ _ _ _ Hp Hl).
Qed.

Lemma str_max_head (d : string) (ds : list string) :
  Forall (fun y => String.leb y d = true) ds -> Analysis.str_max d ds = d.
Proof.
  unfold Analysis.str_max. induction 1 as [|y ds Hy _ IH]; simpl; [reflexivity|].
  rewrite (str_leb_ltb_false d y Hy). exact IH.
Qed.

Lemma last_default {A} (x : A) (l : list A) (a b : A) : last (x :: l) a = last (x :: l) b.
Proof.
  revert x. induction l as [|y l IH]; intro x; [reflexivity|].
  change (last (y :: l) a = last (y :: l) b). apply IH.
Qed.

Lemma str_min_last (d : string) (ds : list string) :
  StronglySorted (fun a b => String.leb b a = true) (d :: ds) ->
  Analysis.str_min d ds = last (d :: ds) d.
Proof.
  unfold Analysis.str_min. revert d. induction ds as [|y ds IH]; intros d H; [reflexivity|].
  inversion H as [|? ? Hs Hf]; subst. apply Forall_inv in Hf.
  simpl fold_left.
  replace (if String.ltb y d then y else d) with y.
  - rewrite IH by exact Hs. change (last (y :: ds) y = last (y :: ds) d). apply last_default.
  - destruct (String.ltb y d) eqn:L; [reflexivity|].
    apply CrawlOrder.str_ltb_false_leb in L. symmetry. apply str_leb_antisym; assumption.
Qed.

Lemma analysis_row_cik (name cik : string) (h : list Simplified.filing) :
  map Analysis.institution_cik (match analysis_row name cik h with Some r => [r] | None => [] end)
  = match h with [] => [] | _ => [cik] end.
Proof. destruct h; reflexivity. Qed.

End TimelineFacts.

(** X16: every entry of the simplified tracker's timeline for a ticker is
    labelled with that ticker, is a 13F-HR filing of one of the five
    tracked institutions (its CIK and name as listed) from a year at least
    [now_year - 20], and copies the date, year, quarter and accession
    number of a filing in that institution's 20-year history. *)
Theorem timeline_provenance sub_get shard_get (now_year : Z) (tk : string)
    (e : Timeline.entry) :
  In e (create_institutional_timeline sub_get shard_get now_year tk) ->
  Timeline.ticker e = tk
  /\ Timeline.form_type e = "13F-HR"%string
  /\ In (Timeline.institution_cik e, Timeline.institution_name e) Timeline.major_institutions
  /\ now_year - 20 <= Timeline.filing_year e
  /\ exists f, In f (fst (get_comprehensive_13f_history sub_get shard_get
                           (Timeline.institution_cik e) 20 now_year))
       /\ e = Timeline.of_filing (Timeline.institution_name e) (Timeline.institution_cik e) tk f.
Proof.
  unfold create_institutional_timeline. intro H.
  apply in_flat_map in H. destruct H as [[cik name] [Hi H]]. cbn [fst snd] in H.
  apply in_map_iff in H. destruct H as [f [<- Hf]].
  destruct (TimelineFacts.comprehensive_kept _ _ _ _ _ _ Hf) as [Hform Hyear].
  cbn. repeat split; try assumption.
  exists f. split; [exact Hf|reflexivity].
Qed.

Lemma timeline_provenance_witness :
  exists e, In e (create_institutional_timeline ex_sub_get ex_shard_get 2025 "NVDA")
  /\ Timeline.ticker e = "NVDA"%string /\ Timeline.form_type e = "13F-HR"%string.
Proof.
  assert (H : In (Timeline.of_filing "Berkshire Hathaway Inc" "0001067983" "NVDA"
                    (Simplified.mkFiling "a1" "2021-11-15" "13F-HR" 2021 "Q4"))
                 (create_institutional_timeline ex_sub_get ex_shard_get 2025 "NVDA"))
    by (vm_compute; left; reflexivity).
  eexists. split; [exact H|].
  destruct (timeline_provenance ex_sub_get ex_shard_get 2025 "NVDA" _ H) as (Ht & Hf & _).
  split; assumption.
Defined.

(** X17: the timeline is not sorted as a whole: it is the concatenation of
    the per-institution histories, so with every institution filing a1
    (2021-11-15), b1 (2020-05-15) and a3 (2019-02-01), Berkshire Hathaway's
    2019 entry comes before Vanguard's 2021 one.  The entries of any one
    institution come out newest filing first. *)
Theorem timeline_sorted_per_institution sub_get shard_get (now_year : Z) (tk cik : string) :
  StronglySorted (fun a b => String.leb (Timeline.filing_date b) (Timeline.filing_date a) = true)
    (filter (fun e => String.eqb (Timeline.institution_cik e) cik)
       (create_institutional_timeline sub_get shard_get now_year tk))
  /\ ~ StronglySorted
        (fun a b => String.leb (Timeline.filing_date b) (Timeline.filing_date a) = true)
        (create_institutional_timeline ex_sub_get ex_shard_get 2025 "NVDA").
Proof.
  split.
  2:{ intro S.
      remember (create_institutional_timeline ex_sub_get ex_shard_get 2025 "NVDA") as l eqn:El.
      vm_compute in El. subst l.
      apply StronglySorted_inv in S as [S _]. apply StronglySorted_inv in S as [S _].
      apply StronglySorted_inv in S as [_ F]. inversion F as [|x y H]. vm_compute in H.
      discriminate H. }
  unfold create_institutional_timeline.
  rewrite TimelineFacts.filter_flat_map.
  rewrite (flat_map_ext _ (fun inst =>
             if String.eqb (fst inst) cik
             then map (Timeline.of_filing (snd inst) (fst inst) tk)
                      (fst (get_comprehensive_13f_history sub_get shard_get (fst inst) 20 now_year))
             else [])).
  2:{ intro inst. apply TimelineFacts.filter_block. }
  destruct (TimelineFacts.block_select Timeline.major_institutions cik
              (fun inst => map (Timeline.of_filing (snd inst) (fst inst) tk)
                 (fst (get_comprehensive_13f_history sub_get shard_get (fst inst) 20 now_year)))
              TimelineFacts.major_institutions_nodup) as [-> | [inst [_ [_ ->]]]].
  - constructor.
  - apply TimelineFacts.StronglySorted_map. cbn.
    apply TimelineFacts.comprehensive_sorted.
Qed.

(** X19: the simplified tracker's institution analysis has one row for each
    tracked institution with a non-empty 20-year history, in the listed
    order; a row gives the institution's CIK and name, its number of
    filings, between 1 and that many active years, an average of filings
    per active year that is at least 1 and times the years gives the
    filings, a consistency label "High" exactly when the average is at
    least 4 and "Low" exactly when it is below 2, and, the history being
    newest first, its first entry's date as last filing date and its last
    entry's date as first filing date. *)
Theorem institution_analysis_rows sub_get shard_get (now_year : Z) :
  let hist := fun cik => fst (get_comprehensive_13f_history sub_get shard_get cik 20 now_year) in
  map Analysis.institution_cik (_create_institution_analysis sub_get shard_get now_year)
  = map fst (filter (fun inst => match hist (fst inst) with [] => false | _ => true end)
                    Timeline.major_institutions)
  /\ forall r, In r (_create_institution_analysis sub_get shard_get now_year) ->
     In (Analysis.institution_cik r, Analysis.institution_name r) Timeline.major_institutions
     /\ exists f fs, hist (Analysis.institution_cik r) = f :: fs
        /\ Analysis.total_filings_20yr r = Z.of_nat (length (f :: fs))
        /\ 1 <= Analysis.years_active r <= Analysis.total_filings_20yr r
        /\ (Analysis.avg_filings_per_year r * inject_Z (Analysis.years_active r)
            == inject_Z (Analysis.total_filings_20yr r))%Q
        /\ (1 <= Analysis.avg_filings_per_year r)%Q
        /\ (Analysis.filing_consistency r = "High"%string <-> (4 <= Analysis.avg_filings_per_year r)%Q)
        /\ (Analysis.filing_consistency r = "Low"%string <-> (Analysis.avg_filings_per_year r < 2)%Q)
        /\ Analysis.last_filing_date r = Simplified.filing_date f
        /\ Analysis.first_filing_date r = Simplified.filing_date (last (f :: fs) f).
Proof.
  intro hist. unfold _create_institution_analysis. fold hist. split.
  - induction Timeline.major_institutions as [|[cik name] is IH]; [reflexivity|].
    cbn [flat_map filter fst snd]. rewrite map_app, TimelineFacts.analysis_row_cik.
    fold (hist cik). destruct (hist cik) as [|f fs]; [exact IH|]. cbn. f_equal. exact IH.
  - intros r H. apply in_flat_map in H. destruct H as [[cik name] [Hi H]]. cbn [fst snd] in H.
    unfold analysis_row in H. fold (hist cik) in H.
    destruct (hist cik) as [|f fs] eqn:Hh; [destruct H|].
    cbn [map] in H. destruct H as [<-|[]].
    cbn [Analysis.institution_cik Analysis.institution_name Analysis.total_filings_20yr
         Analysis.years_active Analysis.avg_filings_per_year Analysis.first_filing_date
         Analysis.last_filing_date Analysis.filing_consistency].
    split; [exact Hi|]. exists f, fs. split; [exact Hh|].
    set (n := length (unique Z.eq_dec (Simplified.filing_year f :: map Simplified.filing_year fs))).
    set (m := length (f :: fs)).
    assert (Hm : m = S (length fs)) by reflexivity.
    pose proof (UniqueFacts.length_unique Z.eq_dec
                  (Simplified.filing_year f :: map Simplified.filing_year fs)) as L1.
    pose proof (UniqueFacts.length_unique_pos Z.eq_dec
                  (Simplified.filing_year f :: map Simplified.filing_year fs)) as L2.
    fold n in L1, L2. specialize (L2 ltac:(discriminate)).
    cbn [length] in L1. rewrite length_map in L1.
    replace (0 <? n)%nat with true by (symmetry; apply Nat.ltb_lt; exact L2).
    set (avg := (inject_Z (Z.of_nat m) / inject_Z (Z.of_nat n))%Q).
    assert (Havg : (1 <= avg)%Q) by (apply YearlyFacts.ratio_ge1; lia).
    split; [reflexivity|]. split; [lia|]. split; [apply YearlyFacts.ratio_mult; lia|].
    split; [exact Havg|].
    pose proof (TimelineFacts.comprehensive_sorted sub_get shard_get cik 20 now_year) as S.
    assert (Sd : StronglySorted (fun a b => String.leb b a = true)
                   (Simplified.filing_date f :: map Simplified.filing_date fs)).
    { apply (TimelineFacts.StronglySorted_map _ _ (f :: fs)). rewrite <- Hh. exact S. }
    split; [|split; [|split]].
    + destruct (Qle_bool 4 avg) eqn:H4.
      * apply Qle_bool_iff in H4. split; [intros _; exact H4|reflexivity].
      * split; [destruct (Qle_bool 2 avg); discriminate|].
        intro C. apply Qle_bool_iff in C. congruence.
    + destruct (Qle_bool 4 avg) eqn:H4.
      * apply Qle_bool_iff in H4. split; [discriminate|].
        intro C. exfalso. apply (Qlt_not_le _ _ C). eapply Qle_trans; [|exact H4]. discriminate.
      * destruct (Qle_bool 2 avg) eqn:H2.
        -- apply Qle_bool_iff in H2. split; [discriminate|].
           intro C. exfalso. exact (Qlt_not_le _ _ C H2).
        -- split; [intros _|reflexivity].
           apply Qnot_le_lt. intro C. apply Qle_bool_iff in C. congruence.
    + apply TimelineFacts.str_max_head.
      inversion Sd; assumption.
    + rewrite (TimelineFacts.str_min_last _ _ Sd).
      clear. revert f. induction fs as [|g fs IH]; intro f; [reflexivity|].
      change (last (Simplified.filing_date g :: map Simplified.filing_date fs) (Simplified.filing_date f)
              = Simplified.filing_date (last (g :: fs) f)).
      rewrite TimelineFacts.last_default with (b := Simplified.filing_date g).
      rewrite IH. f_equal. symmetry. apply (TimelineFacts.last_default g fs f g).
Qed.
